(** * Psi backend: analysis pipeline services

    Shallow embedding of the service layer of the Psi backend
    (backend/app/services/*.py) together with the properties of the
    pipeline that the design document states about it.

    Conventions of the embedding:
    - Python [float] values are idealised as rationals [Q]; [int] values
      are [Z]; decimal literals are the exact fractions they denote.
    - a Python [dict] with string keys is a [gmap string _] where only
      lookups matter and an association list where iteration order does.
    - code that can raise returns a [Result]; the store and the cache are
      threaded explicitly. *)

From Stdlib Require Import QArith Qround Qabs Qminmax Lqa Lia ZArith.
From Stdlib Require Import Permutation Sorted.
From stdpp Require Import gmap strings list.

Local Open Scope Q_scope.

(** ** Python primitives shared by the services *)

Module Py.

(** Exceptions that the modelled code raises or lets through. *)
Inductive Exn : Type :=
| ValueError
| KeyError
| IndexError
| ZeroDivisionError
| ServiceUnavailableError
| DatabaseError
| TypeError
| HTTPException (status_code : Z)
| BackendError.

Inductive Result (A : Type) : Type :=
| Return (a : A)
| Raise (e : Exn).
Arguments Return {A} a.
Arguments Raise {A} e.

Definition bind {A B} (r : Result A) (k : A -> Result B) : Result B :=
  match r with
  | Return a => k a
  | Raise e => Raise e
  end.

(** [a < b] on floats. *)
Definition Qlt_bool (a b : Q) : bool := negb (Qle_bool b a).

(** [int(x)]: truncation towards zero. *)
Definition int (x : Q) : Z := Z.quot (Qnum x) (Zpos (Qden x)).

(** Rounding of an exact value to the nearest integer, ties to even,
    which is what [round] does. *)
Definition round_half_even (x : Q) : Z :=
  let f := Qfloor x in
  let r := x - inject_Z f in
  if Qlt_bool r (1#2) then f
  else if Qlt_bool (1#2) r then (f + 1)%Z
  else if Z.even f then f else (f + 1)%Z.

(** [round(x, 1)]. *)
Definition round1 (x : Q) : Q := round_half_even (x * 10) # 10.

(** [l.sort(key=key, reverse=True)]: a stable sort, so entries of
    equal key keep their relative order. *)
Fixpoint insert_desc {A} (key : A -> Q) (x : A) (l : list A) : list A :=
  match l with
  | [] => [x]
  | y :: l' =>
      if Qlt_bool (key x) (key y) then y :: insert_desc key x l'
      else x :: l
  end.

Definition sort_reverse {A} (key : A -> Q) (l : list A) : list A :=
  foldr (insert_desc key) [] l.

(** [l[:k]]: a negative [k] counts from the end. *)
Definition slice_to {A} (l : list A) (k : Z) : list A :=
  if (0 <=? k)%Z then firstn (Z.to_nat k) l
  else firstn (Z.to_nat (Z.of_nat (length l) + k)) l.

(** [s.lower()], on ASCII letters. *)
Definition lower_ascii (c : Ascii.ascii) : Ascii.ascii :=
  let n := Ascii.N_of_ascii c in
  if ((65 <=? n) && (n <=? 90))%N then Ascii.ascii_of_N (n + 32) else c.

Fixpoint lower (s : string) : string :=
  match s with
  | EmptyString => EmptyString
  | String c s' => String (lower_ascii c) (lower s')
  end.

End Py.

#[global] Instance result_ret : MRet Py.Result := @Py.Return.
#[global] Instance result_bind : MBind Py.Result :=
  fun A B k r => Py.bind r k.

(** ** emotion_analysis.py *)

Module Emotion.

(** [class EmotionType]: eight string constants. *)
Definition STRESS : string := "stress".
Definition FATIGUE : string := "fatigue".
Definition ANXIETY : string := "anxiety".
Definition HAPPINESS : string := "happiness".
Definition EXCITEMENT : string := "excitement".
Definition CALMNESS : string := "calmness".
Definition FOCUS : string := "focus".
Definition APATHY : string := "apathy".

Definition emotion_types : list string :=
  [STRESS; FATIGUE; ANXIETY; HAPPINESS; EXCITEMENT; CALMNESS; FOCUS; APATHY].

(** A value of a rule entry: a 2-tuple of numbers or a string marker.
    The code tells them apart with [isinstance(_, tuple)]. *)
Inductive RuleValue : Type :=
| RTuple (lo hi : Q)
| RStr (s : string).

Record Rules : Type := mkRules {
  rule_hrv : RuleValue;
  rule_hr : RuleValue;
  rule_coherence : RuleValue
}.

(** [EMOTION_RULES], in the insertion order of the dict literal. *)
Definition EMOTION_RULES : list (string * Rules) :=
  [ (STRESS,     mkRules (RTuple 20 50)  (RTuple 85 120) (RTuple 0 (1#2)));
    (FATIGUE,    mkRules (RTuple 20 40)  (RTuple 50 70)  (RTuple 0 (3#10)));
    (ANXIETY,    mkRules (RStr "unstable") (RTuple 85 120) (RTuple 0 (3#10)));
    (HAPPINESS,  mkRules (RTuple 60 100) (RTuple 70 85)  (RTuple (8#10) 1));
    (EXCITEMENT, mkRules (RTuple 40 60)  (RTuple 90 110) (RTuple (6#10) (9#10)));
    (CALMNESS,   mkRules (RTuple 70 100) (RTuple 55 70)  (RTuple (8#10) 1));
    (FOCUS,      mkRules (RTuple 50 70)  (RTuple 80 95)  (RTuple (9#10) 1));
    (APATHY,     mkRules (RTuple 30 50)  (RTuple 50 65)  (RTuple (3#10) (6#10))) ].

Definition ANXIETY_RULES : Rules :=
  mkRules (RStr "unstable") (RTuple 85 120) (RTuple 0 (3#10)).

(** [_calculate_emotion_score]: the three blocks of the source, in
    order, each guarded by its [isinstance] test. *)
Definition _calculate_emotion_score
    (hrv : Q) (hr : Z) (coherence : Q) (rules : Rules) : Q :=
  let score := 0 in
  let score :=
    match rule_hrv rules with
    | RTuple hrv_min hrv_max =>
        if Qle_bool hrv_min hrv && Qle_bool hrv hrv_max then score + 40
        else
          let distance := Qmin (Qabs (hrv - hrv_min)) (Qabs (hrv - hrv_max)) in
          score + Qmax 0 (40 - distance * (1#2))
    | RStr _ => score
    end in
  let score :=
    match rule_hr rules with
    | RTuple hr_min hr_max =>
        if Qle_bool hr_min (inject_Z hr) && Qle_bool (inject_Z hr) hr_max
        then score + 40
        else
          let distance :=
            Qmin (Qabs (inject_Z hr - hr_min)) (Qabs (inject_Z hr - hr_max)) in
          score + Qmax 0 (40 - distance * (1#2))
    | RStr _ => score
    end in
  let score :=
    match rule_coherence rules with
    | RTuple coh_min coh_max =>
        if Qle_bool coh_min coherence && Qle_bool coherence coh_max
        then score + 20
        else
          let distance :=
            Qmin (Qabs (coherence - coh_min)) (Qabs (coherence - coh_max)) in
          score + Qmax 0 (20 - distance * 20)
    | RStr _ => score
    end in
  Qmin 100 score.

(** [{emotion: score for emotion, score in emotions}]: later bindings
    of a key overwrite earlier ones. *)
Definition dict_of_pairs (l : list (string * Q)) : gmap string Q :=
  foldl (fun m kv => <[kv.1 := kv.2]> m) ∅ l.

Record EmotionAnalysisResult : Type := mkResult {
  type : string;
  score : Z;
  all_emotions : gmap string Q;
  res_hrv : Q;
  heart_rate : Z
}.

(** [classify_emotion] over an arbitrary rule table; [emotions[0]]
    raises on an empty table. *)
Definition classify_emotion_with (table : list (string * Rules))
    (hrv : Q) (hr : Z) (coherence : Q) : Py.Result EmotionAnalysisResult :=
  let emotions :=
    map (fun er => (er.1, _calculate_emotion_score hrv hr coherence er.2))
        table in
  let emotions := Py.sort_reverse snd emotions in
  match emotions with
  | [] => Py.Raise Py.IndexError
  | (top_emotion, top_score) :: _ =>
      Py.Return (mkResult top_emotion (Py.int top_score)
                          (dict_of_pairs emotions) hrv hr)
  end.

Definition classify_emotion (hrv : Q) (hr : Z) (coherence : Q)
    : Py.Result EmotionAnalysisResult :=
  classify_emotion_with EMOTION_RULES hrv hr coherence.

End Emotion.

(** ** image_recognition.py *)

Module Image.

(** [settings] (core/config.py), the fields the services read. *)
Record Settings : Type := mkSettings {
  YOLO_CONFIDENCE_THRESHOLD : Q;
  YOLO_HIGH_CONFIDENCE_THRESHOLD : Q;
  FREE_TIER_DAILY_LIMIT : Z
}.

Definition settings : Settings := mkSettings (1#2) (8#10) 3.

(** One detection dict. YOLO detections carry no ['weight_grams']. *)
Record Detection : Type := mkDetection {
  class : string;
  confidence : Q;
  bbox : list Q;
  weight_grams : option Q
}.

(** One entry of the ['foods'] list that the fallback is asked for;
    ['weight_grams'] is read with [.get(_, 200)]. *)
Record Food : Type := mkFood {
  name : string;
  food_confidence : Q;
  food_weight_grams : option Q
}.

(** The JSON object returned by [_run_claude_inference]; the only key
    read is ['foods'], which may be missing. *)
Record ClaudeResults : Type := mkClaudeResults {
  foods : option (list Food)
}.

(** Calls that [analyze_food_image] makes on its collaborators. *)
Inductive Call : Type :=
| CacheGet (key : string)
| Preprocess
| YoloInference
| ClaudeInference
| CacheSetex (key : string) (ttl : Z).

(** The Redis cache (value stored as JSON, kept here decoded) and the
    log of calls made so far. *)
Record State : Type := mkState {
  redis : gmap string (list Detection);
  calls : list Call
}.

Definition log (c : Call) (st : State) : State :=
  mkState (redis st) (calls st ++ [c]).

(** [sum(d['confidence'] for d in detections)]. *)
Definition sum_confidence (detections : list Detection) : Q :=
  foldl (fun acc d => acc + confidence d) 0 detections.

(** [sum(...) / len(detections) if detections else 0]. *)
Definition avg_confidence (detections : list Detection) : Q :=
  match detections with
  | [] => 0
  | _ => sum_confidence detections / inject_Z (Z.of_nat (length detections))
  end.

(** [_merge_detections]. *)
Definition _merge_detections (yolo_results : list Detection)
    (claude_results : ClaudeResults) : list Detection :=
  match foods claude_results with
  | Some fs =>
      map (fun food =>
             mkDetection (name food) (food_confidence food)
                         [0; 0; 640; 640]
                         (Some (default 200 (food_weight_grams food))))
          fs
  | None => yolo_results
  end.

Section Analyze.

(** The collaborators: hashing, decoding, the primary detector and
    the fallback detector. The last three may raise. *)
Variable Img : Type.
Variable cfg : Settings.
Variable _get_cache_key : list Byte.byte -> string.
Variable _preprocess_image : list Byte.byte -> Py.Result Img.
Variable _run_yolo_inference : Img -> Py.Result (list Detection).
Variable _run_claude_inference : list Byte.byte -> Py.Result ClaudeResults.

Definition cache_name (cache_key : string) : string :=
  ("food_detection:" ++ cache_key)%string.

(** [analyze_food_image]. An exception leaves the function at once,
    with the state reached so far. *)
Definition analyze_food_image (image_bytes : list Byte.byte) (st : State)
    : Py.Result (list Detection) * State :=
  let cache_key := _get_cache_key image_bytes in
  let st := log (CacheGet (cache_name cache_key)) st in
  match redis st !! cache_name cache_key with
  | Some cached_result => (Py.Return cached_result, st)
  | None =>
      let st := log Preprocess st in
      match _preprocess_image image_bytes with
      | Py.Raise e => (Py.Raise e, st)
      | Py.Return image =>
          let st := log YoloInference st in
          match _run_yolo_inference image with
          | Py.Raise e => (Py.Raise e, st)
          | Py.Return detections =>
              let merged :=
                if Py.Qlt_bool (avg_confidence detections)
                               (YOLO_HIGH_CONFIDENCE_THRESHOLD cfg)
                then
                  match _run_claude_inference image_bytes with
                  | Py.Raise e =>
                      (Py.Raise e, log ClaudeInference st)
                  | Py.Return claude_results =>
                      (Py.Return
                         (_merge_detections detections claude_results),
                       log ClaudeInference st)
                  end
                else (Py.Return detections, st) in
              match merged with
              | (Py.Raise e, st) => (Py.Raise e, st)
              | (Py.Return detections, st) =>
                  let st := log (CacheSetex (cache_name cache_key) 86400) st in
                  (Py.Return detections,
                   mkState (<[cache_name cache_key := detections]> (redis st))
                           (calls st))
              end
          end
      end
  end.

End Analyze.

(** [estimate_portion_size]. Unpacking a [bbox] that does not have
    four entries raises, and so does a zero pixel count. *)
Definition estimate_portion_size (bbox : list Q) (image_size : Z * Z)
    : Py.Result Q :=
  match bbox with
  | [x1; y1; x2; y2] =>
      let food_pixels := (x2 - x1) * (y2 - y1) in
      let total_pixels := (image_size.1 * image_size.2)%Z in
      if (total_pixels =? 0)%Z then Py.Raise Py.ZeroDivisionError
      else
        let ratio := food_pixels / inject_Z total_pixels in
        let estimated_grams := (ratio / (1#2)) * 200 in
        Py.Return (Qmax 50 (Qmin 500 estimated_grams))
  | _ => Py.Raise Py.ValueError
  end.

End Image.

(** ** nutrition_analysis.py *)

Module Nutrition.

(** Values held by a nutrition dict. *)
Inductive PyVal : Type :=
| VStr (s : string)
| VNum (q : Q).

(** One row of the [foods] table, in the column order of the query. *)
Record FoodRow : Type := mkFoodRow {
  row_name : string;
  row_calories : Q; row_protein : Q; row_carbs : Q; row_fat : Q;
  row_fiber : Q; row_sugar : Q; row_sodium : Q; row_calcium : Q;
  row_iron : Q; row_vitamin_a : Q; row_vitamin_c : Q
}.

(** Stage 3 of [get_nutrition_info]: the dict built from the row. *)
Definition scale_row (result : FoodRow) (portion_grams : Q)
    : gmap string PyVal :=
  let multiplier := portion_grams / 100 in
  <["name" := VStr (row_name result)]>
  (<["portion_grams" := VNum portion_grams]>
  (<["calories" := VNum (Py.round1 (row_calories result * multiplier))]>
  (<["protein" := VNum (Py.round1 (row_protein result * multiplier))]>
  (<["carbs" := VNum (Py.round1 (row_carbs result * multiplier))]>
  (<["fat" := VNum (Py.round1 (row_fat result * multiplier))]>
  (<["fiber" := VNum (Py.round1 (row_fiber result * multiplier))]>
  (<["sugar" := VNum (Py.round1 (row_sugar result * multiplier))]>
  (<["sodium" := VNum (Py.round1 (row_sodium result * multiplier))]>
  (<["calcium" := VNum (Py.round1 (row_calcium result * multiplier))]>
  (<["iron" := VNum (Py.round1 (row_iron result * multiplier))]>
  (<["vitamin_a" := VNum (Py.round1 (row_vitamin_a result * multiplier))]>
  (<["vitamin_c" := VNum (Py.round1 (row_vitamin_c result * multiplier))]>
   ∅)))))))))))).

Section Lookup.

(** [self.db]: [None] when the database file is missing, else the
    [LIKE ... LIMIT 1] query. [self.redis_client] may be [None]
    too. The cache key is an f-string over the name and the grams. *)
Variable db : option (string -> option FoodRow).
Variable redis_available : bool.
Variable cache_key_of : string -> Q -> string.

Definition get_nutrition_info (food_name : string) (portion_grams : Q)
    (redis : gmap string (gmap string PyVal))
    : option (gmap string PyVal) * gmap string (gmap string PyVal) :=
  match db with
  | None => (None, redis)
  | Some query =>
      let cache_key := cache_key_of food_name portion_grams in
      match (if redis_available then redis !! cache_key else None) with
      | Some cached => (Some cached, redis)
      | None =>
          match query food_name with
          | None => (None, redis)
          | Some result =>
              let nutrition := scale_row result portion_grams in
              (Some nutrition,
               if redis_available then <[cache_key := nutrition]> redis
               else redis)
          end
      end
  end.

End Lookup.

(** A food item as [calculate_total_nutrition] sees it: a dict that
    may or may not have a ['nutrition'] entry. *)
Record FoodItem : Type := mkFoodItem {
  nutrition : option (gmap string PyVal)
}.

(** The keys of the [total] dict literal, in order. *)
Definition TOTAL_KEYS : list string :=
  ["calories"; "protein"; "carbs"; "fat"; "fiber"; "sugar"; "sodium";
   "calcium"; "iron"; "vitamin_a"; "vitamin_c"]%string.

Definition total_init : gmap string Q :=
  foldr (fun k m => <[k := 0]> m) ∅ TOTAL_KEYS.

(** [total[key] += item['nutrition'].get(key, 0)]. *)
Definition add_key (nut : gmap string PyVal) (total : gmap string Q)
    (key : string) : Py.Result (gmap string Q) :=
  match total !! key with
  | None => Py.Raise Py.KeyError
  | Some t =>
      match default (VNum 0) (nut !! key) with
      | VNum v => Py.Return (<[key := t + v]> total)
      | VStr _ => Py.Raise Py.TypeError
      end
  end.

(** The body of the loop over the items. *)
Definition add_item (total : gmap string Q) (item : FoodItem)
    : Py.Result (gmap string Q) :=
  match nutrition item with
  | Some nut =>
      foldl (fun acc key => total ← acc; add_key nut total key)
            (Py.Return total) TOTAL_KEYS
  | None => Py.Return total
  end.

Definition calculate_total_nutrition (food_items : list FoodItem)
    : Py.Result (gmap string Q) :=
  total ← foldl (fun acc item => total ← acc; add_item total item)
                (Py.Return total_init) food_items;
  Py.Return (Py.round1 <$> total).

End Nutrition.

(** ** recipe_matching.py *)

Module Recipe.

(** A recipe dict; ['cooking_time'] and ['difficulty'] are read with
    [.get], so they may be missing. *)
Record Recipe : Type := mkRecipe {
  recipe_id : string;
  name : string;
  ingredients : list string;
  cooking_time : option Z;
  difficulty : option string;
  emotion_types : list string
}.

(** [_load_recipes]: the placeholder catalogue. *)
Definition _load_recipes : list Recipe :=
  [ mkRecipe "1" "Simple Pasta" ["pasta"; "tomato"; "garlic"; "olive oil"]%string
             (Some 15%Z) (Some "easy"%string) ["stress"; "fatigue"]%string ].

(** A candidate dict: the recipe's entries and the ones added by
    [_search_recipes] and then by [match_recipes]. *)
Record Found : Type := mkFound {
  found_recipe : Recipe;
  available_ingredients : nat;
  total_ingredients : nat
}.

Record Candidate : Type := mkCandidate {
  found : Found;
  emotion_score : Q;
  ingredient_match : Q
}.

(** [set(ing.lower() for ing in l)]. *)
Definition lower_set (l : list string) : gset string :=
  list_to_set (map Py.lower l).

Definition Qnat (n : nat) : Q := inject_Z (Z.of_nat n).

(** [_search_recipes]: the division raises on a recipe without
    ingredients. *)
Fixpoint _search_recipes (recipes : list Recipe) (ingredients : list string)
    : Py.Result (list Found) :=
  match recipes with
  | [] => Py.Return []
  | recipe :: recipes' =>
      let ingredient_set := lower_set ingredients in
      let recipe_ingredients := lower_set (Recipe.ingredients recipe) in
      let match_count := size (ingredient_set ∩ recipe_ingredients) in
      let total_needed := size recipe_ingredients in
      if Nat.eqb total_needed 0 then Py.Raise Py.ZeroDivisionError
      else
        candidates ← _search_recipes recipes' ingredients;
        if Qle_bool (7#10) (Qnat match_count / Qnat total_needed)
        then Py.Return (mkFound recipe match_count total_needed :: candidates)
        else Py.Return candidates
  end.

(** [_calculate_ingredient_match]. *)
Definition _calculate_ingredient_match (available required : list string) : Q :=
  let available_set := lower_set available in
  let required_set := lower_set required in
  if Nat.eqb (size required_set) 0 then 0
  else
    let match_count := size (available_set ∩ required_set) in
    Qnat match_count / Qnat (size required_set).

(** The [emotion_preferences] table. *)
Definition emotion_preferences : gmap string (Z * Z * string) :=
  list_to_map
    [ ("stress", (5, 15, "easy")); ("fatigue", (10, 20, "easy"));
      ("anxiety", (5, 10, "easy")); ("happiness", (20, 40, "medium"));
      ("excitement", (15, 30, "medium")); ("calmness", (20, 40, "medium"));
      ("focus", (25, 45, "hard")); ("apathy", (5, 15, "easy")) ]%Z%string.

(** [_score_by_emotion]. *)
Definition _score_by_emotion (recipe : Recipe) (emotion_type : string) : Q :=
  let base_score := 1#2 in
  match emotion_preferences !! emotion_type with
  | None => Qmin 1 base_score
  | Some (target_min, target_max, pref_difficulty) =>
      let actual := default 15%Z (cooking_time recipe) in
      let target_avg := inject_Z (target_min + target_max) / 2 in
      let time_diff := Qabs (inject_Z actual - target_avg) in
      let time_score := Qmax 0 (1 - time_diff / 30) in
      let base_score := base_score + time_score * (1#4) in
      let base_score :=
        if decide (difficulty recipe = Some pref_difficulty)
        then base_score + (1#4) else base_score in
      Qmin 1 base_score
  end.

(** The sort key of [match_recipes]. *)
Definition final_score (x : Candidate) : Q :=
  (emotion_score x + ingredient_match x) / 2.

(** [match_recipes], over the catalogue held in [self.recipes]. *)
Definition match_recipes (recipes : list Recipe)
    (ingredients : list string) (emotion_type : string) (top_k : Z)
    : Py.Result (list Candidate) :=
  candidates ← _search_recipes recipes ingredients;
  let candidates :=
    map (fun f =>
           mkCandidate f
             (_score_by_emotion (found_recipe f) emotion_type)
             (_calculate_ingredient_match
                ingredients (Recipe.ingredients (found_recipe f))))
        candidates in
  let candidates := Py.sort_reverse final_score candidates in
  Py.Return (Py.slice_to candidates top_k).

(** [generate_shopping_list]: the required ingredients that are not
    available, compared in lower case. The order of [list(missing)] is
    that of the set's iteration and carries no meaning. *)
Definition generate_shopping_list (available : list string) (recipe : Recipe)
    : list string :=
  let available_set := lower_set available in
  let required_set := lower_set (ingredients recipe) in
  let missing := required_set ∖ available_set in
  elements missing.

End Recipe.

(** ** database_service.py: the usage ledger *)

Module Usage.

Definition ALLOWED_USAGE_TYPES : gset string :=
  {[ "food_analyses"; "fridge_analyses"; "wellness_checks" ]}%string.

(** A row of [daily_usage]. The row is keyed by [(user_id, date)] and
    has one counter column per usage type. *)
Record Row : Type := mkRow {
  usage_id : string;
  counters : gmap string Z
}.

(** Modelled from the spec: the declaration of the [daily_usage] table
    is not part of the sources. Its counter columns are the three
    whitelisted usage types, and a counter that was never incremented
    reads as 0. *)
Definition default_counters : gmap string Z :=
  {[ "food_analyses" := 0%Z; "fridge_analyses" := 0%Z;
     "wellness_checks" := 0%Z ]}%string.

(** The two statements sent to the store. *)
Inductive Query : Type :=
| SelectUsage (usage_type user_id : string) (date : Z)
| UpsertUsage (usage_id usage_type user_id : string) (date : Z).

(** The store: the table, whether the backend answers, and the log of
    the statements it was sent. *)
Record Db : Type := mkDb {
  daily_usage : gmap (string * Z) Row;
  available : bool;
  statements : list Query
}.

(** [db.execute_one]: one statement, executed atomically by the
    store. The returned row holds the selected or returned column. *)
Definition execute_one (q : Query) (db : Db)
    : Py.Result (option (gmap string Z)) * Db :=
  let db := mkDb (daily_usage db) (available db) (statements db ++ [q]) in
  if negb (available db) then (Py.Raise Py.BackendError, db)
  else
    match q with
    | SelectUsage usage_type user_id date =>
        if decide (usage_type ∈ dom default_counters) then
          match daily_usage db !! (user_id, date) with
          | None => (Py.Return None, db)
          | Some row =>
              (Py.Return
                 (Some {[ usage_type := default 0%Z (counters row !! usage_type) ]}),
               db)
          end
        else (Py.Raise Py.BackendError, db)
    | UpsertUsage uid usage_type user_id date =>
        if decide (usage_type ∈ dom default_counters) then
          let row :=
            match daily_usage db !! (user_id, date) with
            | None => mkRow uid (<[usage_type := 1%Z]> default_counters)
            | Some row =>
                mkRow (usage_id row)
                      (<[usage_type :=
                           (default 0%Z (counters row !! usage_type) + 1)%Z]>
                         (counters row))
            end in
          (Py.Return
             (Some {[ usage_type := default 0%Z (counters row !! usage_type) ]}),
           mkDb (<[(user_id, date) := row]> (daily_usage db))
                (available db) (statements db))
        else (Py.Raise Py.BackendError, db)
    end.

(** [check_daily_usage]; [today] is [datetime.utcnow().date()]. *)
Definition check_daily_usage (today : Z) (user_id usage_type : string)
    (db : Db) : Py.Result Z * Db :=
  if decide (usage_type ∈ ALLOWED_USAGE_TYPES) then
    match execute_one (SelectUsage usage_type user_id today) db with
    | (Py.Return None, db) => (Py.Return 0%Z, db)
    | (Py.Return (Some row), db) =>
        match row !! usage_type with
        | Some n => (Py.Return n, db)
        | None => (Py.Raise Py.ServiceUnavailableError, db)
        end
    | (Py.Raise _, db) => (Py.Raise Py.ServiceUnavailableError, db)
    end
  else (Py.Raise Py.ValueError, db).

(** [increment_daily_usage]; [new_id] is [str(uuid.uuid4())]. *)
Definition increment_daily_usage (today : Z) (new_id : string)
    (user_id usage_type : string) (db : Db) : Py.Result Z * Db :=
  if decide (usage_type ∈ ALLOWED_USAGE_TYPES) then
    match execute_one (UpsertUsage new_id usage_type user_id today) db with
    | (Py.Return (Some row), db) =>
        match row !! usage_type with
        | Some new_count => (Py.Return new_count, db)
        | None => (Py.Raise Py.DatabaseError, db)
        end
    | (Py.Return None, db) => (Py.Raise Py.DatabaseError, db)
    | (Py.Raise _, db) => (Py.Raise Py.DatabaseError, db)
    end
  else (Py.Raise Py.ValueError, db).

(** The counter that a usage type has for a user on a date, if any. *)
Definition counter (db : Db) (user_id : string) (date : Z)
    (usage_type : string) : option Z :=
  row ← daily_usage db !! (user_id, date); counters row !! usage_type.

End Usage.

(** ** api/v1/food_enhanced.py: the quota gate of the food pipeline *)

Module Api.

Section Pipeline.

(** Steps 1 and 3 to 8 of [process_food_image] are collaborators of
    the gate: image validation and the analysis itself. *)
Variable Response : Type.
Variable cfg : Image.Settings.
Variable validate_image : list Byte.byte -> Py.Result unit.
Variable analyse_and_save :
  list Byte.byte -> string -> Usage.Db -> Py.Result Response * Usage.Db.

Definition process_food_image (today : Z) (new_id : string)
    (image_bytes : list Byte.byte) (user_id : string) (db : Usage.Db)
    : Py.Result Response * Usage.Db :=
  match validate_image image_bytes with
  | Py.Raise e => (Py.Raise e, db)
  | Py.Return _ =>
      match Usage.check_daily_usage today user_id "food_analyses" db with
      | (Py.Raise e, db) => (Py.Raise e, db)
      | (Py.Return usage_count, db) =>
          if (Image.FREE_TIER_DAILY_LIMIT cfg <=? usage_count)%Z
          then (Py.Raise (Py.HTTPException 429), db)
          else
            match analyse_and_save image_bytes user_id db with
            | (Py.Raise e, db) => (Py.Raise e, db)
            | (Py.Return response, db) =>
                match Usage.increment_daily_usage
                        today new_id user_id "food_analyses" db with
                | (Py.Raise e, db) => (Py.Raise e, db)
                | (Py.Return _, db) => (Py.Return response, db)
                end
            end
      end
  end.

End Pipeline.

End Api.

(** ** api/v1/wellness_enhanced.py: the wellness score *)

Module Wellness.

(** [calculate_wellness_score]. The floats are idealised as rationals:
    where the exact total lies within a rounding error of an integer,
    [int(total)] of the doubles can differ by one from the value
    computed here. *)
Definition calculate_wellness_score (hrv : Q) (heart_rate : Z)
    (emotion_score : Z) : Z :=
  let hrv_score := Qmin 40 ((hrv / 100) * 40) in
  let optimal_hr := 70%Z in
  let hr_deviation := Z.abs (heart_rate - optimal_hr) in
  let hr_score := Qmax 0 (40 - inject_Z hr_deviation * (1#2)) in
  let emotion_component := (inject_Z emotion_score / 100) * 20 in
  let total := hrv_score + hr_score + emotion_component in
  Z.min 100 (Z.max 0 (Py.int total)).

End Wellness.

(** ** api/v1/fridge_enhanced.py: ingredients of several images *)

Module Fridge.

Record DetectedIngredient : Type := mkDetectedIngredient {
  name : string;
  confidence : Q;
  quantity : string
}.

(** The first loop of [detect_ingredients_from_images], over the list
    that [asyncio.gather(..., return_exceptions=True)] returned: one
    entry per image, a detection list or the exception of that image. *)
Fixpoint all_ingredients (results : list (Py.Result (list Image.Detection)))
    : list DetectedIngredient :=
  match results with
  | [] => []
  | Py.Raise _ :: results' => all_ingredients results'
  | Py.Return result :: results' =>
      map (fun detection =>
             mkDetectedIngredient (Image.class detection)
               (Image.confidence detection) "unknown")
          result
      ++ all_ingredients results'
  end.

(** One step of the second loop. [unique_ingredients] is a dict: a new
    name goes to the end, a replaced value keeps the place of its key. *)
Fixpoint keep_best (ing : DetectedIngredient)
    (unique_ingredients : list (string * DetectedIngredient))
    : list (string * DetectedIngredient) :=
  match unique_ingredients with
  | [] => [(name ing, ing)]
  | (k, v) :: rest =>
      if String.eqb k (name ing) then
        if Py.Qlt_bool (confidence v) (confidence ing) then (k, ing) :: rest
        else unique_ingredients
      else (k, v) :: keep_best ing rest
  end.

(** [detect_ingredients_from_images], from the gathered results on. *)
Definition detect_ingredients_from_images
    (results : list (Py.Result (list Image.Detection)))
    : list DetectedIngredient :=
  let unique_ingredients :=
    foldl (fun d ing => keep_best ing d) [] (all_ingredients results) in
  map snd unique_ingredients.

End Fridge.

(** ** Specification-side definitions *)

Module Spec.

(** The points one axis contributes: full weight inside the interval,
    a linear decay outside, nothing for a rule that is not a tuple. *)
Definition axis_points (weight coef : Q) (rule : Emotion.RuleValue) (x : Q) : Q :=
  match rule with
  | Emotion.RTuple lo hi =>
      if Qle_bool lo x && Qle_bool x hi then weight
      else Qmax 0 (weight - Qmin (Qabs (x - lo)) (Qabs (x - hi)) * coef)
  | Emotion.RStr _ => 0
  end.

(** [clamp(x, lo, hi)] as the design document writes it. *)
Definition clamp (x lo hi : Q) : Q :=
  if Py.Qlt_bool x lo then lo else if Py.Qlt_bool hi x then hi else x.

(** A list is in descending order of [key]. *)
Definition descending {A} (key : A -> Q) (l : list A) : Prop :=
  StronglySorted (fun a b => key b <= key a) l.

(** The arithmetic mean of a list of numbers, 0 for the empty list. *)
Definition mean (l : list Q) : Q :=
  match l with
  | [] => 0
  | _ => foldr Qplus 0 l / inject_Z (Z.of_nat (length l))
  end.

(** How often the fallback detector was called, according to the log. *)
Definition fallback_calls (st : Image.State) : nat :=
  length (List.filter (fun c => match c with
                                | Image.ClaudeInference => true
                                | _ => false
                                end) (Image.calls st)).

(** The detection that stands for one entry of the fallback's list. *)
Definition detection_of_food (food : Image.Food) : Image.Detection :=
  Image.mkDetection (Image.name food) (Image.food_confidence food)
                    [0; 0; 640; 640]
                    (Some (default 200 (Image.food_weight_grams food))).

(** The number a nutrition dict holds under a key, 0 when the key is
    absent. *)
Definition nut_value (nut : gmap string Nutrition.PyVal) (key : string) : Q :=
  match nut !! key with
  | Some (Nutrition.VNum v) => v
  | _ => 0
  end.

(** What one item contributes to a nutrient. *)
Definition item_value (item : Nutrition.FoodItem) (key : string) : Q :=
  match Nutrition.nutrition item with
  | Some nut => nut_value nut key
  | None => 0
  end.

(** The element-wise sum of the per-item profiles, at one key. *)
Definition elementwise_sum (items : list Nutrition.FoodItem) (key : string) : Q :=
  foldr (fun item acc => item_value item key + acc) 0 items.

(** The nutrient entries of an item are numbers rounded to one decimal
    place, as [get_nutrition_info] produces them; entries may be
    missing. *)
Definition one_decimal_item (item : Nutrition.FoodItem) : Prop :=
  forall nut, Nutrition.nutrition item = Some nut ->
  forall key, key ∈ Nutrition.TOTAL_KEYS ->
    nut !! key = None \/
    exists x, nut !! key = Some (Nutrition.VNum (Py.round1 x)).

(** A nutrition dict holds a number, or nothing, under a key. *)
Definition numeric_at (nut : gmap string Nutrition.PyVal) (key : string) : Prop :=
  nut !! key = None \/ exists v, nut !! key = Some (Nutrition.VNum v).

(** Every nutrient entry of an item is a number. *)
Definition numeric_item (item : Nutrition.FoodItem) : Prop :=
  forall nut, Nutrition.nutrition item = Some nut ->
  forall key, key ∈ Nutrition.TOTAL_KEYS -> numeric_at nut key.

(** The ingredient match ratio: matched required ingredients over
    required ingredients, compared case-insensitively as sets. *)
Definition match_ratio (available required : list string) : Q :=
  Recipe.Qnat (size (Recipe.lower_set available ∩ Recipe.lower_set required))
  / Recipe.Qnat (size (Recipe.lower_set required)).

(** The nutrient keys with the columns of the reference row they are
    computed from. *)
Definition columns : list (string * (Nutrition.FoodRow -> Q)) :=
  [ ("calories", Nutrition.row_calories); ("protein", Nutrition.row_protein);
    ("carbs", Nutrition.row_carbs); ("fat", Nutrition.row_fat);
    ("fiber", Nutrition.row_fiber); ("sugar", Nutrition.row_sugar);
    ("sodium", Nutrition.row_sodium); ("calcium", Nutrition.row_calcium);
    ("iron", Nutrition.row_iron); ("vitamin_a", Nutrition.row_vitamin_a);
    ("vitamin_c", Nutrition.row_vitamin_c) ]%string.

(** Two items hold the same entries under the nutrient keys. *)
Definition same_nutrients (a b : Nutrition.FoodItem) : Prop :=
  match Nutrition.nutrition a, Nutrition.nutrition b with
  | Some n, Some n' =>
      forall key, key ∈ Nutrition.TOTAL_KEYS -> n !! key = n' !! key
  | None, None => True
  | _, _ => False
  end.

(** The state of the running total inside [calculate_total_nutrition]:
    a dict that has all the nutrient keys, or a raised [TypeError]. *)
Definition running_total (acc : Py.Result (gmap string Q)) : Prop :=
  acc = Py.Raise Py.TypeError \/
  exists total, acc = Py.Return total /\
                forall k, k ∈ Nutrition.TOTAL_KEYS -> is_Some (total !! k).

(** The invariant of the second loop of
    [detect_ingredients_from_images]: the dict has one entry per name
    seen so far, and each entry is a seen ingredient of that name with
    the largest confidence. *)
Definition best_so_far (d : list (string * Fridge.DetectedIngredient))
    (seen : list Fridge.DetectedIngredient) : Prop :=
  NoDup d.*1 /\
  (forall k v, (k, v) ∈ d ->
     Fridge.name v = k /\ v ∈ seen /\
     forall i, i ∈ seen -> Fridge.name i = k ->
               Fridge.confidence i <= Fridge.confidence v) /\
  (forall i, i ∈ seen -> Fridge.name i ∈ d.*1).

(** A reading lies in the interval of a rule entry. *)
Definition in_rule (rule : Emotion.RuleValue) (x : Q) : Prop :=
  match rule with
  | Emotion.RTuple lo hi => lo <= x /\ x <= hi
  | Emotion.RStr _ => False
  end.

(** The store after [n] successive increments of one counter. *)
Fixpoint increments (n : nat) (today : Z) (user_id usage_type : string)
    (db : Usage.Db) : Usage.Db :=
  match n with
  | O => db
  | S n' =>
      (Usage.increment_daily_usage today "id" user_id usage_type
         (increments n' today user_id usage_type db)).2
  end.

(** A box lies inside an image of the given size. *)
Definition in_frame (x1 y1 x2 y2 : Q) (w h : Z) : Prop :=
  0 <= x1 /\ x1 <= x2 /\ x2 <= inject_Z w /\
  0 <= y1 /\ y1 <= y2 /\ y2 <= inject_Z h.




(** The candidate filter as the design document writes it: the recipes
    of the catalogue, in catalogue order, whose match ratio is not
    below 0.70. *)
Definition qualifying (recipes : list Recipe.Recipe) (ingredients : list string)
    : list Recipe.Recipe :=
  List.filter
    (fun r => Qle_bool (7#10) (match_ratio ingredients (Recipe.ingredients r)))
    recipes.

(** A candidate carries the match ratio and the emotion fit of its
    recipe. *)
Definition scored (ingredients : list string) (emotion_type : string)
    (c : Recipe.Candidate) : Prop :=
  Recipe.ingredient_match c =
    match_ratio ingredients
      (Recipe.ingredients (Recipe.found_recipe (Recipe.found c))) /\
  Recipe.emotion_score c =
    Recipe._score_by_emotion (Recipe.found_recipe (Recipe.found c)) emotion_type.

End Spec.

(** ** Sample inputs *)

Module Sample.

(** A primary detector that is unsure: one apple at confidence 0.4. *)
Definition low_detections : list Image.Detection :=
  [Image.mkDetection "apple" (4#10) [100; 150; 300; 350] None].

Definition pizza : Image.Food := Image.mkFood "pizza" (9#10) None.

Definition key_of (image_bytes : list Byte.byte) : string := "d41d8cd9".
Definition decode (image_bytes : list Byte.byte) : Py.Result unit := Py.Return tt.
Definition yolo_low (image : unit) : Py.Result (list Image.Detection) :=
  Py.Return low_detections.

(** Three fallbacks: one that answers with a food list, one that
    answers with a JSON object without ['foods'], one that raises. *)
Definition claude_foods (image_bytes : list Byte.byte)
    : Py.Result Image.ClaudeResults :=
  Py.Return (Image.mkClaudeResults (Some [pizza])).
Definition claude_no_foods (image_bytes : list Byte.byte)
    : Py.Result Image.ClaudeResults :=
  Py.Return (Image.mkClaudeResults None).
Definition claude_down (image_bytes : list Byte.byte)
    : Py.Result Image.ClaudeResults :=
  Py.Raise Py.BackendError.

Definition empty_state : Image.State := Image.mkState ∅ [].

Definition detect_with
    (fallback : list Byte.byte -> Py.Result Image.ClaudeResults)
    : Py.Result (list Image.Detection) * Image.State :=
  Image.analyze_food_image unit Image.settings key_of decode yolo_low
    fallback [] empty_state.

(** A store that does not answer, and one that does and is empty. *)
Definition db_down : Usage.Db := Usage.mkDb ∅ false [].
Definition db_empty : Usage.Db := Usage.mkDb ∅ true [].

(** Two reference rows, 50 and 25 kcal per 100 g, and the items that
    100 g of the first and 200 g of the second give. *)
Definition row_a : Nutrition.FoodRow :=
  Nutrition.mkFoodRow "a" 50 1 2 3 4 5 6 7 8 9 10.
Definition row_b : Nutrition.FoodRow :=
  Nutrition.mkFoodRow "b" 25 0 (1#3) 0 0 0 0 0 0 0 0.
Definition items_ab : list Nutrition.FoodItem :=
  [Nutrition.mkFoodItem (Some (Nutrition.scale_row row_a 100));
   Nutrition.mkFoodItem (Some (Nutrition.scale_row row_b 200))].

(** What is in the fridge, in mixed case. *)
Definition fridge : list string :=
  ["Tomato"; "PASTA"; "garlic"; "Olive Oil"; "basil"]%string.

(** A primary detector that raises. *)
Definition yolo_down (image : unit) : Py.Result (list Image.Detection) :=
  Py.Raise Py.BackendError.

(** The first sample item with further, non-nutrient entries. *)
Definition item_a_tagged : Nutrition.FoodItem :=
  Nutrition.mkFoodItem
    (Some (<["source" := Nutrition.VStr "usda"]>
             (Nutrition.scale_row row_a 100))).

(** An item whose calories entry is text. *)
Definition item_text : Nutrition.FoodItem :=
  Nutrition.mkFoodItem (Some {[ "calories" := Nutrition.VStr "n/a" ]}).

Definition first_match (food_name : string) : option Nutrition.FoodRow :=
  Some row_a.
Definition no_match (food_name : string) : option Nutrition.FoodRow := None.
Definition key_by_name (food_name : string) (portion_grams : Q) : string :=
  ("nutrition:" ++ food_name)%string.

(** A store in which user u1 has used up three food analyses today. *)
Definition db_used_up : Usage.Db :=
  Usage.mkDb
    {[ ("u1"%string, 20000%Z) :=
         Usage.mkRow "id-0" (<["food_analyses"%string := 3%Z]>
                               Usage.default_counters) ]}
    true [].

Definition validate_ok (image_bytes : list Byte.byte) : Py.Result unit :=
  Py.Return tt.

(** An analysis that succeeds and one that fails, neither touching
    the store. *)
Definition analysis_ok (image_bytes : list Byte.byte) (user_id : string)
    (db : Usage.Db) : Py.Result nat * Usage.Db :=
  (Py.Return 1%nat, db).
Definition analysis_fails (image_bytes : list Byte.byte) (user_id : string)
    (db : Usage.Db) : Py.Result nat * Usage.Db :=
  (Py.Raise (Py.HTTPException 400), db).

(** An analysis that succeeds but leaves a store that no longer
    answers. *)
Definition analysis_then_down (image_bytes : list Byte.byte) (user_id : string)
    (db : Usage.Db) : Py.Result nat * Usage.Db :=
  (Py.Return 1%nat,
   Usage.mkDb (Usage.daily_usage db) false (Usage.statements db)).

(** Three fridge photos: two with detections, one that failed. *)
Definition fridge_results : list (Py.Result (list Image.Detection)) :=
  [ Py.Return [Image.mkDetection "milk" (6#10) [0; 0; 10; 10] None;
               Image.mkDetection "egg" (9#10) [0; 0; 10; 10] None];
    Py.Raise Py.BackendError;
    Py.Return [Image.mkDetection "milk" (8#10) [0; 0; 10; 10] None] ].

End Sample.

(** * Properties *)

(** ** Rationals and Python primitives *)

Lemma Qlt_bool_true (a b : Q) : Py.Qlt_bool a b = true <-> a < b.
Proof.
  unfold Py.Qlt_bool. rewrite negb_true_iff.
  destruct (Qle_bool b a) eqn:E.
  - apply Qle_bool_iff in E. split; [discriminate | intros H; lra].
  - split; [intros _ | reflexivity].
    apply Qnot_le_lt. intros H. apply Qle_bool_iff in H. congruence.
Qed.

Lemma Qlt_bool_false (a b : Q) : Py.Qlt_bool a b = false <-> b <= a.
Proof.
  unfold Py.Qlt_bool. rewrite negb_false_iff. apply Qle_bool_iff.
Qed.

Lemma Qmax_cases (a b : Q) : (a <= b /\ Qmax a b == b) \/ (b <= a /\ Qmax a b == a).
Proof.
  destruct (Q.max_spec a b) as [[H1 H2] | [H1 H2]]; [left | right]; split;
    auto; lra.
Qed.

Lemma Qmin_cases (a b : Q) : (a <= b /\ Qmin a b == a) \/ (b <= a /\ Qmin a b == b).
Proof.
  destruct (Q.min_spec a b) as [[H1 H2] | [H1 H2]]; [left | right]; split;
    auto; lra.
Qed.

Lemma int_bounds (x : Q) (n : Z) : 0 <= x -> x <= inject_Z n -> (0 <= Py.int x <= n)%Z.
Proof.
  destruct x as [p d]. unfold Py.int, Qle. simpl. intros H0 Hn.
  rewrite Z.quot_div_nonneg by lia.
  split.
  - apply Z.div_pos; lia.
  - apply Z.div_le_upper_bound; lia.
Qed.

(** ** The stable descending sort *)

Section Sorting.

Context {A : Type} (key : A -> Q).

Lemma insert_desc_perm (x : A) (l : list A) :
  Py.insert_desc key x l ≡ₚ x :: l.
Proof.
  induction l as [| y l IH]; simpl; [reflexivity |].
  destruct (Py.Qlt_bool (key x) (key y)); [| reflexivity].
  rewrite IH. apply perm_swap.
Qed.

Lemma sort_reverse_perm (l : list A) : Py.sort_reverse key l ≡ₚ l.
Proof.
  induction l as [| x l IH]; simpl; [reflexivity |].
  rewrite insert_desc_perm. by constructor.
Qed.

Lemma insert_desc_descending (x : A) (l : list A) :
  Spec.descending key l -> Spec.descending key (Py.insert_desc key x l).
Proof.
  unfold Spec.descending.
  induction 1 as [| y l Hl IH Hy]; simpl.
  - repeat constructor.
  - destruct (Py.Qlt_bool (key x) (key y)) eqn:E.
    + apply Qlt_bool_true in E. constructor; [exact IH |].
      rewrite insert_desc_perm. constructor; [lra | exact Hy].
    + apply Qlt_bool_false in E. constructor.
      * by constructor.
      * constructor; [exact E |].
        eapply Forall_impl; [exact Hy |]. simpl. intros z Hz. lra.
Qed.

Lemma sort_reverse_descending (l : list A) :
  Spec.descending key (Py.sort_reverse key l).
Proof.
  induction l as [| x l IH]; simpl.
  - constructor.
  - by apply insert_desc_descending.
Qed.

(** The first entry of the sorted list has the largest key. *)
Lemma sort_reverse_head (l : list A) (x : A) (rest : list A) :
  Py.sort_reverse key l = x :: rest ->
  x ∈ l /\ Forall (fun y => key y <= key x) l.
Proof.
  intros E. pose proof (sort_reverse_perm l) as P.
  pose proof (sort_reverse_descending l) as S.
  rewrite E in P, S. split.
  - rewrite <- P. left.
  - rewrite <- P. inversion S; subst. constructor; [lra | assumption].
Qed.

End Sorting.

(** ** Emotion classification *)

Lemma axis_points_bounds (weight coef : Q) (rule : Emotion.RuleValue) (x : Q) :
  0 <= weight -> 0 <= coef -> 0 <= Spec.axis_points weight coef rule x <= weight.
Proof.
  intros Hw Hc. unfold Spec.axis_points. destruct rule as [lo hi | s].
  - destruct (Qle_bool lo x && Qle_bool x hi); [lra |].
    assert (Hd : 0 <= Qmin (Qabs (x - lo)) (Qabs (x - hi))).
    { pose proof (Qabs_nonneg (x - lo)). pose proof (Qabs_nonneg (x - hi)).
      destruct (Qmin_cases (Qabs (x - lo)) (Qabs (x - hi))) as [[_ E] | [_ E]];
        rewrite E; assumption. }
    pose proof (Qmult_le_0_compat _ _ Hd Hc) as Hm.
    destruct (Qmax_cases 0 (weight - Qmin (Qabs (x - lo)) (Qabs (x - hi)) * coef))
      as [[H E] | [H E]]; rewrite E; lra.
  - lra.
Qed.

(** The score is the capped sum of the three axis contributions. *)
Lemma score_as_sum (hrv : Q) (hr : Z) (coherence : Q) (rules : Emotion.Rules) :
  Emotion._calculate_emotion_score hrv hr coherence rules ==
  Qmin 100 (Spec.axis_points 40 (1#2) (Emotion.rule_hrv rules) hrv
            + Spec.axis_points 40 (1#2) (Emotion.rule_hr rules) (inject_Z hr)
            + Spec.axis_points 20 20 (Emotion.rule_coherence rules) coherence).
Proof.
  unfold Emotion._calculate_emotion_score, Spec.axis_points.
  destruct rules as [[l1 h1 | s1] [l2 h2 | s2] [l3 h3 | s3]]; simpl;
    repeat match goal with
           | |- context [if ?b then _ else _] => destruct b
           end;
    apply Q.min_compat; try reflexivity; ring.
Qed.

Lemma score_bounds (hrv : Q) (hr : Z) (coherence : Q) (rules : Emotion.Rules) :
  0 <= Emotion._calculate_emotion_score hrv hr coherence rules <= 100.
Proof.
  rewrite score_as_sum.
  pose proof (axis_points_bounds 40 (1#2) (Emotion.rule_hrv rules) hrv) as H1.
  pose proof (axis_points_bounds 40 (1#2) (Emotion.rule_hr rules) (inject_Z hr)) as H2.
  pose proof (axis_points_bounds 20 20 (Emotion.rule_coherence rules) coherence) as H3.
  destruct (Qmin_cases 100
    (Spec.axis_points 40 (1#2) (Emotion.rule_hrv rules) hrv
     + Spec.axis_points 40 (1#2) (Emotion.rule_hr rules) (inject_Z hr)
     + Spec.axis_points 20 20 (Emotion.rule_coherence rules) coherence))
    as [[H E] | [H E]]; rewrite E; lra.
Qed.

(** A dict built from pairs with distinct keys holds exactly the pairs. *)
Lemma dict_of_pairs_spec (l : list (string * Q)) :
  Emotion.dict_of_pairs l = list_to_map (reverse l).
Proof.
  unfold Emotion.dict_of_pairs.
  rewrite <- (reverse_involutive l) at 1. generalize (reverse l). clear l.
  intros l. induction l as [| [k v] l IH]; [reflexivity |].
  rewrite reverse_cons, foldl_app. simpl. by rewrite IH.
Qed.

Lemma dict_of_pairs_lookup (l : list (string * Q)) (k : string) (v : Q) :
  NoDup l.*1 -> Emotion.dict_of_pairs l !! k = Some v <-> (k, v) ∈ l.
Proof.
  intros ND. rewrite dict_of_pairs_spec, <- elem_of_list_to_map.
  - by rewrite elem_of_reverse.
  - by rewrite fmap_reverse, reverse_Permutation.
Qed.

Lemma dict_of_pairs_dom (l : list (string * Q)) :
  dom (Emotion.dict_of_pairs l) = list_to_set l.*1.
Proof.
  rewrite dict_of_pairs_spec, dom_list_to_map_L, fmap_reverse.
  apply set_eq. intros x. by rewrite !elem_of_list_to_set, elem_of_reverse.
Qed.

Section Classify.

Variables (hrv : Q) (hr : Z) (coherence : Q).

(** The scored list that [classify_emotion] sorts. *)
Let scored : list (string * Q) :=
  map (fun er => (er.1, Emotion._calculate_emotion_score hrv hr coherence er.2))
      Emotion.EMOTION_RULES.

Lemma scored_keys : scored.*1 = Emotion.emotion_types.
Proof. reflexivity. Qed.

Lemma emotion_types_NoDup : NoDup Emotion.emotion_types.
Proof. apply (bool_decide_unpack _). vm_compute. exact I. Qed.

Lemma scored_bounds : Forall (fun kv => 0 <= kv.2 <= 100) scored.
Proof.
  unfold scored. apply Forall_map. apply Forall_forall.
  intros [k r] _. simpl. apply score_bounds.
Qed.

(** What [classify_emotion] returns, in terms of the scored list. *)
Lemma classify_emotion_result :
  exists top_emotion top_score rest,
    Py.sort_reverse snd scored = (top_emotion, top_score) :: rest /\
    Emotion.classify_emotion hrv hr coherence =
    Py.Return (Emotion.mkResult top_emotion (Py.int top_score)
                 (Emotion.dict_of_pairs (Py.sort_reverse snd scored)) hrv hr).
Proof.
  unfold Emotion.classify_emotion, Emotion.classify_emotion_with.
  fold scored.
  destruct (Py.sort_reverse snd scored) as [| [e s] rest] eqn:E.
  - pose proof (sort_reverse_perm snd scored) as P. rewrite E in P.
    apply Permutation_length in P. discriminate P.
  - eauto.
Qed.

Lemma sorted_keys_NoDup : NoDup (Py.sort_reverse snd scored).*1.
Proof.
  rewrite (sort_reverse_perm snd scored), scored_keys.
  apply emotion_types_NoDup.
Qed.

End Classify.

(** C4. For every input triple, [classify_emotion] returns a result
    whose label is one of the eight emotion types, whose score lies in
    [0,100], and whose distribution has an entry for each of the eight
    labels, all of them in [0,100]; the label is an entry of largest
    score and the integer score is that entry, truncated. *)
Theorem classify_emotion_in_range (hrv : Q) (hr : Z) (coherence : Q) :
  exists r,
    Emotion.classify_emotion hrv hr coherence = Py.Return r /\
    Emotion.type r ∈ Emotion.emotion_types /\
    (0 <= Emotion.score r <= 100)%Z /\
    dom (Emotion.all_emotions r) = list_to_set Emotion.emotion_types /\
    size (Emotion.all_emotions r) = 8%nat /\
    map_Forall (fun _ s => 0 <= s <= 100) (Emotion.all_emotions r) /\
    exists top,
      Emotion.all_emotions r !! Emotion.type r = Some top /\
      Emotion.score r = Py.int top /\
      map_Forall (fun _ s => s <= top) (Emotion.all_emotions r).
Proof.
  destruct (classify_emotion_result hrv hr coherence)
    as (e & s & rest & Hsort & Hres).
  set (scored := map (fun er : string * Emotion.Rules =>
           (er.1, Emotion._calculate_emotion_score hrv hr coherence er.2))
         Emotion.EMOTION_RULES) in *.
  pose proof (sort_reverse_perm snd scored) as P.
  pose proof (sorted_keys_NoDup hrv hr coherence) as ND. fold scored in ND.
  pose proof (scored_bounds hrv hr coherence) as B. fold scored in B.
  destruct (sort_reverse_head snd scored _ _ Hsort) as [Hin Hmax].
  rewrite Forall_forall in B, Hmax.
  eexists. split; [exact Hres |].
  cbn [Emotion.type Emotion.score Emotion.all_emotions].
  assert (Hdom : dom (Emotion.dict_of_pairs (Py.sort_reverse snd scored))
                 = list_to_set Emotion.emotion_types).
  { rewrite dict_of_pairs_dom, P. reflexivity. }
  split_and!.
  - change Emotion.emotion_types with scored.*1.
    apply (list_elem_of_fmap_2 fst) in Hin. exact Hin.
  - apply (int_bounds s 100); apply (B _ Hin).
  - apply (int_bounds s 100); apply (B _ Hin).
  - exact Hdom.
  - rewrite <- size_dom, Hdom. reflexivity.
  - intros k v Hk. apply dict_of_pairs_lookup in Hk; [| exact ND].
    rewrite P in Hk. apply (B _ Hk).
  - exists s. split_and!.
    + apply dict_of_pairs_lookup; [exact ND |]. rewrite P. exact Hin.
    + reflexivity.
    + intros k v Hk. apply dict_of_pairs_lookup in Hk; [| exact ND].
      rewrite P in Hk. apply (Hmax _ Hk).
Qed.

(** The anxiety entry of the rule table. *)
Lemma anxiety_rules_in_table :
  (Emotion.ANXIETY, Emotion.ANXIETY_RULES) ∈ Emotion.EMOTION_RULES.
Proof. unfold Emotion.EMOTION_RULES. do 2 right. left. Qed.

(** For the anxiety rules the first block is skipped: the score is the
    capped sum of the rate and coherence contributions. *)
Lemma anxiety_score_as_sum (hrv : Q) (hr : Z) (coherence : Q) :
  Emotion._calculate_emotion_score hrv hr coherence Emotion.ANXIETY_RULES ==
  Qmin 100 (Spec.axis_points 40 (1#2) (Emotion.RTuple 85 120) (inject_Z hr)
            + Spec.axis_points 20 20 (Emotion.RTuple 0 (3#10)) coherence).
Proof.
  rewrite score_as_sum. apply Q.min_compat; [reflexivity |]. simpl. ring.
Qed.

Lemma anxiety_score_le_60 (hrv : Q) (hr : Z) (coherence : Q) :
  Emotion._calculate_emotion_score hrv hr coherence Emotion.ANXIETY_RULES <= 60.
Proof.
  rewrite anxiety_score_as_sum.
  pose proof (axis_points_bounds 40 (1#2) (Emotion.RTuple 85 120) (inject_Z hr)).
  pose proof (axis_points_bounds 20 20 (Emotion.RTuple 0 (3#10)) coherence).
  match goal with |- Qmin 100 ?x <= _ =>
    destruct (Qmin_cases 100 x) as [[H1 E] | [H1 E]]; rewrite E; lra end.
Qed.

(** C5, as the code has it. The variability entry of the anxiety
    profile is the string ['unstable'], and anxiety is the only profile
    with such an entry. The [isinstance] guard skips the variability
    block for it: the variability contributes nothing and the score is
    the capped sum of the rate and coherence points, so it is the same
    for any two variability readings. *)
Theorem anxiety_variability_block_skipped (hrv hrv' : Q) (hr : Z) (coherence : Q) :
  omap (fun er : string * Emotion.Rules =>
          match Emotion.rule_hrv er.2 with
          | Emotion.RStr s => Some (er.1, s)
          | Emotion.RTuple _ _ => None
          end) Emotion.EMOTION_RULES
    = [(Emotion.ANXIETY, "unstable"%string)] /\
  Spec.axis_points 40 (1#2) (Emotion.rule_hrv Emotion.ANXIETY_RULES) hrv = 0 /\
  Emotion._calculate_emotion_score hrv hr coherence Emotion.ANXIETY_RULES ==
    Qmin 100 (Spec.axis_points 40 (1#2) (Emotion.RTuple 85 120) (inject_Z hr)
              + Spec.axis_points 20 20 (Emotion.RTuple 0 (3#10)) coherence) /\
  Emotion._calculate_emotion_score hrv hr coherence Emotion.ANXIETY_RULES =
    Emotion._calculate_emotion_score hrv' hr coherence Emotion.ANXIETY_RULES.
Proof.
  repeat split.
  apply anxiety_score_as_sum.
Qed.

(** C5, as stated, fails: there is no input at which the anxiety score
    departs from the rate and coherence points, so no measure of the
    variability enters it. A steady reading (5) and a wildly varying one
    (500) both score 60 at rate 100 and coherence 0.2. *)
Lemma anxiety_instability_measure_absent :
  Emotion._calculate_emotion_score 5 100 (1#5) Emotion.ANXIETY_RULES == 60 /\
  Emotion._calculate_emotion_score 500 100 (1#5) Emotion.ANXIETY_RULES == 60 /\
  ~ (exists (hrv : Q) (hr : Z) (coherence : Q),
       ~ Emotion._calculate_emotion_score hrv hr coherence Emotion.ANXIETY_RULES ==
         Qmin 100 (Spec.axis_points 40 (1#2) (Emotion.RTuple 85 120) (inject_Z hr)
                   + Spec.axis_points 20 20 (Emotion.RTuple 0 (3#10)) coherence)).
Proof.
  split; [reflexivity | split; [reflexivity |]].
  intros (hrv & hr & coherence & H). apply H, anxiety_score_as_sum.
Qed.

(** C10. For every input triple the score of the anxiety profile is at
    most 60: its variability block adds nothing. Hence the distribution
    entry for anxiety is at most 60 and no result carries the label
    anxiety with a score above 60. *)
Theorem anxiety_score_at_most_60 (hrv : Q) (hr : Z) (coherence : Q) :
  (Emotion.ANXIETY, Emotion.ANXIETY_RULES) ∈ Emotion.EMOTION_RULES /\
  Emotion.rule_hrv Emotion.ANXIETY_RULES = Emotion.RStr "unstable" /\
  Spec.axis_points 40 (1#2) (Emotion.rule_hrv Emotion.ANXIETY_RULES) hrv = 0 /\
  Emotion._calculate_emotion_score hrv hr coherence Emotion.ANXIETY_RULES <= 60 /\
  exists r,
    Emotion.classify_emotion hrv hr coherence = Py.Return r /\
    (exists s, Emotion.all_emotions r !! Emotion.ANXIETY = Some s /\ s <= 60) /\
    ~ (Emotion.type r = Emotion.ANXIETY /\ (60 < Emotion.score r)%Z).
Proof.
  split; [apply anxiety_rules_in_table |].
  split; [reflexivity |]. split; [reflexivity |].
  split; [apply anxiety_score_le_60 |].
  destruct (classify_emotion_result hrv hr coherence)
    as (e & s & rest & Hsort & Hres).
  set (scored := map (fun er : string * Emotion.Rules =>
           (er.1, Emotion._calculate_emotion_score hrv hr coherence er.2))
         Emotion.EMOTION_RULES) in *.
  pose proof (sort_reverse_perm snd scored) as P.
  pose proof (sorted_keys_NoDup hrv hr coherence) as ND. fold scored in ND.
  destruct (sort_reverse_head snd scored _ _ Hsort) as [Hin _].
  assert (Hanx : Emotion.dict_of_pairs (Py.sort_reverse snd scored)
                   !! Emotion.ANXIETY
                 = Some (Emotion._calculate_emotion_score hrv hr coherence
                           Emotion.ANXIETY_RULES)).
  { apply dict_of_pairs_lookup; [exact ND |]. rewrite P.
    unfold scored, Emotion.EMOTION_RULES. simpl. do 2 right. left. }
  eexists. split; [exact Hres |].
  cbn [Emotion.type Emotion.score Emotion.all_emotions]. split.
  - eexists. split; [exact Hanx |]. apply anxiety_score_le_60.
  - intros [-> Hgt].
    assert (Hs : Emotion.dict_of_pairs (Py.sort_reverse snd scored)
                   !! Emotion.ANXIETY = Some s).
    { apply dict_of_pairs_lookup; [exact ND |]. rewrite P. exact Hin. }
    rewrite Hanx in Hs. injection Hs as <-.
    pose proof (score_bounds hrv hr coherence Emotion.ANXIETY_RULES) as [H0 _].
    pose proof (anxiety_score_le_60 hrv hr coherence) as H60.
    pose proof (int_bounds _ 60 H0 H60). lia.
Qed.

(** ** Portion size *)

Lemma clamp_as_max_min (x : Q) : Qmax 50 (Qmin 500 x) == Spec.clamp x 50 500.
Proof.
  unfold Spec.clamp.
  destruct (Py.Qlt_bool x 50) eqn:E1; [apply Qlt_bool_true in E1 | apply Qlt_bool_false in E1];
  (destruct (Py.Qlt_bool 500 x) eqn:E2; [apply Qlt_bool_true in E2 | apply Qlt_bool_false in E2]);
  destruct (Qmin_cases 500 x) as [[H1 Hm] | [H1 Hm]];
  destruct (Qmax_cases 50 (Qmin 500 x)) as [[H2 HM] | [H2 HM]];
  rewrite ?HM, ?Hm in *; lra.
Qed.

(** C6. For a four-entry box and an image of positive area,
    [estimate_portion_size] returns [clamp((region/image / 0.5) * 200,
    50, 500)]; the result lies in [50,500]; a region of half the image
    gives 200, an empty region gives 50, and a region that is the whole
    image gives at most 500. *)
Theorem estimate_portion_size_clamped (x1 y1 x2 y2 : Q) (w h : Z) :
  (0 < w * h)%Z ->
  exists grams,
    Image.estimate_portion_size [x1; y1; x2; y2] (w, h) = Py.Return grams /\
    grams == Spec.clamp
               ((x2 - x1) * (y2 - y1) / inject_Z (w * h) / (1#2) * 200) 50 500 /\
    50 <= grams <= 500 /\
    ((x2 - x1) * (y2 - y1) == (1#2) * inject_Z (w * h) -> grams == 200) /\
    ((x2 - x1) * (y2 - y1) == 0 -> grams == 50) /\
    ((x2 - x1) * (y2 - y1) == inject_Z (w * h) -> grams <= 500).
Proof.
  intros Hpos. unfold Image.estimate_portion_size. simpl fst. simpl snd.
  destruct (Z.eqb_spec (w * h) 0) as [E | _]; [lia |].
  eexists. split; [reflexivity |].
  set (area := (x2 - x1) * (y2 - y1)).
  set (total := inject_Z (w * h)).
  assert (Ht : 0 < total).
  { unfold total. change 0 with (inject_Z 0). rewrite <- Zlt_Qlt. exact Hpos. }
  set (g := area / total / (1#2) * 200).
  assert (Hb : 50 <= Qmax 50 (Qmin 500 g) <= 500).
  { destruct (Qmin_cases 500 g) as [[H1 Hm] | [H1 Hm]];
    destruct (Qmax_cases 50 (Qmin 500 g)) as [[H2 HM] | [H2 HM]];
    rewrite ?HM, ?Hm in *; lra. }
  split_and!; try apply Hb.
  - apply clamp_as_max_min.
  - intros Ha. assert (Hg : g == 200).
    { unfold g. rewrite Ha. field. lra. }
    destruct (Qmin_cases 500 g) as [[H1 Hm] | [H1 Hm]];
    destruct (Qmax_cases 50 (Qmin 500 g)) as [[H2 HM] | [H2 HM]];
    rewrite ?HM, ?Hm in *; lra.
  - intros Ha. assert (Hg : g == 0).
    { unfold g. rewrite Ha. field. lra. }
    destruct (Qmin_cases 500 g) as [[H1 Hm] | [H1 Hm]];
    destruct (Qmax_cases 50 (Qmin 500 g)) as [[H2 HM] | [H2 HM]];
    rewrite ?HM, ?Hm in *; lra.
  - intros _. apply Hb.
Qed.

Lemma estimate_portion_size_clamped_witness :
  (0 < 640 * 640)%Z /\
  exists grams,
    Image.estimate_portion_size [0; 0; 640; 320] (640, 640)%Z = Py.Return grams /\
    grams == 200.
Proof.
  split; [lia |].
  destruct (estimate_portion_size_clamped 0 0 640 320 640 640 ltac:(lia))
    as (grams & Hret & _ & _ & Hhalf & _).
  exists grams. split; [exact Hret |]. apply Hhalf. reflexivity.
Defined.

(** ** Hybrid detection *)

Lemma sum_confidence_foldr (detections : list Image.Detection) :
  Image.sum_confidence detections ==
  foldr Qplus 0 (Image.confidence <$> detections).
Proof.
  unfold Image.sum_confidence.
  assert (G : forall acc,
             foldl (fun a d => a + Image.confidence d) acc detections ==
             acc + foldr Qplus 0 (Image.confidence <$> detections)).
  { induction detections as [| d ds IH]; intros acc; csimpl.
    - ring.
    - rewrite IH. ring. }
  rewrite G. ring.
Qed.

Lemma avg_confidence_mean (detections : list Image.Detection) :
  Image.avg_confidence detections == Spec.mean (Image.confidence <$> detections).
Proof.
  destruct detections as [| d ds]; [reflexivity |].
  unfold Image.avg_confidence, Spec.mean.
  rewrite sum_confidence_foldr, length_fmap. reflexivity.
Qed.

Lemma fallback_calls_log (c : Image.Call) (st : Image.State) :
  Spec.fallback_calls (Image.log c st) =
  (Spec.fallback_calls st +
   match c with Image.ClaudeInference => 1 | _ => 0 end)%nat.
Proof.
  unfold Spec.fallback_calls, Image.log. simpl.
  rewrite List.filter_app, List.length_app. by destruct c.
Qed.

Section Detect.

Context {Img : Type} (cfg : Image.Settings).
Context (_get_cache_key : list Byte.byte -> string).
Context (_preprocess_image : list Byte.byte -> Py.Result Img).
Context (_run_yolo_inference : Img -> Py.Result (list Image.Detection)).
Context (_run_claude_inference : list Byte.byte -> Py.Result Image.ClaudeResults).

Let detect :=
  Image.analyze_food_image Img cfg _get_cache_key _preprocess_image
    _run_yolo_inference _run_claude_inference.

Let threshold := Image.YOLO_HIGH_CONFIDENCE_THRESHOLD cfg.

(** A cache hit returns the cached list and calls no detector. *)
Lemma analyze_food_image_hit (image_bytes : list Byte.byte) (st : Image.State)
    (cached : list Image.Detection) :
  Image.redis st !! Image.cache_name (_get_cache_key image_bytes) = Some cached ->
  (detect image_bytes st).1 = Py.Return cached /\
  Spec.fallback_calls (detect image_bytes st).2 = Spec.fallback_calls st.
Proof.
  intros Hhit. unfold detect, Image.analyze_food_image.
  cbn [Image.log Image.redis]. rewrite Hhit. split; [reflexivity |].
  cbn [snd]. rewrite fallback_calls_log. lia.
Qed.

(** The path taken after a cache miss once the primary detector has
    answered. *)
Lemma analyze_food_image_miss (image_bytes : list Byte.byte) (st : Image.State)
    (image : Img) (detections : list Image.Detection) :
  Image.redis st !! Image.cache_name (_get_cache_key image_bytes) = None ->
  _preprocess_image image_bytes = Py.Return image ->
  _run_yolo_inference image = Py.Return detections ->
  let key := Image.cache_name (_get_cache_key image_bytes) in
  let st3 := Image.log Image.YoloInference
               (Image.log Image.Preprocess (Image.log (Image.CacheGet key) st)) in
  let store final st' :=
    (Py.Return final,
     Image.mkState (<[key := final]> (Image.redis st'))
       (Image.calls (Image.log (Image.CacheSetex key 86400) st'))) in
  detect image_bytes st =
  if Py.Qlt_bool (Image.avg_confidence detections) threshold then
    match _run_claude_inference image_bytes with
    | Py.Raise e => (Py.Raise e, Image.log Image.ClaudeInference st3)
    | Py.Return claude_results =>
        store (Image._merge_detections detections claude_results)
              (Image.log Image.ClaudeInference st3)
    end
  else store detections st3.
Proof.
  intros Hmiss Hpre Hyolo. unfold detect, threshold, Image.analyze_food_image.
  cbn [Image.log Image.redis]. rewrite Hmiss, Hpre, Hyolo.
  destruct (Py.Qlt_bool _ _); [| reflexivity].
  destruct (_run_claude_inference image_bytes); reflexivity.
Qed.

(** C3. After a cache miss the mean confidence of the primary
    candidates (0 for an empty list) decides: the fallback is called
    once exactly when the mean is below the threshold, and not at all
    otherwise. When the fallback answers with a ['foods'] list, the
    detections built from that list are the result and no primary
    candidate is kept; when its answer has no ['foods'] entry, or the
    fallback is not called, the primary candidates are returned. *)
Theorem analyze_food_image_fallback_gate (image_bytes : list Byte.byte)
    (st : Image.State) (image : Img) (detections : list Image.Detection) :
  Image.redis st !! Image.cache_name (_get_cache_key image_bytes) = None ->
  _preprocess_image image_bytes = Py.Return image ->
  _run_yolo_inference image = Py.Return detections ->
  let avg := Image.avg_confidence detections in
  let out := detect image_bytes st in
  avg == Spec.mean (Image.confidence <$> detections) /\
  Spec.fallback_calls out.2 =
    (Spec.fallback_calls st + if Py.Qlt_bool avg threshold then 1 else 0)%nat /\
  (avg < threshold ->
   forall fs,
     _run_claude_inference image_bytes
       = Py.Return (Image.mkClaudeResults (Some fs)) ->
     out.1 = Py.Return (Spec.detection_of_food <$> fs)) /\
  (avg < threshold ->
   _run_claude_inference image_bytes = Py.Return (Image.mkClaudeResults None) ->
   out.1 = Py.Return detections) /\
  (threshold <= avg -> out.1 = Py.Return detections).
Proof.
  intros Hmiss Hpre Hyolo avg out.
  pose proof (analyze_food_image_miss _ _ _ _ Hmiss Hpre Hyolo) as E.
  cbv zeta in E. fold avg in E. fold out in E.
  split; [apply avg_confidence_mean |].
  destruct (Py.Qlt_bool avg threshold) eqn:Hlt.
  - apply Qlt_bool_true in Hlt. split_and!.
    + destruct (_run_claude_inference image_bytes); rewrite E; cbn [snd];
        unfold Spec.fallback_calls; cbn [Image.calls Image.log];
        rewrite !List.filter_app, !List.length_app; simpl; lia.
    + intros _ fs Hfs. rewrite Hfs in E. rewrite E. reflexivity.
    + intros _ Hfs. rewrite Hfs in E. rewrite E. reflexivity.
    + intros Hge. lra.
  - apply Qlt_bool_false in Hlt. split_and!.
    + rewrite E. cbn [snd]. unfold Spec.fallback_calls.
      cbn [Image.calls Image.log].
      rewrite !List.filter_app, !List.length_app. simpl. lia.
    + intros Hl. lra.
    + intros Hl. lra.
    + intros _. rewrite E. reflexivity.
Qed.

(** C2, as the code has it. The call of the fallback is not guarded.
    For an image whose primary mean confidence is below the threshold:
    when the fallback raises, the exception leaves
    [analyze_food_image], no list is returned, nothing is stored in the
    cache and the fallback has been called once; whenever a list is
    returned the fallback has answered, and the list is what
    [_merge_detections] makes of its answer; the primary candidates are
    kept for an answer without ['foods']. *)
Theorem analyze_food_image_fallback_raises (image_bytes : list Byte.byte)
    (st : Image.State) (image : Img) (detections : list Image.Detection) :
  Image.redis st !! Image.cache_name (_get_cache_key image_bytes) = None ->
  _preprocess_image image_bytes = Py.Return image ->
  _run_yolo_inference image = Py.Return detections ->
  Image.avg_confidence detections < threshold ->
  let out := detect image_bytes st in
  (forall e, _run_claude_inference image_bytes = Py.Raise e ->
     out.1 = Py.Raise e /\
     Image.redis out.2 = Image.redis st /\
     Spec.fallback_calls out.2 = S (Spec.fallback_calls st)) /\
  (forall result, out.1 = Py.Return result ->
     exists claude_results,
       _run_claude_inference image_bytes = Py.Return claude_results /\
       result = Image._merge_detections detections claude_results) /\
  (_run_claude_inference image_bytes = Py.Return (Image.mkClaudeResults None) ->
   out.1 = Py.Return detections).
Proof.
  intros Hmiss Hpre Hyolo Hlt out. unfold out.
  rewrite (analyze_food_image_miss _ _ _ _ Hmiss Hpre Hyolo). cbv zeta.
  apply Qlt_bool_true in Hlt. rewrite Hlt. split_and!.
  - intros e Hraise. rewrite Hraise. split_and!; try reflexivity.
    cbn [snd]. unfold Spec.fallback_calls. cbn [Image.calls Image.log].
    rewrite !List.filter_app, !List.length_app. simpl. lia.
  - intros result.
    destruct (_run_claude_inference image_bytes) as [claude_results | e];
      cbn [fst]; [| discriminate].
    intros [= <-]. eauto.
  - intros Hnone. rewrite Hnone. reflexivity.
Qed.

End Detect.

Lemma analyze_food_image_fallback_gate_witness :
  Image.redis Sample.empty_state !! Image.cache_name (Sample.key_of []) = None /\
  Sample.decode [] = Py.Return tt /\
  Sample.yolo_low tt = Py.Return Sample.low_detections /\
  (Sample.detect_with Sample.claude_foods).1
    = Py.Return [Spec.detection_of_food Sample.pizza] /\
  Spec.fallback_calls (Sample.detect_with Sample.claude_foods).2 = 1%nat.
Proof.
  assert (Hmiss : Image.redis Sample.empty_state
                    !! Image.cache_name (Sample.key_of []) = None)
    by reflexivity.
  destruct (analyze_food_image_fallback_gate Image.settings Sample.key_of
              Sample.decode Sample.yolo_low Sample.claude_foods
              [] Sample.empty_state tt Sample.low_detections
              Hmiss eq_refl eq_refl)
    as (_ & Hcalls & Hfoods & _ & _).
  split; [exact Hmiss |]. split; [reflexivity |]. split; [reflexivity |].
  split.
  - apply (Hfoods eq_refl [Sample.pizza] eq_refl).
  - exact Hcalls.
Defined.

(** An answer of the fallback without a ['foods'] entry is no
    candidate list: the fallback is called once and the primary
    candidates are returned. *)
Lemma fallback_without_foods_keeps_primary :
  Image.avg_confidence Sample.low_detections
    < Image.YOLO_HIGH_CONFIDENCE_THRESHOLD Image.settings /\
  Sample.claude_no_foods [] = Py.Return (Image.mkClaudeResults None) /\
  Spec.fallback_calls (Sample.detect_with Sample.claude_no_foods).2 = 1%nat /\
  (Sample.detect_with Sample.claude_no_foods).1
    = Py.Return Sample.low_detections.
Proof. split_and!; reflexivity. Qed.

Lemma analyze_food_image_fallback_raises_witness :
  Image.redis Sample.empty_state !! Image.cache_name (Sample.key_of []) = None /\
  Image.avg_confidence Sample.low_detections
    < Image.YOLO_HIGH_CONFIDENCE_THRESHOLD Image.settings /\
  Sample.claude_down [] = Py.Raise Py.BackendError /\
  (Sample.detect_with Sample.claude_down).1 = Py.Raise Py.BackendError /\
  Image.redis (Sample.detect_with Sample.claude_down).2 = ∅.
Proof.
  assert (Hmiss : Image.redis Sample.empty_state
                    !! Image.cache_name (Sample.key_of []) = None)
    by reflexivity.
  assert (Hlow : Image.avg_confidence Sample.low_detections
                 < Image.YOLO_HIGH_CONFIDENCE_THRESHOLD Image.settings)
    by reflexivity.
  split; [exact Hmiss |]. split; [exact Hlow |]. split; [reflexivity |].
  destruct (analyze_food_image_fallback_raises Image.settings Sample.key_of
              Sample.decode Sample.yolo_low Sample.claude_down
              [] Sample.empty_state tt Sample.low_detections
              Hmiss eq_refl eq_refl Hlow) as (Hraise & _ & _).
  destruct (Hraise Py.BackendError eq_refl) as (Hout & Hredis & _).
  split; [exact Hout | exact Hredis].
Defined.

(** C2, as stated, fails: with a primary mean of 0.4 and a fallback
    that raises, [analyze_food_image] raises too; the primary list is
    not what the caller gets. *)
Lemma fallback_failure_propagates :
  Image.avg_confidence Sample.low_detections
    < Image.YOLO_HIGH_CONFIDENCE_THRESHOLD Image.settings /\
  (Sample.detect_with Sample.claude_down).1 = Py.Raise Py.BackendError /\
  (Sample.detect_with Sample.claude_down).1 <> Py.Return Sample.low_detections.
Proof. split_and!; [reflexivity | reflexivity | discriminate]. Qed.

(** ** The usage ledger *)

Lemma execute_one_down (q : Usage.Query) (db : Usage.Db) :
  Usage.available db = false ->
  Usage.execute_one q db =
  (Py.Raise Py.BackendError,
   Usage.mkDb (Usage.daily_usage db) false (Usage.statements db ++ [q])).
Proof.
  intros Hdown. unfold Usage.execute_one. cbn [Usage.available].
  rewrite Hdown. reflexivity.
Qed.

Lemma allowed_is_column (usage_type : string) :
  usage_type ∈ Usage.ALLOWED_USAGE_TYPES ->
  usage_type ∈ dom Usage.default_counters.
Proof.
  unfold Usage.ALLOWED_USAGE_TYPES, Usage.default_counters.
  rewrite ?dom_insert_L, ?dom_singleton_L, ?dom_empty_L.
  rewrite !elem_of_union, !elem_of_singleton. tauto.
Qed.

(** C1. When the store raises on the usage query, [check_daily_usage]
    returns no count for any user and whitelisted usage type: it raises
    [ServiceUnavailableError]. In [process_food_image] that exception
    ends the call before the analysis is run, with the table as it
    was. *)
Theorem check_daily_usage_fails_closed (today : Z) (user_id usage_type : string)
    (db : Usage.Db) :
  usage_type ∈ Usage.ALLOWED_USAGE_TYPES ->
  Usage.available db = false ->
  (Usage.execute_one (Usage.SelectUsage usage_type user_id today) db).1
    = Py.Raise Py.BackendError /\
  (Usage.check_daily_usage today user_id usage_type db).1
    = Py.Raise Py.ServiceUnavailableError /\
  (forall count : Z,
     (Usage.check_daily_usage today user_id usage_type db).1 <> Py.Return count) /\
  forall (Response : Type) (cfg : Image.Settings)
         (validate_image : list Byte.byte -> Py.Result unit)
         (analyse_and_save :
            list Byte.byte -> string -> Usage.Db -> Py.Result Response * Usage.Db)
         (new_id : string) (image_bytes : list Byte.byte),
    validate_image image_bytes = Py.Return tt ->
    let out := Api.process_food_image Response cfg validate_image
                 analyse_and_save today new_id image_bytes user_id db in
    out.1 = Py.Raise Py.ServiceUnavailableError /\
    Usage.daily_usage out.2 = Usage.daily_usage db /\
    Usage.statements out.2 =
      Usage.statements db ++ [Usage.SelectUsage "food_analyses" user_id today].
Proof.
  intros Hallowed Hdown.
  assert (Hcheck : forall ut, ut ∈ Usage.ALLOWED_USAGE_TYPES ->
            Usage.check_daily_usage today user_id ut db =
            (Py.Raise Py.ServiceUnavailableError,
             Usage.mkDb (Usage.daily_usage db) false
               (Usage.statements db ++ [Usage.SelectUsage ut user_id today]))).
  { intros ut Hut. unfold Usage.check_daily_usage.
    rewrite decide_True by exact Hut.
    rewrite execute_one_down by exact Hdown. reflexivity. }
  split_and!.
  - rewrite execute_one_down by exact Hdown. reflexivity.
  - rewrite Hcheck by exact Hallowed. reflexivity.
  - intros count. rewrite Hcheck by exact Hallowed. discriminate.
  - intros Response cfg validate_image analyse_and_save new_id image_bytes Hvalid.
    unfold Api.process_food_image. rewrite Hvalid.
    rewrite Hcheck by (unfold Usage.ALLOWED_USAGE_TYPES; set_solver).
    cbv zeta. split_and!; reflexivity.
Qed.

Lemma check_daily_usage_fails_closed_witness :
  "fridge_analyses"%string ∈ Usage.ALLOWED_USAGE_TYPES /\
  Usage.available Sample.db_down = false /\
  (Usage.check_daily_usage 20000 "u1" "fridge_analyses" Sample.db_down).1
    = Py.Raise Py.ServiceUnavailableError.
Proof.
  assert (Hallowed : "fridge_analyses"%string ∈ Usage.ALLOWED_USAGE_TYPES)
    by (unfold Usage.ALLOWED_USAGE_TYPES; set_solver).
  split; [exact Hallowed |]. split; [reflexivity |].
  apply (check_daily_usage_fails_closed 20000 "u1" "fridge_analyses"
           Sample.db_down Hallowed eq_refl).
Defined.

(** The upsert, computed. *)
Lemma increment_daily_usage_eq (today : Z) (new_id user_id usage_type : string)
    (db : Usage.Db) :
  usage_type ∈ Usage.ALLOWED_USAGE_TYPES ->
  Usage.available db = true ->
  let new_count :=
    match Usage.daily_usage db !! (user_id, today) with
    | None => 1%Z
    | Some row => (default 0%Z (Usage.counters row !! usage_type) + 1)%Z
    end in
  let new_row :=
    match Usage.daily_usage db !! (user_id, today) with
    | None => Usage.mkRow new_id (<[usage_type := 1%Z]> Usage.default_counters)
    | Some row =>
        Usage.mkRow (Usage.usage_id row)
          (<[usage_type := new_count]> (Usage.counters row))
    end in
  Usage.increment_daily_usage today new_id user_id usage_type db =
  (Py.Return new_count,
   Usage.mkDb (<[(user_id, today) := new_row]> (Usage.daily_usage db)) true
     (Usage.statements db ++
      [Usage.UpsertUsage new_id usage_type user_id today])).
Proof.
  intros Hallowed Havail.
  unfold Usage.increment_daily_usage, Usage.execute_one.
  rewrite decide_True by exact Hallowed. cbn [Usage.available Usage.daily_usage].
  rewrite Havail. cbn [negb].
  rewrite decide_True by (apply allowed_is_column, Hallowed).
  destruct (Usage.daily_usage db !! (user_id, today)) as [row |];
    cbn [Usage.counters Usage.statements];
    rewrite lookup_insert_eq, lookup_singleton_eq; reflexivity.
Qed.

(** C9. With the store answering, [increment_daily_usage] sends one
    statement, the upsert, and no query before it. If the user has no
    row for the date the row is created with the counter at 1 and 1 is
    returned; if the counter exists with value [n] it becomes [n + 1]
    and [n + 1] is returned. *)
Theorem increment_daily_usage_upsert (today : Z) (new_id user_id usage_type : string)
    (db : Usage.Db) :
  usage_type ∈ Usage.ALLOWED_USAGE_TYPES ->
  Usage.available db = true ->
  let out := Usage.increment_daily_usage today new_id user_id usage_type db in
  Usage.statements out.2 =
    Usage.statements db ++ [Usage.UpsertUsage new_id usage_type user_id today] /\
  (Usage.daily_usage db !! (user_id, today) = None ->
   out.1 = Py.Return 1%Z /\
   Usage.counter out.2 user_id today usage_type = Some 1%Z) /\
  (forall n : Z,
     Usage.counter db user_id today usage_type = Some n ->
     out.1 = Py.Return (n + 1)%Z /\
     Usage.counter out.2 user_id today usage_type = Some (n + 1)%Z).
Proof.
  intros Hallowed Havail out. subst out.
  rewrite (increment_daily_usage_eq _ _ _ _ _ Hallowed Havail). cbv zeta.
  cbn [fst snd Usage.statements]. unfold Usage.counter.
  cbn [Usage.daily_usage]. rewrite lookup_insert_eq. cbn [mbind option_bind].
  split; [reflexivity |]. split.
  - intros Hrow. rewrite Hrow. cbn [Usage.counters].
    rewrite lookup_insert_eq. split; reflexivity.
  - intros n Hn.
    destruct (Usage.daily_usage db !! (user_id, today)) as [row |];
      [| discriminate Hn].
    cbn [mbind option_bind] in Hn. rewrite Hn. cbn [default Usage.counters].
    rewrite lookup_insert_eq. split; reflexivity.
Qed.

Lemma increment_daily_usage_upsert_witness :
  "food_analyses"%string ∈ Usage.ALLOWED_USAGE_TYPES /\
  Usage.available Sample.db_empty = true /\
  (Usage.increment_daily_usage 20000 "id-1" "u1" "food_analyses"
     Sample.db_empty).1 = Py.Return 1%Z.
Proof.
  assert (Hallowed : "food_analyses"%string ∈ Usage.ALLOWED_USAGE_TYPES)
    by (unfold Usage.ALLOWED_USAGE_TYPES; set_solver).
  split; [exact Hallowed |]. split; [reflexivity |].
  destruct (increment_daily_usage_upsert 20000 "id-1" "u1" "food_analyses"
              Sample.db_empty Hallowed eq_refl) as (_ & Hfirst & _).
  apply Hfirst. reflexivity.
Defined.

(** ** Nutrition totals *)

Lemma round_half_even_compat (x y : Q) :
  x == y -> Py.round_half_even x = Py.round_half_even y.
Proof.
  intros E. unfold Py.round_half_even.
  assert (Hf : Qfloor x = Qfloor y) by (rewrite E; reflexivity).
  rewrite <- Hf.
  assert (Hb : forall a b c d, a == b -> c == d ->
                 Py.Qlt_bool a c = Py.Qlt_bool b d).
  { intros a b c d Hab Hcd.
    destruct (Py.Qlt_bool a c) eqn:E1; symmetry.
    - apply Qlt_bool_true. apply Qlt_bool_true in E1. lra.
    - apply Qlt_bool_false. apply Qlt_bool_false in E1. lra. }
  set (f := inject_Z (Qfloor x)).
  rewrite (Hb (x - f) (y - f) (1#2) (1#2)) by lra.
  rewrite (Hb (1#2) (1#2) (x - f) (y - f)) by lra.
  reflexivity.
Qed.

Lemma round1_compat (x y : Q) : x == y -> Py.round1 x = Py.round1 y.
Proof.
  intros E. unfold Py.round1. f_equal. apply round_half_even_compat.
  rewrite E. reflexivity.
Qed.

(** [round(x, 1)] leaves a multiple of one tenth as it is. *)
Lemma round1_tenth (x : Q) (n : Z) : x == n # 10 -> Py.round1 x == x.
Proof.
  intros E. rewrite (round1_compat x (n # 10) E), E.
  unfold Py.round1. replace (Py.round_half_even ((n # 10) * 10)) with n;
    [reflexivity |].
  rewrite (round_half_even_compat ((n # 10) * 10) (inject_Z n))
    by (unfold Qeq; simpl; lia).
  unfold Py.round_half_even. rewrite Qfloor_Z.
  replace (Py.Qlt_bool (inject_Z n - inject_Z n) (1#2)) with true;
    [reflexivity |].
  symmetry. apply Qlt_bool_true. lra.
Qed.

Lemma round1_is_tenth (x : Q) : exists n, Py.round1 x == n # 10.
Proof. eexists. unfold Py.round1. reflexivity. Qed.

Lemma add_key_numeric (nut : gmap string Nutrition.PyVal)
    (total : gmap string Q) (key : string) (t : Q) :
  total !! key = Some t -> Spec.numeric_at nut key ->
  Nutrition.add_key nut total key =
  Py.Return (<[key := t + Spec.nut_value nut key]> total).
Proof.
  intros Ht [Hn | [v Hn]]; unfold Nutrition.add_key, Spec.nut_value;
    rewrite Ht, Hn; reflexivity.
Qed.

(** The inner loop, over any list of distinct keys. *)
Lemma add_keys_numeric (nut : gmap string Nutrition.PyVal) (ks : list string) :
  forall total : gmap string Q,
    NoDup ks ->
    (forall k, k ∈ ks -> is_Some (total !! k)) ->
    (forall k, k ∈ ks -> Spec.numeric_at nut k) ->
    exists total',
      foldl (fun acc key => total ← acc; Nutrition.add_key nut total key)
            (Py.Return total) ks = Py.Return total' /\
      (forall k, k ∈ ks ->
         total' !! k = (fun t => t + Spec.nut_value nut k) <$> total !! k) /\
      (forall k, k ∉ ks -> total' !! k = total !! k).
Proof.
  induction ks as [| k0 ks IH]; intros total ND Hsome Hnum.
  - exists total. split; [reflexivity |]. split; [| reflexivity].
    intros k Hk. by apply elem_of_nil in Hk.
  - apply NoDup_cons in ND as [Hk0 ND].
    destruct (Hsome k0) as [t0 Ht0]; [left |].
    cbn [foldl]. change (@mbind Py.Result _ _ _ ?f (Py.Return total)) with (f total).
    cbv beta. rewrite (add_key_numeric nut total k0 t0 Ht0) by (apply Hnum; left).
    destruct (IH (<[k0 := t0 + Spec.nut_value nut k0]> total) ND)
      as (total' & Hfold & Hin & Hout).
    + intros k Hk. rewrite lookup_insert_is_Some'. right. apply Hsome. by right.
    + intros k Hk. apply Hnum. by right.
    + exists total'. split; [exact Hfold |]. split.
      * intros k Hk. apply elem_of_cons in Hk as [-> | Hk].
        -- rewrite (Hout k0 Hk0), lookup_insert_eq, Ht0. reflexivity.
        -- rewrite (Hin k Hk). rewrite lookup_insert_ne; [reflexivity |].
           intros ->. contradiction.
      * intros k Hk. apply not_elem_of_cons in Hk as [Hne Hk].
        rewrite (Hout k Hk). by rewrite lookup_insert_ne.
Qed.

Lemma TOTAL_KEYS_NoDup : NoDup Nutrition.TOTAL_KEYS.
Proof. apply (bool_decide_unpack _). vm_compute. exact I. Qed.

(** One pass of the outer loop. *)
Lemma add_item_numeric (total : gmap string Q) (item : Nutrition.FoodItem) :
  (forall k, k ∈ Nutrition.TOTAL_KEYS -> is_Some (total !! k)) ->
  Spec.numeric_item item ->
  exists total',
    Nutrition.add_item total item = Py.Return total' /\
    (forall k, k ∈ Nutrition.TOTAL_KEYS ->
       exists t t', total !! k = Some t /\ total' !! k = Some t' /\
                    t' == t + Spec.item_value item k) /\
    (forall k, k ∉ Nutrition.TOTAL_KEYS -> total' !! k = total !! k).
Proof.
  intros Hsome Hnum. unfold Nutrition.add_item, Spec.item_value.
  destruct (Nutrition.nutrition item) as [nut |] eqn:Hnut.
  - destruct (add_keys_numeric nut Nutrition.TOTAL_KEYS total TOTAL_KEYS_NoDup
                Hsome (Hnum nut Hnut)) as (total' & Hfold & Hin & Hout).
    exists total'. split; [exact Hfold |]. split; [| exact Hout].
    intros k Hk. destruct (Hsome k Hk) as [t Ht].
    exists t, (t + Spec.nut_value nut k). rewrite (Hin k Hk), Ht.
    split_and!; reflexivity.
  - exists total. split; [reflexivity |]. split; [| reflexivity].
    intros k Hk. destruct (Hsome k Hk) as [t Ht]. exists t, t.
    split_and!; [exact Ht | exact Ht | ring].
Qed.

(** The outer loop. *)
Lemma add_items_numeric (items : list Nutrition.FoodItem) :
  forall total : gmap string Q,
    (forall k, k ∈ Nutrition.TOTAL_KEYS -> is_Some (total !! k)) ->
    Forall Spec.numeric_item items ->
    exists total',
      foldl (fun acc item => total ← acc; Nutrition.add_item total item)
            (Py.Return total) items = Py.Return total' /\
      (forall k, k ∈ Nutrition.TOTAL_KEYS ->
         exists t t', total !! k = Some t /\ total' !! k = Some t' /\
                      t' == t + Spec.elementwise_sum items k) /\
      (forall k, k ∉ Nutrition.TOTAL_KEYS -> total' !! k = total !! k).
Proof.
  induction items as [| item items IH]; intros total Hsome Hnum.
  - exists total. split; [reflexivity |]. split; [| reflexivity].
    intros k Hk. destruct (Hsome k Hk) as [t Ht]. exists t, t.
    split_and!; [exact Ht | exact Ht | simpl; ring].
  - apply Forall_cons in Hnum as [Hitem Hnum].
    destruct (add_item_numeric total item Hsome Hitem)
      as (total1 & Hadd & Hin1 & Hout1).
    cbn [foldl]. change (@mbind Py.Result _ _ _ ?f (Py.Return total)) with (f total).
    cbv beta. rewrite Hadd.
    destruct (IH total1) as (total' & Hfold & Hin & Hout).
    + intros k Hk. destruct (Hin1 k Hk) as (t & t' & _ & Ht' & _). by exists t'.
    + exact Hnum.
    + exists total'. split; [exact Hfold |]. split.
      * intros k Hk. destruct (Hin1 k Hk) as (t & t1 & Ht & Ht1 & E1).
        destruct (Hin k Hk) as (t1' & t' & Ht1' & Ht' & E).
        rewrite Ht1 in Ht1'. injection Ht1' as <-.
        exists t, t'. split_and!; [exact Ht | exact Ht' |].
        rewrite E, E1. simpl. ring.
      * intros k Hk. rewrite (Hout k Hk). apply (Hout1 k Hk).
Qed.

Lemma zero_map_lookup (ks : list string) (k : string) :
  foldr (fun k m => <[k := 0]> m) (∅ : gmap string Q) ks !! k =
  if decide (k ∈ ks) then Some 0 else None.
Proof.
  induction ks as [| k0 ks IH]; cbn [foldr].
  - rewrite lookup_empty. destruct (decide (k ∈ [])) as [Hin | _]; [| reflexivity].
    by apply elem_of_nil in Hin.
  - destruct (decide (k0 = k)) as [-> | Hne].
    + rewrite lookup_insert_eq. destruct (decide (k ∈ k :: ks)) as [_ | Hn];
        [reflexivity |]. exfalso. apply Hn. left.
    + rewrite lookup_insert_ne by exact Hne. rewrite IH.
      destruct (decide (k ∈ ks)) as [Hin | Hnin];
        destruct (decide (k ∈ k0 :: ks)) as [Hin' | Hnin']; try reflexivity.
      * exfalso. apply Hnin'. by right.
      * exfalso. apply elem_of_cons in Hin' as [-> | Hk]; contradiction.
Qed.

Lemma total_init_lookup (k : string) :
  Nutrition.total_init !! k =
  if decide (k ∈ Nutrition.TOTAL_KEYS) then Some 0 else None.
Proof. apply zero_map_lookup. Qed.


Lemma elementwise_sum_tenth (items : list Nutrition.FoodItem) (key : string) :
  key ∈ Nutrition.TOTAL_KEYS ->
  Forall Spec.one_decimal_item items ->
  exists n, Spec.elementwise_sum items key == n # 10.
Proof.
  intros Hkey. induction 1 as [| item items Hitem _ [n IH]]; simpl.
  - exists 0%Z. reflexivity.
  - assert (Hv : exists m, Spec.item_value item key == m # 10).
    { unfold Spec.item_value, Spec.nut_value.
      destruct (Nutrition.nutrition item) as [nut |] eqn:Hnut;
        [| exists 0%Z; reflexivity].
      destruct (Hitem nut Hnut key Hkey) as [-> | [x ->]].
      - exists 0%Z. reflexivity.
      - apply round1_is_tenth. }
    destruct Hv as [m Hm]. exists (m + n)%Z. rewrite Hm, IH.
    unfold Qeq, Qplus. simpl. lia.
Qed.

Lemma one_decimal_numeric (item : Nutrition.FoodItem) :
  Spec.one_decimal_item item -> Spec.numeric_item item.
Proof.
  intros H nut Hnut key Hkey.
  destruct (H nut Hnut key Hkey) as [E | [x E]]; [left | right]; eauto.
Qed.

Lemma scale_row_one_decimal (result : Nutrition.FoodRow) (portion_grams : Q) :
  Spec.one_decimal_item
    (Nutrition.mkFoodItem (Some (Nutrition.scale_row result portion_grams))).
Proof.
  intros nut [= <-] key Hkey. right. unfold Nutrition.TOTAL_KEYS in Hkey.
  unfold Nutrition.scale_row.
  repeat (apply elem_of_cons in Hkey as [-> | Hkey];
          [eexists; repeat (rewrite lookup_insert_ne by discriminate);
           rewrite lookup_insert_eq; reflexivity |]).
  by apply elem_of_nil in Hkey.
Qed.

Lemma empty_dict_one_decimal :
  Spec.one_decimal_item (Nutrition.mkFoodItem (Some ∅)).
Proof. intros nut [= <-] key _. left. apply lookup_empty. Qed.

(** What [calculate_total_nutrition] returns on numeric items. *)
Lemma calculate_total_nutrition_lookup (food_items : list Nutrition.FoodItem) :
  Forall Spec.numeric_item food_items ->
  exists total,
    Nutrition.calculate_total_nutrition food_items = Py.Return total /\
    (forall k, k ∈ Nutrition.TOTAL_KEYS ->
       exists t, total !! k = Some (Py.round1 t) /\
                 t == Spec.elementwise_sum food_items k) /\
    (forall k, k ∉ Nutrition.TOTAL_KEYS -> total !! k = None).
Proof.
  intros Hnum.
  destruct (add_items_numeric food_items Nutrition.total_init)
    as (total' & Hfold & Hin & Hout).
  { intros k Hk. rewrite total_init_lookup, decide_True by exact Hk. eauto. }
  { exact Hnum. }
  exists (Py.round1 <$> total'). split.
  - unfold Nutrition.calculate_total_nutrition. rewrite Hfold. reflexivity.
  - split.
    + intros k Hk. destruct (Hin k Hk) as (t & t' & Ht & Ht' & E).
      rewrite total_init_lookup, decide_True in Ht by exact Hk.
      injection Ht as <-. exists t'. rewrite lookup_fmap, Ht'.
      split; [reflexivity |]. rewrite E. ring.
    + intros k Hk. rewrite lookup_fmap, (Hout k Hk), total_init_lookup.
      rewrite decide_False by exact Hk. reflexivity.
Qed.





(** ** Recipe matching *)

Lemma descending_take {A} (key : A -> Q) (n : nat) (l : list A) :
  Spec.descending key l -> Spec.descending key (take n l).
Proof.
  unfold Spec.descending. intros H. revert n.
  induction H as [| x l Hl IH Hx]; intros [| n]; simpl; try constructor.
  - apply IH.
  - apply Forall_take. exact Hx.
Qed.

Lemma slice_to_take {A} (l : list A) (k : Z) :
  exists n, Py.slice_to l k = take n l.
Proof. unfold Py.slice_to. destruct (0 <=? k)%Z; eauto. Qed.

Lemma lower_set_size_pos (l : list string) :
  l <> [] -> size (Recipe.lower_set l) <> 0%nat.
Proof.
  destruct l as [| x l]; [congruence |]. intros _ Hsz.
  apply size_empty_iff in Hsz. unfold Recipe.lower_set in Hsz.
  apply (not_elem_of_empty (C := gset string) (Py.lower x)).
  rewrite <- Hsz. apply elem_of_list_to_set. left.
Qed.

Lemma Qnat_pos (n : nat) : n <> 0%nat -> 0 < Recipe.Qnat n.
Proof.
  intros Hn. unfold Recipe.Qnat. change 0 with (inject_Z 0).
  rewrite <- Zlt_Qlt. lia.
Qed.

(** What a returned candidate list of [_search_recipes] consists of. *)
Lemma search_recipes_Return (ingredients : list string) (recipes : list Recipe.Recipe) :
  forall candidates,
    Recipe._search_recipes recipes ingredients = Py.Return candidates ->
    Forall (fun f =>
              Recipe.found_recipe f ∈ recipes /\
              size (Recipe.lower_set (Recipe.ingredients (Recipe.found_recipe f)))
                <> 0%nat /\
              7#10 <= Spec.match_ratio ingredients
                        (Recipe.ingredients (Recipe.found_recipe f)))
           candidates.
Proof.
  induction recipes as [| recipe recipes IH]; intros candidates Hret.
  - injection Hret as <-. constructor.
  - cbn [Recipe._search_recipes] in Hret.
    destruct (Nat.eqb_spec
                (size (Recipe.lower_set (Recipe.ingredients recipe))) 0)
      as [Hz | Hnz]; [discriminate Hret |].
    destruct (Recipe._search_recipes recipes ingredients) as [rest | e];
      [| discriminate Hret].
    specialize (IH rest eq_refl).
    assert (Hrest : Forall (fun f =>
              Recipe.found_recipe f ∈ recipe :: recipes /\
              size (Recipe.lower_set (Recipe.ingredients (Recipe.found_recipe f)))
                <> 0%nat /\
              7#10 <= Spec.match_ratio ingredients
                        (Recipe.ingredients (Recipe.found_recipe f))) rest).
    { eapply Forall_impl; [exact IH |]. intros f (H1 & H2 & H3).
      split_and!; [by right | exact H2 | exact H3]. }
    cbn [mbind result_bind Py.bind] in Hret.
    destruct (Qle_bool _ _) eqn:Hle in Hret; injection Hret as <-;
      [| exact Hrest].
    constructor; [| exact Hrest]. cbn [Recipe.found_recipe].
    split_and!; [left | exact Hnz |]. apply Qle_bool_iff in Hle. exact Hle.
Qed.

Lemma search_recipes_total (ingredients : list string) (recipes : list Recipe.Recipe) :
  Forall (fun r => Recipe.ingredients r <> []) recipes ->
  exists candidates,
    Recipe._search_recipes recipes ingredients = Py.Return candidates.
Proof.
  induction 1 as [| recipe recipes Hne _ [rest IH]]; [by eexists |].
  cbn [Recipe._search_recipes].
  destruct (Nat.eqb_spec
              (size (Recipe.lower_set (Recipe.ingredients recipe))) 0)
    as [Hz | _]; [by apply lower_set_size_pos in Hz |].
  rewrite IH. cbn [mbind result_bind Py.bind].
  destruct (Qle_bool _ _); eauto.
Qed.

Lemma calculate_ingredient_match_ratio (available required : list string) :
  size (Recipe.lower_set required) <> 0%nat ->
  Recipe._calculate_ingredient_match available required =
  Spec.match_ratio available required.
Proof.
  intros Hnz. unfold Recipe._calculate_ingredient_match.
  destruct (Nat.eqb_spec (size (Recipe.lower_set required)) 0); [contradiction |].
  reflexivity.
Qed.

Lemma match_ratio_all_available (available required : list string) :
  size (Recipe.lower_set required) <> 0%nat ->
  Recipe.lower_set required ⊆ Recipe.lower_set available ->
  Spec.match_ratio available required == 1.
Proof.
  intros Hnz Hsub. unfold Spec.match_ratio.
  replace (Recipe.lower_set available ∩ Recipe.lower_set required)
    with (Recipe.lower_set required).
  2: { apply set_eq. intros y. rewrite elem_of_intersection.
       rewrite elem_of_subseteq in Hsub. split; [| tauto].
       intros Hy. split; [apply Hsub |]; exact Hy. }
  pose proof (Qnat_pos _ Hnz). field. lra.
Qed.

(** What [match_recipes] returns, in terms of the candidates. *)
Lemma match_recipes_Return (recipes : list Recipe.Recipe)
    (ingredients : list string) (emotion_type : string) (top_k : Z)
    (result : list Recipe.Candidate) :
  Recipe.match_recipes recipes ingredients emotion_type top_k = Py.Return result ->
  exists candidates n,
    Recipe._search_recipes recipes ingredients = Py.Return candidates /\
    result =
    take n (Py.sort_reverse Recipe.final_score
              (map (fun f =>
                      Recipe.mkCandidate f
                        (Recipe._score_by_emotion (Recipe.found_recipe f) emotion_type)
                        (Recipe._calculate_ingredient_match ingredients
                           (Recipe.ingredients (Recipe.found_recipe f))))
                   candidates)) /\
    ((0 <= top_k)%Z -> n = Z.to_nat top_k).
Proof.
  unfold Recipe.match_recipes.
  destruct (Recipe._search_recipes recipes ingredients) as [candidates | e];
    cbn [mbind result_bind Py.bind]; [| discriminate].
  intros [= <-]. exists candidates. unfold Py.slice_to.
  destruct (Z.leb_spec 0 top_k) as [Hk | Hk]; eexists;
    (split; [reflexivity |]); (split; [reflexivity |]); intros; [reflexivity | lia].
Qed.

(** The recipes of the candidates of [_search_recipes] are the
    qualifying recipes, in catalogue order. *)
Lemma search_recipes_qualifying (ingredients : list string)
    (recipes : list Recipe.Recipe) :
  forall candidates,
    Recipe._search_recipes recipes ingredients = Py.Return candidates ->
    Recipe.found_recipe <$> candidates = Spec.qualifying recipes ingredients.
Proof.
  induction recipes as [| recipe recipes IH]; intros candidates Hret.
  - injection Hret as <-. reflexivity.
  - cbn [Recipe._search_recipes] in Hret.
    destruct (Nat.eqb_spec
                (size (Recipe.lower_set (Recipe.ingredients recipe))) 0)
      as [Hz | Hnz]; [discriminate Hret |].
    destruct (Recipe._search_recipes recipes ingredients) as [rest | e];
      [| discriminate Hret].
    specialize (IH rest eq_refl).
    cbn [mbind result_bind Py.bind] in Hret.
    unfold Spec.qualifying. cbn [List.filter].
    fold (Spec.qualifying recipes ingredients). unfold Spec.match_ratio at 1.
    destruct (Qle_bool _ _) in Hret |- *; injection Hret as <-; csimpl;
      rewrite IH; reflexivity.
Qed.

Lemma scored_recipes (emotion_type : string) (ingredients : list string)
    (candidates : list Recipe.Found) :
  (fun c => Recipe.found_recipe (Recipe.found c)) <$>
    map (fun f =>
           Recipe.mkCandidate f
             (Recipe._score_by_emotion (Recipe.found_recipe f) emotion_type)
             (Recipe._calculate_ingredient_match ingredients
                (Recipe.ingredients (Recipe.found_recipe f))))
        candidates
  = Recipe.found_recipe <$> candidates.
Proof.
  induction candidates as [| f candidates IH]; [reflexivity |].
  csimpl. rewrite IH. reflexivity.
Qed.

(** C8. [match_recipes] returns a list whenever no recipe of the
    catalogue has an empty ingredient list. Every recipe of a returned
    list comes from the catalogue and carries its case-insensitive
    ingredient match ratio, which is at least 0.70, and is exactly 1
    when all its required ingredients are available; the list is in
    descending order of (emotion score + ingredient match) / 2; and for
    a non-negative [top_k] it has at most [top_k] entries. Nothing that
    qualifies is left out or passed over: the returned list followed by
    some list [rest] holds exactly the recipes of the catalogue whose
    ratio is at least 0.70, each with its scores, the whole in
    descending order of the ranking key, and for a non-negative [top_k]
    the returned list has [top_k] entries, or all qualifying recipes if
    they are fewer. *)
Theorem match_recipes_filtered_sorted (recipes : list Recipe.Recipe)
    (ingredients : list string) (emotion_type : string) (top_k : Z) :
  (Forall (fun r => Recipe.ingredients r <> []) recipes ->
   exists result,
     Recipe.match_recipes recipes ingredients emotion_type top_k
       = Py.Return result) /\
  forall result,
    Recipe.match_recipes recipes ingredients emotion_type top_k
      = Py.Return result ->
    Forall (fun c =>
              let required := Recipe.ingredients (Recipe.found_recipe (Recipe.found c)) in
              Recipe.found_recipe (Recipe.found c) ∈ recipes /\
              Recipe.ingredient_match c = Spec.match_ratio ingredients required /\
              7#10 <= Recipe.ingredient_match c /\
              Recipe.emotion_score c =
                Recipe._score_by_emotion (Recipe.found_recipe (Recipe.found c))
                  emotion_type /\
              (Recipe.lower_set required ⊆ Recipe.lower_set ingredients ->
               Recipe.ingredient_match c == 1))
           result /\
    Spec.descending Recipe.final_score result /\
    ((0 <= top_k)%Z -> (Z.of_nat (length result) <= top_k)%Z) /\
    exists rest,
      (fun c => Recipe.found_recipe (Recipe.found c)) <$> (result ++ rest)
        ≡ₚ Spec.qualifying recipes ingredients /\
      Forall (Spec.scored ingredients emotion_type) (result ++ rest) /\
      Spec.descending Recipe.final_score (result ++ rest) /\
      ((0 <= top_k)%Z ->
       length result =
       Nat.min (Z.to_nat top_k) (length (Spec.qualifying recipes ingredients))).
Proof.
  split.
  - intros Hne. destruct (search_recipes_total ingredients recipes Hne)
      as [candidates Hc].
    unfold Recipe.match_recipes. rewrite Hc. cbn [mbind result_bind Py.bind].
    eauto.
  - intros result Hret.
    destruct (match_recipes_Return _ _ _ _ _ Hret)
      as (candidates & n & Hc & -> & Hn).
    pose proof (search_recipes_Return ingredients recipes candidates Hc) as Hcand.
    pose proof (search_recipes_qualifying ingredients recipes candidates Hc)
      as Hqual.
    set (sorted := Py.sort_reverse Recipe.final_score _).
    assert (Hperm : (fun c => Recipe.found_recipe (Recipe.found c)) <$> sorted
                    ≡ₚ Spec.qualifying recipes ingredients).
    { unfold sorted. rewrite sort_reverse_perm, scored_recipes, Hqual.
      reflexivity. }
    split_and!.
    + apply Forall_take. unfold sorted. rewrite sort_reverse_perm.
      apply Forall_map.
      eapply Forall_impl; [exact Hcand |]. intros f (Hin & Hnz & Hratio).
      cbn [Recipe.found Recipe.ingredient_match Recipe.emotion_score].
      rewrite (calculate_ingredient_match_ratio _ _ Hnz).
      split_and!; [exact Hin | reflexivity | exact Hratio | reflexivity |].
      intros Hsub. apply match_ratio_all_available; assumption.
    + apply descending_take, sort_reverse_descending.
    + intros Hk. rewrite (Hn Hk), length_take. lia.
    + exists (drop n sorted). rewrite take_drop. split_and!.
      * exact Hperm.
      * unfold sorted. rewrite sort_reverse_perm. apply Forall_map.
        eapply Forall_impl; [exact Hcand |]. intros f (_ & Hnz & _).
        unfold Spec.scored.
        cbn [Recipe.found Recipe.ingredient_match Recipe.emotion_score].
        rewrite (calculate_ingredient_match_ratio _ _ Hnz). split; reflexivity.
      * apply sort_reverse_descending.
      * intros Hk. rewrite (Hn Hk), length_take.
        rewrite <- (Permutation_length Hperm), length_fmap. reflexivity.
Qed.

Lemma match_recipes_filtered_sorted_witness :
  Forall (fun r => Recipe.ingredients r <> []) Recipe._load_recipes /\
  (0 <= 5)%Z /\
  exists result,
    Recipe.match_recipes Recipe._load_recipes Sample.fridge "stress" 5
      = Py.Return result /\
    (Z.of_nat (length result) <= 5)%Z /\
    Forall (fun c => 7#10 <= Recipe.ingredient_match c) result /\
    length result = 1%nat.
Proof.
  assert (Hne : Forall (fun r => Recipe.ingredients r <> []) Recipe._load_recipes).
  { unfold Recipe._load_recipes. constructor; [discriminate | constructor]. }
  assert (Hk : (0 <= 5)%Z) by lia.
  split; [exact Hne |]. split; [exact Hk |].
  destruct (match_recipes_filtered_sorted Recipe._load_recipes Sample.fridge
              "stress" 5) as [Htotal Hprops].
  destruct (Htotal Hne) as [result Hret].
  destruct (Hprops result Hret) as (Hall & _ & Hlen & rest & _ & _ & _ & Hcount).
  exists result. split; [exact Hret |]. split; [exact (Hlen Hk) |]. split.
  - eapply Forall_impl; [exact Hall |]. intros c (_ & _ & H & _). exact H.
  - rewrite (Hcount Hk). vm_compute. reflexivity.
Defined.

(** The placeholder catalogue against a fridge that has everything:
    one recipe, matched completely. *)
Lemma match_recipes_simple_pasta :
  exists c,
    Recipe.match_recipes Recipe._load_recipes Sample.fridge "stress" 5
      = Py.Return [c] /\
    Recipe.name (Recipe.found_recipe (Recipe.found c)) = "Simple Pasta"%string /\
    Recipe.ingredient_match c == 1 /\
    Recipe.emotion_score c == 23#24.
Proof. eexists. split; [vm_compute; reflexivity |]. split_and!; reflexivity. Qed.

(** A catalogue with a recipe that lists no ingredient makes the search
    raise. *)
Lemma match_recipes_empty_recipe_raises :
  Recipe.match_recipes
    [Recipe.mkRecipe "2" "Water" [] None None []] Sample.fridge "stress" 5
  = Py.Raise Py.ZeroDivisionError.
Proof. reflexivity. Qed.

(** ** Further facts *)

(** The head of the sorted list is the first entry, unless a later
    entry has a strictly larger key. *)
Lemma sort_reverse_cons_head {A} (key : A -> Q) (a x : A) (l rest : list A) :
  Py.sort_reverse key (a :: l) = x :: rest ->
  x = a \/ (key a < key x /\ exists rest', Py.sort_reverse key l = x :: rest').
Proof.
  cbn [Py.sort_reverse foldr]. fold (Py.sort_reverse key l).
  destruct (Py.sort_reverse key l) as [| y l'] eqn:E; cbn [Py.insert_desc].
  - intros [= <- _]. by left.
  - destruct (Py.Qlt_bool (key a) (key y)) eqn:Hlt; intros [= <- _].
    + right. apply Qlt_bool_true in Hlt. eauto.
    + by left.
Qed.

Lemma coherence_points_stress_anxiety (coherence : Q) :
  Spec.axis_points 20 20 (Emotion.RTuple 0 (3#10)) coherence <=
  Spec.axis_points 20 20 (Emotion.RTuple 0 (1#2)) coherence.
Proof.
  assert (H20 : 0 <= 20) by lra.
  pose proof (axis_points_bounds 20 20 (Emotion.RTuple 0 (3#10)) coherence
                H20 H20) as Ha.
  pose proof (axis_points_bounds 20 20 (Emotion.RTuple 0 (1#2)) coherence
                H20 H20) as Hs.
  unfold Spec.axis_points in *.
  destruct (Qle_bool 0 coherence) eqn:H0; cbn [andb] in *.
  - apply Qle_bool_iff in H0.
    destruct (Qle_bool coherence (3#10)) eqn:H3;
      destruct (Qle_bool coherence (1#2)) eqn:H5; try lra.
    { apply Qle_bool_iff in H3.
      assert (Hn : ~ coherence <= 1#2) by (rewrite <- Qle_bool_iff; congruence).
      exfalso. apply Hn. lra. }
    assert (H5' : 1#2 < coherence).
    { apply Qnot_le_lt. rewrite <- Qle_bool_iff. congruence. }
    rewrite (Qabs_pos (coherence - 0)), (Qabs_pos (coherence - (3#10))),
      (Qabs_pos (coherence - (1#2))) by lra.
    destruct (Qmin_cases (coherence - 0) (coherence - (3#10))) as [[? E1] | [? E1]];
    destruct (Qmin_cases (coherence - 0) (coherence - (1#2))) as [[? E2] | [? E2]];
    destruct (Qmax_cases 0 (20 - Qmin (coherence - 0) (coherence - (3#10)) * 20))
      as [[? E3] | [? E3]];
    destruct (Qmax_cases 0 (20 - Qmin (coherence - 0) (coherence - (1#2)) * 20))
      as [[? E4] | [? E4]];
    rewrite E3, E4; rewrite ?E1, ?E2 in *; lra.
  - assert (H0' : coherence < 0).
    { apply Qnot_le_lt. rewrite <- Qle_bool_iff. congruence. }
    rewrite (Qabs_neg (coherence - 0)), (Qabs_neg (coherence - (3#10))),
      (Qabs_neg (coherence - (1#2))) by lra.
    destruct (Qmin_cases (- (coherence - 0)) (- (coherence - (3#10))))
      as [[? E1] | [? E1]];
    destruct (Qmin_cases (- (coherence - 0)) (- (coherence - (1#2))))
      as [[? E2] | [? E2]];
    destruct (Qmax_cases 0
                (20 - Qmin (- (coherence - 0)) (- (coherence - (3#10))) * 20))
      as [[? E3] | [? E3]];
    destruct (Qmax_cases 0
                (20 - Qmin (- (coherence - 0)) (- (coherence - (1#2))) * 20))
      as [[? E4] | [? E4]];
    rewrite E3, E4; rewrite ?E1, ?E2 in *; lra.
Qed.

(** The stress profile never scores below the anxiety profile: the two
    share the rate interval and the coherence interval of stress
    contains that of anxiety. *)
Lemma stress_score_ge_anxiety (hrv : Q) (hr : Z) (coherence : Q) :
  Emotion._calculate_emotion_score hrv hr coherence Emotion.ANXIETY_RULES <=
  Emotion._calculate_emotion_score hrv hr coherence
    (Emotion.mkRules (Emotion.RTuple 20 50) (Emotion.RTuple 85 120)
                     (Emotion.RTuple 0 (1#2))).
Proof.
  rewrite anxiety_score_as_sum, score_as_sum.
  cbn [Emotion.rule_hrv Emotion.rule_hr Emotion.rule_coherence].
  pose proof (axis_points_bounds 40 (1#2) (Emotion.RTuple 20 50) hrv).
  pose proof (coherence_points_stress_anxiety coherence).
  apply Q.min_le_compat_l. lra.
Qed.

(** Since stress comes first in the table and the sort is stable, the
    label anxiety is never the one returned. *)
Lemma anxiety_never_returned (hrv : Q) (hr : Z) (coherence : Q)
    (r : Emotion.EmotionAnalysisResult) :
  Emotion.classify_emotion hrv hr coherence = Py.Return r ->
  Emotion.type r <> Emotion.ANXIETY.
Proof.
  intros Hret Htype.
  destruct (classify_emotion_result hrv hr coherence)
    as (e & s & rest & Hsort & Hres).
  rewrite Hret in Hres. injection Hres as ->.
  cbn [Emotion.type] in Htype. subst e.
  unfold Emotion.EMOTION_RULES in Hsort. cbn [map] in Hsort.
  apply sort_reverse_cons_head in Hsort as [Heq | [Hlt [rest' Hsort']]].
  - discriminate Heq.
  - cbn [snd fst] in Hlt.
    pose proof (sort_reverse_head snd _ _ _ Hsort') as [Hin _].
    pose proof (stress_score_ge_anxiety hrv hr coherence) as Hge.
    repeat (apply elem_of_cons in Hin as [Heq | Hin];
            [try discriminate Heq |]).
    + injection Heq as ->. unfold Emotion.ANXIETY_RULES in Hge.
      cbn [snd] in Hlt. lra.
    + by apply elem_of_nil in Hin.
Qed.

(** On a cache miss [get_nutrition_info] returns the scaled row of the
    first match, and nothing when no row matches. *)
Lemma get_nutrition_info_miss (query : string -> option Nutrition.FoodRow)
    (redis_available : bool) (cache_key_of : string -> Q -> string)
    (food_name : string) (portion_grams : Q)
    (redis : gmap string (gmap string Nutrition.PyVal)) :
  redis !! cache_key_of food_name portion_grams = None ->
  (Nutrition.get_nutrition_info (Some query) redis_available cache_key_of
     food_name portion_grams redis).1 =
  (fun result => Nutrition.scale_row result portion_grams) <$> query food_name.
Proof.
  intros Hmiss. unfold Nutrition.get_nutrition_info. rewrite Hmiss.
  destruct redis_available; destruct (query food_name); reflexivity.
Qed.

(** * Further properties of the services *)

(** ** Emotion classification, continued *)

(** X1. Whatever the reading, [classify_emotion] returns a result and
    its label is not anxiety. *)
Theorem classify_emotion_never_anxiety (hrv : Q) (hr : Z) (coherence : Q) :
  exists r,
    Emotion.classify_emotion hrv hr coherence = Py.Return r /\
    Emotion.type r <> Emotion.ANXIETY.
Proof.
  destruct (classify_emotion_result hrv hr coherence)
    as (e & s & rest & _ & Hres).
  eexists. split; [exact Hres |].
  apply (anxiety_never_returned hrv hr coherence _ Hres).
Qed.

(** The head of the stable descending sort is the first entry of the
    input that has the largest key. *)
Lemma sort_reverse_first_max {A} (key : A -> Q) (l : list A) :
  forall x rest,
    Py.sort_reverse key l = x :: rest ->
    exists l1 l2,
      l = l1 ++ x :: l2 /\
      Forall (fun y => key y < key x) l1 /\
      Forall (fun y => key y <= key x) l2.
Proof.
  induction l as [| a l IH]; intros x rest Hsort; [discriminate Hsort |].
  destruct (sort_reverse_head key _ _ _ Hsort) as [_ Hmax].
  destruct (sort_reverse_cons_head key a x l rest Hsort)
    as [-> | [Hlt [rest' Hsort']]].
  - exists [], l. split; [reflexivity |]. split; [constructor |].
    by apply Forall_cons in Hmax as [_ Hmax].
  - destruct (IH x rest' Hsort') as (l1 & l2 & -> & H1 & H2).
    exists (a :: l1), l2. split; [reflexivity |].
    split; [by constructor | exact H2].
Qed.

(** X2. Ties are broken by the order of the rule table: the returned
    label is the first profile of [EMOTION_RULES] whose score is the
    largest; every profile before it scores strictly less, every
    profile after it scores at most as much. *)
Theorem classify_emotion_first_maximum (hrv : Q) (hr : Z) (coherence : Q) :
  exists r before rules after,
    Emotion.classify_emotion hrv hr coherence = Py.Return r /\
    Emotion.EMOTION_RULES = before ++ (Emotion.type r, rules) :: after /\
    Emotion.score r =
      Py.int (Emotion._calculate_emotion_score hrv hr coherence rules) /\
    Forall (fun er =>
              Emotion._calculate_emotion_score hrv hr coherence er.2 <
              Emotion._calculate_emotion_score hrv hr coherence rules) before /\
    Forall (fun er =>
              Emotion._calculate_emotion_score hrv hr coherence er.2 <=
              Emotion._calculate_emotion_score hrv hr coherence rules) after.
Proof.
  destruct (classify_emotion_result hrv hr coherence)
    as (e & s & rest & Hsort & Hres).
  destruct (sort_reverse_first_max snd _ _ _ Hsort) as (l1 & l2 & Hl & H1 & H2).
  change (map ?f ?l) with (f <$> l) in Hl.
  apply fmap_app_inv in Hl as (before & tl & -> & Htl & Hrules).
  symmetry in Htl. apply fmap_cons_inv in Htl as ([e' rules] & after & He & -> & ->).
  cbn [fst snd] in He. injection He as -> ->.
  eexists. exists before, rules, after. split; [exact Hres |].
  cbn [Emotion.type Emotion.score]. split; [exact Hrules |].
  split; [reflexivity |]. split.
  - rewrite Forall_forall in H1. apply Forall_forall. intros er Her.
    apply (H1 (er.1, Emotion._calculate_emotion_score hrv hr coherence er.2)).
    apply (list_elem_of_fmap_2
             (fun er : string * Emotion.Rules =>
                (er.1, Emotion._calculate_emotion_score hrv hr coherence er.2))
             _ er Her).
  - rewrite Forall_forall in H2. apply Forall_forall. intros er Her.
    apply (H2 (er.1, Emotion._calculate_emotion_score hrv hr coherence er.2)).
    apply (list_elem_of_fmap_2
             (fun er : string * Emotion.Rules =>
                (er.1, Emotion._calculate_emotion_score hrv hr coherence er.2))
             _ er Her).
Qed.

Lemma int_lower (x : Q) (n : Z) : (0 <= n)%Z -> inject_Z n <= x -> (n <= Py.int x)%Z.
Proof.
  destruct x as [p d]. unfold Py.int, Qle. simpl. intros H0 Hn.
  rewrite Z.quot_div_nonneg by lia.
  apply Z.div_le_lower_bound; lia.
Qed.

(** X3. A reading that lies inside all three intervals of a profile
    gives that profile the score 100, and the result carries the score
    100. *)
Theorem classify_emotion_full_match (hrv : Q) (hr : Z) (coherence : Q)
    (e : string) (rules : Emotion.Rules) :
  (e, rules) ∈ Emotion.EMOTION_RULES ->
  Spec.in_rule (Emotion.rule_hrv rules) hrv ->
  Spec.in_rule (Emotion.rule_hr rules) (inject_Z hr) ->
  Spec.in_rule (Emotion.rule_coherence rules) coherence ->
  Emotion._calculate_emotion_score hrv hr coherence rules == 100 /\
  exists r,
    Emotion.classify_emotion hrv hr coherence = Py.Return r /\
    Emotion.score r = 100%Z.
Proof.
  intros Hin Hhrv Hhr Hcoh.
  assert (Hfull : Emotion._calculate_emotion_score hrv hr coherence rules == 100).
  { rewrite score_as_sum. unfold Spec.axis_points, Spec.in_rule in *.
    destruct (Emotion.rule_hrv rules) as [l1 h1 |]; [| contradiction].
    destruct (Emotion.rule_hr rules) as [l2 h2 |]; [| contradiction].
    destruct (Emotion.rule_coherence rules) as [l3 h3 |]; [| contradiction].
    destruct Hhrv as [A1 A2], Hhr as [B1 B2], Hcoh as [C1 C2].
    apply Qle_bool_iff in A1, A2, B1, B2, C1, C2.
    rewrite A1, A2, B1, B2, C1, C2. reflexivity. }
  split; [exact Hfull |].
  destruct (classify_emotion_result hrv hr coherence)
    as (e' & s & rest & Hsort & Hres).
  eexists. split; [exact Hres |]. cbn [Emotion.score].
  destruct (sort_reverse_head snd _ _ _ Hsort) as [Hhead Hmax].
  pose proof (scored_bounds hrv hr coherence) as B.
  rewrite Forall_forall in B, Hmax.
  pose proof (B _ Hhead) as [_ Hs100]. cbn [snd] in Hs100.
  assert (Hle : 100 <= s).
  { rewrite <- Hfull.
    apply (Hmax (e, Emotion._calculate_emotion_score hrv hr coherence rules)).
    change (map ?f ?l) with (f <$> l).
    apply (list_elem_of_fmap_2
             (fun er : string * Emotion.Rules =>
                (er.1, Emotion._calculate_emotion_score hrv hr coherence er.2))
             _ (e, rules) Hin). }
  pose proof (int_lower s 100 ltac:(lia) Hle).
  pose proof (int_bounds s 100 ltac:(lra) Hs100). lia.
Qed.

Lemma classify_emotion_full_match_witness :
  (Emotion.HAPPINESS,
   Emotion.mkRules (Emotion.RTuple 60 100) (Emotion.RTuple 70 85)
                   (Emotion.RTuple (8#10) 1)) ∈ Emotion.EMOTION_RULES /\
  exists r,
    Emotion.classify_emotion 80 75 (9#10) = Py.Return r /\
    Emotion.score r = 100%Z.
Proof.
  assert (Hin : (Emotion.HAPPINESS,
                 Emotion.mkRules (Emotion.RTuple 60 100) (Emotion.RTuple 70 85)
                   (Emotion.RTuple (8#10) 1)) ∈ Emotion.EMOTION_RULES).
  { unfold Emotion.EMOTION_RULES. do 3 right. left. }
  split; [exact Hin |].
  apply (classify_emotion_full_match 80 75 (9#10) _ _ Hin);
    simpl; split; unfold Qle; simpl; lia.
Defined.

(** ** The wellness score *)

Lemma int_nonneg_floor (x : Q) : 0 <= x -> Py.int x = Qfloor x.
Proof.
  destruct x as [p d]. unfold Py.int, Qle, Qfloor. simpl. intros H.
  apply Z.quot_div_nonneg; lia.
Qed.

Lemma int_neg_ceiling (x : Q) : x <= 0 -> Py.int x = Qceiling x.
Proof.
  destruct x as [p d]. unfold Py.int, Qle, Qceiling, Qfloor. simpl. intros H.
  replace p with (- (- p))%Z at 1 by lia.
  rewrite Z.quot_opp_l by lia. rewrite Z.quot_div_nonneg by lia. reflexivity.
Qed.

Lemma int_mono (x y : Q) : x <= y -> (Py.int x <= Py.int y)%Z.
Proof.
  intros Hle. destruct (Qlt_le_dec x 0) as [Hx | Hx];
    destruct (Qlt_le_dec y 0) as [Hy | Hy].
  - rewrite !int_neg_ceiling by lra. by apply Qceiling_resp_le.
  - rewrite (int_neg_ceiling x), (int_nonneg_floor y) by lra.
    assert (Qceiling x <= 0)%Z.
    { change 0%Z with (Qceiling 0). apply Qceiling_resp_le. lra. }
    assert (0 <= Qfloor y)%Z.
    { change 0%Z with (Qfloor 0). by apply Qfloor_resp_le. }
    lia.
  - lra.
  - rewrite !int_nonneg_floor by lra. by apply Qfloor_resp_le.
Qed.

Lemma percent_of_20 (x : Q) : x / 100 * 20 == x * (1#5).
Proof. field. Qed.

Lemma percent_of_40 (x : Q) : x / 100 * 40 == x * (2#5).
Proof. field. Qed.

(** X4. The wellness score lies between 0 and 100 for every reading,
    and a higher emotion score never lowers it. *)
Theorem wellness_score_range_monotone (hrv : Q) (heart_rate : Z)
    (emotion_score emotion_score' : Z) :
  (emotion_score <= emotion_score')%Z ->
  (0 <= Wellness.calculate_wellness_score hrv heart_rate emotion_score <= 100)%Z /\
  (Wellness.calculate_wellness_score hrv heart_rate emotion_score <=
   Wellness.calculate_wellness_score hrv heart_rate emotion_score')%Z.
Proof.
  intros Hle. unfold Wellness.calculate_wellness_score. split; [lia |].
  apply Z.min_le_compat_l, Z.max_le_compat_l, int_mono.
  assert (inject_Z emotion_score <= inject_Z emotion_score')
    by (rewrite <- Zle_Qle; exact Hle).
  rewrite !percent_of_20. lra.
Qed.

Lemma wellness_score_range_monotone_witness :
  (50 <= 90)%Z /\
  (Wellness.calculate_wellness_score 60 75 50 <=
   Wellness.calculate_wellness_score 60 75 90)%Z.
Proof.
  split; [lia |].
  apply (wellness_score_range_monotone 60 75 50 90). lia.
Defined.

(** X5. With an emotion score of at most 100, the wellness score is 100
    whenever the variability is at least 100, the heart rate is 70 and
    the emotion score is 100; and a wellness score of 100 is reached
    only at a heart rate of exactly 70 with an emotion score of exactly
    100: any other heart rate or emotion score gives at most 99. *)
Theorem wellness_score_perfect (hrv : Q) (heart_rate : Z) (emotion_score : Z) :
  (emotion_score <= 100)%Z ->
  (100 <= hrv -> heart_rate = 70%Z -> emotion_score = 100%Z ->
   Wellness.calculate_wellness_score hrv heart_rate emotion_score = 100%Z) /\
  (Wellness.calculate_wellness_score hrv heart_rate emotion_score = 100%Z ->
   heart_rate = 70%Z /\ emotion_score = 100%Z) /\
  ((heart_rate <> 70%Z \/ emotion_score <> 100%Z) ->
   (Wellness.calculate_wellness_score hrv heart_rate emotion_score <= 99)%Z).
Proof.
  intros Hes. unfold Wellness.calculate_wellness_score.
  set (hrv_score := Qmin 40 (hrv / 100 * 40)).
  set (hr_score := Qmax 0 (40 - inject_Z (Z.abs (heart_rate - 70)) * (1#2))).
  set (ec := inject_Z emotion_score / 100 * 20).
  assert (Hdev : 0 <= inject_Z (Z.abs (heart_rate - 70))).
  { change 0 with (inject_Z 0). rewrite <- Zle_Qle. lia. }
  assert (H1 : hrv_score <= 40).
  { unfold hrv_score.
    destruct (Qmin_cases 40 (hrv / 100 * 40)) as [[? E] | [? E]]; rewrite E; lra. }
  assert (H2 : hr_score <= 40).
  { unfold hr_score.
    destruct (Qmax_cases 0 (40 - inject_Z (Z.abs (heart_rate - 70)) * (1#2)))
      as [[? E] | [? E]]; rewrite E; lra. }
  assert (H3 : ec <= 20).
  { unfold ec. assert (inject_Z emotion_score <= 100).
    { change 100 with (inject_Z 100). rewrite <- Zle_Qle. exact Hes. }
    rewrite percent_of_20. lra. }
  assert (Hnec :
    Z.min 100 (Z.max 0 (Py.int (hrv_score + hr_score + ec))) = 100%Z ->
    heart_rate = 70%Z /\ emotion_score = 100%Z).
  { intros Hw.
    assert (Hint : (100 <= Py.int (hrv_score + hr_score + ec))%Z) by lia.
    assert (Htot : 100 <= hrv_score + hr_score + ec).
    { destruct (Qlt_le_dec (hrv_score + hr_score + ec) 0) as [Hn | Hp].
      - rewrite int_neg_ceiling in Hint by lra.
        assert (Qceiling (hrv_score + hr_score + ec) <= 0)%Z.
        { change 0%Z with (Qceiling 0). apply Qceiling_resp_le. lra. }
        lia.
      - rewrite int_nonneg_floor in Hint by lra.
        pose proof (Qfloor_le (hrv_score + hr_score + ec)) as Hf.
        assert (inject_Z 100 <= inject_Z (Qfloor (hrv_score + hr_score + ec)))
          by (rewrite <- Zle_Qle; exact Hint).
        change (inject_Z 100) with 100 in *. lra. }
    assert (E2 : 40 <= hr_score) by lra.
    assert (E3 : 20 <= ec) by lra.
    split.
    - unfold hr_score in E2.
      destruct (Qmax_cases 0 (40 - inject_Z (Z.abs (heart_rate - 70)) * (1#2)))
        as [[Hc E] | [Hc E]]; rewrite E in E2; [| lra].
      assert (Hz : inject_Z (Z.abs (heart_rate - 70)) <= inject_Z 0)
        by (change (inject_Z 0) with 0; lra).
      rewrite <- Zle_Qle in Hz. lia.
    - unfold ec in E3.
      rewrite percent_of_20 in E3.
      assert (Hz : inject_Z 100 <= inject_Z emotion_score)
        by (change (inject_Z 100) with 100; lra).
      rewrite <- Zle_Qle in Hz. lia. }
  split_and!.
  - intros Hh -> ->.
    assert (Htot : 100 <= hrv_score + hr_score + ec).
    { assert (E1 : 40 <= hrv_score).
      { unfold hrv_score.
        destruct (Qmin_cases 40 (hrv / 100 * 40)) as [[Hc E] | [Hc E]];
          rewrite E; rewrite ?percent_of_40 in *; lra. }
      assert (E2 : hr_score == 40) by reflexivity.
      assert (E3 : ec == 20) by reflexivity.
      lra. }
    pose proof (int_lower _ 100 ltac:(lia) Htot). lia.
  - exact Hnec.
  - intros Hor.
    destruct (Z.eq_dec
                (Z.min 100 (Z.max 0 (Py.int (hrv_score + hr_score + ec))))
                100%Z)
      as [Hw | Hw]; [| lia].
    destruct (Hnec Hw) as [E1 E2]. destruct Hor as [Hor | Hor]; contradiction.
Qed.

Lemma wellness_score_perfect_witness :
  (100 <= 100)%Z /\ Wellness.calculate_wellness_score 120 70 100 = 100%Z /\
  (Wellness.calculate_wellness_score 120 71 100 <= 99)%Z.
Proof.
  split; [lia |].
  destruct (wellness_score_perfect 120 70 100 ltac:(lia)) as (Hsuf & _ & _).
  destruct (wellness_score_perfect 120 71 100 ltac:(lia)) as (_ & _ & Hle).
  split.
  - apply Hsuf; [unfold Qle; simpl; lia | reflexivity | reflexivity].
  - apply Hle. left. lia.
Defined.

(** ** Hybrid detection, continued *)

Section DetectMore.

Context {Img : Type} (cfg : Image.Settings).
Context (_get_cache_key : list Byte.byte -> string).
Context (_preprocess_image : list Byte.byte -> Py.Result Img).
Context (_run_yolo_inference : Img -> Py.Result (list Image.Detection)).
Context (_run_claude_inference : list Byte.byte -> Py.Result Image.ClaudeResults).

Let detect :=
  Image.analyze_food_image Img cfg _get_cache_key _preprocess_image
    _run_yolo_inference _run_claude_inference.

(** A call that returns a list leaves that list in the cache under the
    key of the image. *)
Lemma analyze_food_image_caches (image_bytes : list Byte.byte)
    (st st' : Image.State) (detections : list Image.Detection) :
  detect image_bytes st = (Py.Return detections, st') ->
  Image.redis st' !! Image.cache_name (_get_cache_key image_bytes)
    = Some detections.
Proof.
  unfold detect, Image.analyze_food_image. cbn [Image.log Image.redis].
  destruct (Image.redis st !! Image.cache_name (_get_cache_key image_bytes))
    as [cached |] eqn:Hc.
  - intros [= <- <-]. exact Hc.
  - destruct (_preprocess_image image_bytes) as [image | e]; [| discriminate].
    destruct (_run_yolo_inference image) as [ds | e]; [| discriminate].
    destruct (Py.Qlt_bool _ _).
    + destruct (_run_claude_inference image_bytes) as [cr | e]; [| discriminate].
      intros [= <- <-]. cbn [Image.redis]. apply lookup_insert_eq.
    + intros [= <- <-]. cbn [Image.redis]. apply lookup_insert_eq.
Qed.

(** X6. Once a call has returned a list for an image, the next call
    with the same bytes returns the same list from the cache: it reads
    the cache and calls neither detector. *)
Theorem analyze_food_image_second_call (image_bytes : list Byte.byte)
    (st st' : Image.State) (detections : list Image.Detection) :
  detect image_bytes st = (Py.Return detections, st') ->
  (detect image_bytes st').1 = Py.Return detections /\
  Image.redis (detect image_bytes st').2 = Image.redis st' /\
  Image.calls (detect image_bytes st').2 =
    Image.calls st' ++
    [Image.CacheGet (Image.cache_name (_get_cache_key image_bytes))].
Proof.
  intros Hfirst. pose proof (analyze_food_image_caches _ _ _ _ Hfirst) as Hc.
  unfold detect, Image.analyze_food_image. cbn [Image.log Image.redis].
  rewrite Hc. split_and!; reflexivity.
Qed.

(** X7. A failure of the primary path, in decoding or in the primary
    detector, ends the call with that exception: the fallback is not
    asked and the cache is not written. *)
Theorem analyze_food_image_primary_failure (image_bytes : list Byte.byte)
    (st : Image.State) (e : Py.Exn) :
  Image.redis st !! Image.cache_name (_get_cache_key image_bytes) = None ->
  Py.bind (_preprocess_image image_bytes) _run_yolo_inference = Py.Raise e ->
  (detect image_bytes st).1 = Py.Raise e /\
  Image.redis (detect image_bytes st).2 = Image.redis st /\
  Spec.fallback_calls (detect image_bytes st).2 = Spec.fallback_calls st.
Proof.
  intros Hmiss Hfail. unfold detect, Image.analyze_food_image.
  cbn [Image.log Image.redis]. rewrite Hmiss.
  destruct (_preprocess_image image_bytes) as [image | e1]; cbn [Py.bind] in Hfail.
  - rewrite Hfail. split_and!; try reflexivity.
    cbn [snd]. unfold Spec.fallback_calls. cbn [Image.calls Image.log].
    rewrite !List.filter_app, !List.length_app. simpl. lia.
  - injection Hfail as ->. split_and!; try reflexivity.
    cbn [snd]. unfold Spec.fallback_calls. cbn [Image.calls Image.log].
    rewrite !List.filter_app, !List.length_app. simpl. lia.
Qed.

End DetectMore.

Lemma analyze_food_image_second_call_witness :
  let first := Sample.detect_with Sample.claude_foods in
  first.1 = Py.Return [Spec.detection_of_food Sample.pizza] /\
  (Image.analyze_food_image unit Image.settings Sample.key_of Sample.decode
     Sample.yolo_low Sample.claude_foods [] first.2).1
    = Py.Return [Spec.detection_of_food Sample.pizza].
Proof.
  cbv zeta. split; [reflexivity |].
  apply (analyze_food_image_second_call Image.settings Sample.key_of
           Sample.decode Sample.yolo_low Sample.claude_foods
           [] Sample.empty_state (Sample.detect_with Sample.claude_foods).2
           [Spec.detection_of_food Sample.pizza] eq_refl).
Defined.

Lemma analyze_food_image_primary_failure_witness :
  Image.redis Sample.empty_state !! Image.cache_name (Sample.key_of []) = None /\
  Py.bind (Sample.decode []) Sample.yolo_down = Py.Raise Py.BackendError /\
  (Image.analyze_food_image unit Image.settings Sample.key_of Sample.decode
     Sample.yolo_down Sample.claude_foods [] Sample.empty_state).1
    = Py.Raise Py.BackendError.
Proof.
  assert (Hmiss : Image.redis Sample.empty_state
                    !! Image.cache_name (Sample.key_of []) = None)
    by reflexivity.
  split; [exact Hmiss |]. split; [reflexivity |].
  apply (analyze_food_image_primary_failure Image.settings Sample.key_of
           Sample.decode Sample.yolo_down Sample.claude_foods
           [] Sample.empty_state Py.BackendError Hmiss eq_refl).
Defined.

(** ** Portion size, continued *)

Lemma estimate_portion_size_value (x1 y1 x2 y2 : Q) (w h : Z) :
  (w * h)%Z <> 0%Z ->
  Image.estimate_portion_size [x1; y1; x2; y2] (w, h) =
  Py.Return
    (Qmax 50 (Qmin 500
       ((x2 - x1) * (y2 - y1) / inject_Z (w * h) / (1#2) * 200))).
Proof.
  intros Hnz. unfold Image.estimate_portion_size. cbn [fst snd].
  destruct (Z.eqb_spec (w * h) 0); [contradiction | reflexivity].
Qed.

Lemma grams_of_ratio (a t : Q) : 0 < t -> a / t / (1#2) * 200 == a * 400 / t.
Proof. intros Ht. field. lra. Qed.

Lemma clamp_mono (x y : Q) :
  x <= y -> Qmax 50 (Qmin 500 x) <= Qmax 50 (Qmin 500 y).
Proof.
  intros Hle. apply Q.max_le_compat_l, Q.min_le_compat_l, Hle.
Qed.

(** X8. Every detection that comes from the fallback carries the
    placeholder box of the whole 640 x 640 frame, so the portion that
    [process_food_image] estimates from its box is 400 g, whatever
    weight the fallback reported. *)
Theorem fallback_detections_portion (yolo_results : list Image.Detection)
    (claude_results : Image.ClaudeResults) (fs : list Image.Food) :
  Image.foods claude_results = Some fs ->
  length (Image._merge_detections yolo_results claude_results) = length fs /\
  Forall (fun d =>
            exists grams,
              Image.estimate_portion_size (Image.bbox d) (640, 640)%Z
                = Py.Return grams /\
              grams == 400)
         (Image._merge_detections yolo_results claude_results).
Proof.
  intros Hfoods. unfold Image._merge_detections. rewrite Hfoods.
  split; [apply length_map |].
  apply Forall_map, Forall_forall. intros food _. cbn [Image.bbox].
  eexists. split; [reflexivity |]. reflexivity.
Qed.

Lemma fallback_detections_portion_witness :
  Image.foods (Image.mkClaudeResults
                 (Some [Image.mkFood "pizza" (9#10) (Some 150)]))
    = Some [Image.mkFood "pizza" (9#10) (Some 150)] /\
  Forall (fun d =>
            exists grams,
              Image.estimate_portion_size (Image.bbox d) (640, 640)%Z
                = Py.Return grams /\
              grams == 400)
         (Image._merge_detections Sample.low_detections
            (Image.mkClaudeResults
               (Some [Image.mkFood "pizza" (9#10) (Some 150)]))).
Proof.
  split; [reflexivity |].
  apply (fallback_detections_portion Sample.low_detections
           (Image.mkClaudeResults
              (Some [Image.mkFood "pizza" (9#10) (Some 150)]))
           [Image.mkFood "pizza" (9#10) (Some 150)] eq_refl).
Defined.

(** X9. For a box that lies inside the image the estimate is between
    50 g and 400 g: the upper clamp of 500 g is never reached. *)
Theorem estimate_portion_size_in_frame (x1 y1 x2 y2 : Q) (w h : Z) :
  (0 < w)%Z -> (0 < h)%Z ->
  Spec.in_frame x1 y1 x2 y2 w h ->
  exists grams,
    Image.estimate_portion_size [x1; y1; x2; y2] (w, h) = Py.Return grams /\
    50 <= grams <= 400.
Proof.
  intros Hw Hh (Hx1 & Hx & Hx2 & Hy1 & Hy & Hy2).
  rewrite estimate_portion_size_value by lia.
  eexists. split; [reflexivity |].
  assert (Ht : 0 < inject_Z (w * h)).
  { change 0 with (inject_Z 0). rewrite <- Zlt_Qlt. lia. }
  assert (Harea : (x2 - x1) * (y2 - y1) <= inject_Z (w * h)).
  { rewrite inject_Z_mult.
    assert (0 <= inject_Z h).
    { change 0 with (inject_Z 0). rewrite <- Zle_Qle. lia. }
    apply Qle_trans with ((x2 - x1) * inject_Z h).
    - rewrite (Qmult_comm (x2 - x1) (y2 - y1)), (Qmult_comm (x2 - x1) (inject_Z h)).
      apply Qmult_le_compat_r; lra.
    - apply Qmult_le_compat_r; [lra | assumption]. }
  set (area := (x2 - x1) * (y2 - y1)) in *.
  set (t := inject_Z (w * h)) in *.
  assert (Hg : area / t / (1#2) * 200 <= 400).
  { rewrite grams_of_ratio by exact Ht.
    apply Qle_shift_div_r; [exact Ht | lra]. }
  destruct (Qmin_cases 500 (area / t / (1#2) * 200)) as [[H1 Hm] | [H1 Hm]];
  destruct (Qmax_cases 50 (Qmin 500 (area / t / (1#2) * 200)))
    as [[H2 HM] | [H2 HM]];
  rewrite ?HM, ?Hm in *; lra.
Qed.

Lemma estimate_portion_size_in_frame_witness :
  (0 < 640)%Z /\ Spec.in_frame 100 150 300 350 640 640 /\
  exists grams,
    Image.estimate_portion_size [100; 150; 300; 350] (640, 640)%Z
      = Py.Return grams /\
    50 <= grams <= 400.
Proof.
  assert (Hf : Spec.in_frame 100 150 300 350 640 640).
  { unfold Spec.in_frame. split_and!; unfold Qle; simpl; lia. }
  split; [lia |]. split; [exact Hf |].
  apply (estimate_portion_size_in_frame 100 150 300 350 640 640
           ltac:(lia) ltac:(lia) Hf).
Defined.

(** X10. In an image of positive area a box of larger area never gets
    a smaller estimate. *)
Theorem estimate_portion_size_monotone (x1 y1 x2 y2 x1' y1' x2' y2' : Q)
    (w h : Z) :
  (0 < w * h)%Z ->
  (x2 - x1) * (y2 - y1) <= (x2' - x1') * (y2' - y1') ->
  exists grams grams',
    Image.estimate_portion_size [x1; y1; x2; y2] (w, h) = Py.Return grams /\
    Image.estimate_portion_size [x1'; y1'; x2'; y2'] (w, h) = Py.Return grams' /\
    grams <= grams'.
Proof.
  intros Hpos Hle. rewrite !estimate_portion_size_value by lia.
  eexists. eexists. split; [reflexivity |]. split; [reflexivity |].
  assert (Ht : 0 < inject_Z (w * h)).
  { change 0 with (inject_Z 0). rewrite <- Zlt_Qlt. lia. }
  apply clamp_mono. rewrite !grams_of_ratio by exact Ht.
  apply Qle_shift_div_l; [exact Ht |].
  set (t := inject_Z (w * h)) in *.
  assert (E : (x2 - x1) * (y2 - y1) * 400 / t * t
              == (x2 - x1) * (y2 - y1) * 400) by (field; lra).
  rewrite E. lra.
Qed.

Lemma estimate_portion_size_monotone_witness :
  (0 < 640 * 640)%Z /\
  exists grams grams',
    Image.estimate_portion_size [0; 0; 100; 100] (640, 640)%Z = Py.Return grams /\
    Image.estimate_portion_size [0; 0; 400; 400] (640, 640)%Z = Py.Return grams' /\
    grams <= grams'.
Proof.
  split; [lia |].
  apply (estimate_portion_size_monotone 0 0 100 100 0 0 400 400 640 640
           ltac:(lia)).
  unfold Qle. simpl. lia.
Defined.

(** ** Nutrition lookup and totals, continued *)

(** X11. With the cache in use, a lookup that returned a dict leaves it
    in the cache: the same lookup afterwards returns the same dict
    without asking the database, whatever the database would answer. *)
Theorem get_nutrition_info_cached
    (query query' : string -> option Nutrition.FoodRow)
    (cache_key_of : string -> Q -> string) (food_name : string)
    (portion_grams : Q) (redis redis' : gmap string (gmap string Nutrition.PyVal))
    (nutrition : gmap string Nutrition.PyVal) :
  Nutrition.get_nutrition_info (Some query) true cache_key_of
    food_name portion_grams redis = (Some nutrition, redis') ->
  Nutrition.get_nutrition_info (Some query') true cache_key_of
    food_name portion_grams redis' = (Some nutrition, redis').
Proof.
  unfold Nutrition.get_nutrition_info.
  destruct (redis !! cache_key_of food_name portion_grams) as [cached |] eqn:Hc.
  - intros [= <- <-]. rewrite Hc. reflexivity.
  - destruct (query food_name) as [result |]; [| discriminate].
    intros [= <- <-]. rewrite lookup_insert_eq. reflexivity.
Qed.

Lemma get_nutrition_info_cached_witness :
  exists nutrition redis',
    Nutrition.get_nutrition_info (Some Sample.first_match) true
      Sample.key_by_name "apple" 150 ∅ = (Some nutrition, redis') /\
    Nutrition.get_nutrition_info (Some Sample.no_match) true
      Sample.key_by_name "apple" 150 redis' = (Some nutrition, redis').
Proof.
  exists (Nutrition.scale_row Sample.row_a 150).
  exists (<[Sample.key_by_name "apple" 150 :=
             Nutrition.scale_row Sample.row_a 150]> ∅).
  assert (Hfirst :
    Nutrition.get_nutrition_info (Some Sample.first_match) true
      Sample.key_by_name "apple" 150 ∅ =
    (Some (Nutrition.scale_row Sample.row_a 150),
     <[Sample.key_by_name "apple" 150 :=
         Nutrition.scale_row Sample.row_a 150]> ∅)) by reflexivity.
  split; [exact Hfirst |].
  apply (get_nutrition_info_cached Sample.first_match Sample.no_match
           Sample.key_by_name "apple" 150 ∅ _ _ Hfirst).
Defined.

(** Rounding to the nearest integer moves a number by at most 1/2. *)
Lemma round_half_even_error (x : Q) :
  Qabs (inject_Z (Py.round_half_even x) - x) <= 1#2.
Proof.
  unfold Py.round_half_even.
  pose proof (Qfloor_le x) as Hlo. pose proof (Qlt_floor x) as Hhi.
  rewrite inject_Z_plus in Hhi. change (inject_Z 1) with 1 in Hhi.
  set (f := Qfloor x) in *.
  destruct (Py.Qlt_bool (x - inject_Z f) (1#2)) eqn:E1.
  - apply Qlt_bool_true in E1. apply Qabs_Qle_condition. lra.
  - apply Qlt_bool_false in E1.
    destruct (Py.Qlt_bool (1#2) (x - inject_Z f)) eqn:E2.
    + rewrite inject_Z_plus. change (inject_Z 1) with 1.
      apply Qabs_Qle_condition. lra.
    + apply Qlt_bool_false in E2. destruct (Z.even f).
      * apply Qabs_Qle_condition. lra.
      * rewrite inject_Z_plus. change (inject_Z 1) with 1.
        apply Qabs_Qle_condition. lra.
Qed.

(** [round(x, 1)] moves a number by at most 0.05. *)
Lemma round1_error (x : Q) : Qabs (Py.round1 x - x) <= 1#20.
Proof.
  unfold Py.round1. pose proof (round_half_even_error (x * 10)) as H.
  set (r := Py.round_half_even (x * 10)) in *.
  apply Qabs_Qle_condition in H. apply Qabs_Qle_condition.
  assert (E : r # 10 == inject_Z r * (1#10)).
  { unfold Qeq, Qmult, inject_Z. simpl. lia. }
  rewrite E. lra.
Qed.

(** X12. Each nutrient entry of a scaled row is a number within 0.05
    of the reference amount times [grams/100]; the dict has an entry
    for each of the eleven nutrient keys. *)
Theorem scale_row_rounding (result : Nutrition.FoodRow) (portion_grams : Q) :
  Spec.columns.*1 = Nutrition.TOTAL_KEYS /\
  Forall (fun kc : string * (Nutrition.FoodRow -> Q) =>
            exists v,
              Nutrition.scale_row result portion_grams !! kc.1
                = Some (Nutrition.VNum v) /\
              Qabs (v - kc.2 result * (portion_grams / 100)) <= 1#20)
         Spec.columns.
Proof.
  split; [reflexivity |]. unfold Spec.columns, Nutrition.scale_row.
  repeat (apply Forall_cons; split;
          [eexists; split;
           [cbn [fst]; repeat (rewrite lookup_insert_ne by discriminate);
            rewrite lookup_insert_eq; reflexivity
           | cbn [snd]; apply round1_error] |]).
  apply Forall_nil_2.
Qed.

Lemma add_key_same (n n' : gmap string Nutrition.PyVal) (total : gmap string Q)
    (key : string) :
  n !! key = n' !! key ->
  Nutrition.add_key n total key = Nutrition.add_key n' total key.
Proof. intros E. unfold Nutrition.add_key. rewrite E. reflexivity. Qed.

Lemma add_keys_same (n n' : gmap string Nutrition.PyVal) (ks : list string) :
  (forall key, key ∈ ks -> n !! key = n' !! key) ->
  forall acc : Py.Result (gmap string Q),
    foldl (fun acc key => total ← acc; Nutrition.add_key n total key) acc ks =
    foldl (fun acc key => total ← acc; Nutrition.add_key n' total key) acc ks.
Proof.
  induction ks as [| k ks IH]; intros Hsame acc; [reflexivity |].
  cbn [foldl].
  replace (total ← acc; Nutrition.add_key n total k)
    with (total ← acc; Nutrition.add_key n' total k).
  - apply IH. intros key Hkey. apply Hsame. by right.
  - destruct acc as [total | e]; [| reflexivity].
    symmetry. apply add_key_same, Hsame. left.
Qed.

(** X13. Only the entries under the eleven nutrient keys count: two
    item lists that agree on them, item by item, give the same outcome,
    whatever other entries (name, portion, ...) the items hold. *)
Theorem calculate_total_nutrition_same_nutrients
    (items items' : list Nutrition.FoodItem) :
  Forall2 Spec.same_nutrients items items' ->
  Nutrition.calculate_total_nutrition items =
  Nutrition.calculate_total_nutrition items'.
Proof.
  intros Hsame. unfold Nutrition.calculate_total_nutrition. f_equal.
  generalize (Py.Return Nutrition.total_init).
  induction Hsame as [| a b items items' Hab _ IH]; intros acc; [reflexivity |].
  cbn [foldl].
  replace (total ← acc; Nutrition.add_item total a)
    with (total ← acc; Nutrition.add_item total b); [apply IH |].
  destruct acc as [total | e]; [| reflexivity].
  change (Nutrition.add_item total b = Nutrition.add_item total a).
  unfold Nutrition.add_item, Spec.same_nutrients in *.
  destruct (Nutrition.nutrition a) as [n |], (Nutrition.nutrition b) as [n' |];
    try contradiction; [| reflexivity].
  symmetry. apply add_keys_same, Hab.
Qed.

Lemma calculate_total_nutrition_same_nutrients_witness :
  Forall2 Spec.same_nutrients
    [Sample.item_a_tagged]
    [Nutrition.mkFoodItem (Some (Nutrition.scale_row Sample.row_a 100))] /\
  Nutrition.calculate_total_nutrition [Sample.item_a_tagged] =
  Nutrition.calculate_total_nutrition
    [Nutrition.mkFoodItem (Some (Nutrition.scale_row Sample.row_a 100))].
Proof.
  assert (H : Forall2 Spec.same_nutrients
                [Sample.item_a_tagged]
                [Nutrition.mkFoodItem
                   (Some (Nutrition.scale_row Sample.row_a 100))]).
  { constructor; [| constructor].
    unfold Spec.same_nutrients, Sample.item_a_tagged. cbn [Nutrition.nutrition].
    intros key Hkey. apply lookup_insert_ne. intros <-.
    unfold Nutrition.TOTAL_KEYS in Hkey.
    repeat (apply elem_of_cons in Hkey as [Hkey | Hkey]; [discriminate Hkey |]).
    by apply elem_of_nil in Hkey. }
  split; [exact H |].
  apply (calculate_total_nutrition_same_nutrients _ _ H).
Defined.

Lemma add_keys_raised (nut : gmap string Nutrition.PyVal) (ks : list string)
    (e : Py.Exn) :
  foldl (fun acc key => total ← acc; Nutrition.add_key nut total key)
        (Py.Raise e) ks = Py.Raise e.
Proof. induction ks as [| k ks IH]; [reflexivity | exact IH]. Qed.

Lemma add_items_raised (items : list Nutrition.FoodItem) (e : Py.Exn) :
  foldl (fun acc item => total ← acc; Nutrition.add_item total item)
        (Py.Raise e) items = Py.Raise e.
Proof. induction items as [| i items IH]; [reflexivity | exact IH]. Qed.

Lemma add_key_running (nut : gmap string Nutrition.PyVal)
    (total : gmap string Q) (key : string) :
  key ∈ Nutrition.TOTAL_KEYS ->
  (forall k, k ∈ Nutrition.TOTAL_KEYS -> is_Some (total !! k)) ->
  Spec.running_total (Nutrition.add_key nut total key) /\
  (forall s, nut !! key = Some (Nutrition.VStr s) ->
     Nutrition.add_key nut total key = Py.Raise Py.TypeError).
Proof.
  intros Hkey Hsome. destruct (Hsome key Hkey) as [t Ht].
  unfold Nutrition.add_key. rewrite Ht. split.
  - destruct (default (Nutrition.VNum 0) (nut !! key)); [by left |].
    right. eexists. split; [reflexivity |].
    intros k Hk. rewrite lookup_insert_is_Some'. right. by apply Hsome.
  - intros s ->. reflexivity.
Qed.

Lemma add_keys_running (nut : gmap string Nutrition.PyVal) (ks : list string) :
  (forall k, k ∈ ks -> k ∈ Nutrition.TOTAL_KEYS) ->
  forall acc,
    Spec.running_total acc ->
    Spec.running_total
      (foldl (fun acc key => total ← acc; Nutrition.add_key nut total key)
             acc ks) /\
    ((exists k s, k ∈ ks /\ nut !! k = Some (Nutrition.VStr s)) ->
     foldl (fun acc key => total ← acc; Nutrition.add_key nut total key)
           acc ks = Py.Raise Py.TypeError).
Proof.
  induction ks as [| k0 ks IH]; intros Hsub acc Hacc.
  - split; [exact Hacc |]. intros (k & s & Hk & _). by apply elem_of_nil in Hk.
  - cbn [foldl]. destruct Hacc as [-> | (total & -> & Hsome)].
    + change (total ← Py.Raise Py.TypeError; Nutrition.add_key nut total k0)
        with (@Py.Raise (gmap string Q) Py.TypeError).
      rewrite add_keys_raised. split; [by left | reflexivity].
    + change (total0 ← Py.Return total; Nutrition.add_key nut total0 k0)
        with (Nutrition.add_key nut total k0).
      destruct (add_key_running nut total k0 (Hsub k0 ltac:(left)) Hsome)
        as [Hrun Htext].
      destruct (IH (fun k Hk => Hsub k ltac:(by right)) _ Hrun) as [IH1 IH2].
      split; [exact IH1 |].
      intros (k & s & Hk & Hs). apply elem_of_cons in Hk as [-> | Hk].
      * rewrite (Htext s Hs). apply add_keys_raised.
      * apply IH2. eauto.
Qed.

Lemma add_item_running (item : Nutrition.FoodItem) (acc : Py.Result (gmap string Q)) :
  Spec.running_total acc ->
  Spec.running_total (total ← acc; Nutrition.add_item total item) /\
  (forall nut key s,
     Nutrition.nutrition item = Some nut -> key ∈ Nutrition.TOTAL_KEYS ->
     nut !! key = Some (Nutrition.VStr s) ->
     (total ← acc; Nutrition.add_item total item) = Py.Raise Py.TypeError).
Proof.
  intros Hacc. destruct Hacc as [-> | (total & -> & Hsome)].
  - split; [by left |]. intros. reflexivity.
  - change (total0 ← Py.Return total; Nutrition.add_item total0 item)
      with (Nutrition.add_item total item).
    unfold Nutrition.add_item.
    destruct (Nutrition.nutrition item) as [nut |].
    + destruct (add_keys_running nut Nutrition.TOTAL_KEYS (fun k Hk => Hk)
                  (Py.Return total)) as [H1 H2].
      { right. eauto. }
      split; [exact H1 |]. intros nut' key s [= <-] Hkey Hs. apply H2. eauto.
    + split; [right; eauto |]. intros nut key s Hnut. discriminate Hnut.
Qed.

(** X14. A nutrient entry that is text makes the call raise
    [TypeError]: this holds for every list that contains such an item,
    wherever it stands. *)
Theorem calculate_total_nutrition_text_entry
    (food_items : list Nutrition.FoodItem) (item : Nutrition.FoodItem)
    (nut : gmap string Nutrition.PyVal) (key s : string) :
  item ∈ food_items ->
  Nutrition.nutrition item = Some nut ->
  key ∈ Nutrition.TOTAL_KEYS ->
  nut !! key = Some (Nutrition.VStr s) ->
  Nutrition.calculate_total_nutrition food_items = Py.Raise Py.TypeError.
Proof.
  intros Hin Hnut Hkey Hs. unfold Nutrition.calculate_total_nutrition.
  assert (Hfold :
    foldl (fun acc item => total ← acc; Nutrition.add_item total item)
          (Py.Return Nutrition.total_init) food_items = Py.Raise Py.TypeError).
  { assert (Hinit : Spec.running_total (Py.Return Nutrition.total_init)).
    { right. eexists. split; [reflexivity |]. intros k Hk.
      rewrite total_init_lookup, decide_True by exact Hk. eauto. }
    revert Hinit. generalize (Py.Return Nutrition.total_init).
    induction food_items as [| i items IH]; intros acc Hacc;
      [by apply elem_of_nil in Hin |].
    cbn [foldl]. destruct (add_item_running i acc Hacc) as [Hrun Htext].
    apply elem_of_cons in Hin as [<- | Hin].
    - rewrite (Htext nut key s Hnut Hkey Hs). apply add_items_raised.
    - apply (IH Hin _ Hrun). }
  rewrite Hfold. reflexivity.
Qed.

Lemma calculate_total_nutrition_text_entry_witness :
  Sample.item_text ∈ Sample.items_ab ++ [Sample.item_text] /\
  Nutrition.calculate_total_nutrition (Sample.items_ab ++ [Sample.item_text])
    = Py.Raise Py.TypeError.
Proof.
  assert (Hin : Sample.item_text ∈ Sample.items_ab ++ [Sample.item_text]).
  { apply elem_of_app. right. left. }
  split; [exact Hin |].
  apply (calculate_total_nutrition_text_entry _ Sample.item_text
           {[ "calories"%string := Nutrition.VStr "n/a" ]}
           "calories" "n/a" Hin eq_refl).
  - unfold Nutrition.TOTAL_KEYS. left.
  - apply lookup_singleton_eq.
Defined.

Lemma elementwise_sum_app (a b : list Nutrition.FoodItem) (key : string) :
  Spec.elementwise_sum (a ++ b) key ==
  Spec.elementwise_sum a key + Spec.elementwise_sum b key.
Proof.
  unfold Spec.elementwise_sum. induction a as [| x a IH]; simpl.
  - ring.
  - rewrite IH. ring.
Qed.

(** X15. Totals add up: for items with one-decimal entries, the total
    of two lists put together is, nutrient by nutrient, the sum of the
    totals of the two lists. *)
Theorem calculate_total_nutrition_app (a b : list Nutrition.FoodItem) :
  Forall Spec.one_decimal_item a ->
  Forall Spec.one_decimal_item b ->
  exists ta tb tab,
    Nutrition.calculate_total_nutrition a = Py.Return ta /\
    Nutrition.calculate_total_nutrition b = Py.Return tb /\
    Nutrition.calculate_total_nutrition (a ++ b) = Py.Return tab /\
    forall key, key ∈ Nutrition.TOTAL_KEYS ->
      exists va vb vab,
        ta !! key = Some va /\ tb !! key = Some vb /\
        tab !! key = Some vab /\ vab == va + vb.
Proof.
  intros Ha Hb.
  assert (Hab : Forall Spec.one_decimal_item (a ++ b)) by (by apply Forall_app).
  assert (Hnum : forall l, Forall Spec.one_decimal_item l ->
                           Forall Spec.numeric_item l).
  { intros l Hl. eapply Forall_impl; [exact Hl |]. apply one_decimal_numeric. }
  destruct (calculate_total_nutrition_lookup a (Hnum _ Ha)) as (ta & Ea & Ia & _).
  destruct (calculate_total_nutrition_lookup b (Hnum _ Hb)) as (tb & Eb & Ib & _).
  destruct (calculate_total_nutrition_lookup (a ++ b) (Hnum _ Hab))
    as (tab & Eab & Iab & _).
  exists ta, tb, tab. split_and!; try assumption.
  intros key Hkey.
  destruct (Ia key Hkey) as (xa & Hxa & Exa).
  destruct (Ib key Hkey) as (xb & Hxb & Exb).
  destruct (Iab key Hkey) as (xab & Hxab & Exab).
  destruct (elementwise_sum_tenth a key Hkey Ha) as [na Hna].
  destruct (elementwise_sum_tenth b key Hkey Hb) as [nb Hnb].
  destruct (elementwise_sum_tenth (a ++ b) key Hkey Hab) as [nab Hnab].
  eexists. eexists. eexists. split_and!; try eassumption.
  rewrite (round1_tenth xa na), (round1_tenth xb nb), (round1_tenth xab nab)
    by (rewrite ?Exa, ?Exb, ?Exab; assumption).
  rewrite Exa, Exb, Exab. apply elementwise_sum_app.
Qed.

Lemma calculate_total_nutrition_app_witness :
  Forall Spec.one_decimal_item Sample.items_ab /\
  exists ta tb tab,
    Nutrition.calculate_total_nutrition Sample.items_ab = Py.Return ta /\
    Nutrition.calculate_total_nutrition Sample.items_ab = Py.Return tb /\
    Nutrition.calculate_total_nutrition (Sample.items_ab ++ Sample.items_ab)
      = Py.Return tab /\
    forall key, key ∈ Nutrition.TOTAL_KEYS ->
      exists va vb vab,
        ta !! key = Some va /\ tb !! key = Some vb /\
        tab !! key = Some vab /\ vab == va + vb.
Proof.
  assert (Hdec : Forall Spec.one_decimal_item Sample.items_ab).
  { unfold Sample.items_ab.
    constructor; [apply scale_row_one_decimal |].
    constructor; [apply scale_row_one_decimal | constructor]. }
  split; [exact Hdec |].
  apply (calculate_total_nutrition_app Sample.items_ab Sample.items_ab
           Hdec Hdec).
Defined.

(** ** Recipe matching, continued *)

Lemma score_by_emotion_bounds (recipe : Recipe.Recipe) (emotion_type : string) :
  1#2 <= Recipe._score_by_emotion recipe emotion_type /\
  Recipe._score_by_emotion recipe emotion_type <= 1.
Proof.
  unfold Recipe._score_by_emotion.
  destruct (Recipe.emotion_preferences !! emotion_type)
    as [[[target_min target_max] pref] |].
  - set (time_score :=
           Qmax 0 (1 - Qabs (inject_Z (default 15%Z (Recipe.cooking_time recipe))
                             - inject_Z (target_min + target_max) / 2) / 30)).
    assert (Ht : 0 <= time_score).
    { unfold time_score.
      match goal with |- 0 <= Qmax 0 ?x =>
        destruct (Qmax_cases 0 x) as [[? E] | [? E]]; rewrite E; lra end. }
    split.
    + destruct (decide (Recipe.difficulty recipe = Some pref));
      match goal with |- _ <= Qmin 1 ?x =>
        destruct (Qmin_cases 1 x) as [[? E] | [? E]]; rewrite E; lra end.
    + destruct (decide (Recipe.difficulty recipe = Some pref));
      match goal with |- Qmin 1 ?x <= _ =>
        destruct (Qmin_cases 1 x) as [[? E] | [? E]]; rewrite E; lra end.
  - split; unfold Qle; simpl; lia.
Qed.

(** X16. The emotion fit of a recipe lies between 0.5 and 1, and it is
    exactly 0.5 for an emotion that the preference table does not
    list. *)
Theorem score_by_emotion_range (recipe : Recipe.Recipe) (emotion_type : string) :
  1#2 <= Recipe._score_by_emotion recipe emotion_type /\
  Recipe._score_by_emotion recipe emotion_type <= 1 /\
  (Recipe.emotion_preferences !! emotion_type = None ->
   Recipe._score_by_emotion recipe emotion_type = 1#2).
Proof.
  destruct (score_by_emotion_bounds recipe emotion_type) as [Hlo Hhi].
  split; [exact Hlo |]. split; [exact Hhi |].
  intros Hnone. unfold Recipe._score_by_emotion. rewrite Hnone. reflexivity.
Qed.

Lemma Qnat_le (n m : nat) : (n <= m)%nat -> Recipe.Qnat n <= Recipe.Qnat m.
Proof. intros H. unfold Recipe.Qnat. rewrite <- Zle_Qle. lia. Qed.

Lemma Qnat_nonneg (n : nat) : 0 <= Recipe.Qnat n.
Proof.
  unfold Recipe.Qnat. change 0 with (inject_Z 0). rewrite <- Zle_Qle. lia.
Qed.

Lemma match_ratio_range (available required : list string) :
  size (Recipe.lower_set required) <> 0%nat ->
  0 <= Spec.match_ratio available required <= 1.
Proof.
  intros Hnz. unfold Spec.match_ratio.
  pose proof (Qnat_pos _ Hnz) as Hpos.
  pose proof (Qnat_nonneg
                (size (Recipe.lower_set available ∩ Recipe.lower_set required))).
  assert (Hle : Recipe.Qnat
                  (size (Recipe.lower_set available ∩ Recipe.lower_set required))
                <= Recipe.Qnat (size (Recipe.lower_set required))).
  { apply Qnat_le, subseteq_size, intersection_subseteq_r. }
  split.
  - apply Qle_shift_div_l; [exact Hpos | lra].
  - apply Qle_shift_div_r; [exact Hpos | lra].
Qed.

(** X17. The ingredient match lies between 0 and 1; it is 0 for a
    recipe without ingredients, and otherwise the share of the
    required ingredients, in lower case, that are available. *)
Theorem calculate_ingredient_match_range (available required : list string) :
  0 <= Recipe._calculate_ingredient_match available required <= 1 /\
  (required = [] ->
   Recipe._calculate_ingredient_match available required = 0) /\
  (required <> [] ->
   Recipe._calculate_ingredient_match available required =
   Spec.match_ratio available required).
Proof.
  split_and!.
  - unfold Recipe._calculate_ingredient_match.
    destruct (Nat.eqb_spec (size (Recipe.lower_set required)) 0) as [_ | Hnz].
    + unfold Qle. simpl. lia.
    + apply (match_ratio_range available required Hnz).
  - unfold Recipe._calculate_ingredient_match.
    destruct (Nat.eqb_spec (size (Recipe.lower_set required)) 0) as [_ | Hnz].
    + unfold Qle. simpl. lia.
    + apply (match_ratio_range available required Hnz).
  - intros ->. reflexivity.
  - intros Hne. apply calculate_ingredient_match_ratio.
    apply lower_set_size_pos, Hne.
Qed.

Lemma shopping_list_elem (available : list string) (recipe : Recipe.Recipe)
    (x : string) :
  x ∈ Recipe.generate_shopping_list available recipe <->
  x ∈ Recipe.lower_set (Recipe.ingredients recipe) /\
  x ∉ Recipe.lower_set available.
Proof.
  unfold Recipe.generate_shopping_list.
  rewrite elem_of_elements, elem_of_difference. reflexivity.
Qed.

(** X18. The shopping list has no duplicates; it holds exactly the
    required ingredients, in lower case, that are not available; and
    its length plus the number of matched ingredients is the number of
    required ingredients. *)
Theorem generate_shopping_list_missing (available : list string)
    (recipe : Recipe.Recipe) :
  NoDup (Recipe.generate_shopping_list available recipe) /\
  (forall x,
     x ∈ Recipe.generate_shopping_list available recipe <->
     x ∈ Recipe.lower_set (Recipe.ingredients recipe) /\
     x ∉ Recipe.lower_set available) /\
  (length (Recipe.generate_shopping_list available recipe)
   + size (Recipe.lower_set available
           ∩ Recipe.lower_set (Recipe.ingredients recipe))
   = size (Recipe.lower_set (Recipe.ingredients recipe)))%nat.
Proof.
  split_and!.
  - apply NoDup_elements.
  - apply shopping_list_elem.
  - unfold Recipe.generate_shopping_list.
    set (A := Recipe.lower_set available).
    set (R := Recipe.lower_set (Recipe.ingredients recipe)).
    change (length (elements (R ∖ A))) with (size (R ∖ A)).
    rewrite <- size_union.
    + f_equal. apply set_eq. intros x.
      rewrite elem_of_union, elem_of_difference, elem_of_intersection.
      destruct (decide (x ∈ A)); tauto.
    + apply elem_of_disjoint. intros x.
      rewrite elem_of_difference, elem_of_intersection. tauto.
Qed.

(** X19. For a recipe that lists ingredients, the shopping list is
    empty exactly when the ingredient match is 1. *)
Theorem generate_shopping_list_empty (available : list string)
    (recipe : Recipe.Recipe) :
  Recipe.ingredients recipe <> [] ->
  Recipe.generate_shopping_list available recipe = [] <->
  Recipe._calculate_ingredient_match available (Recipe.ingredients recipe) == 1.
Proof.
  intros Hne.
  pose proof (lower_set_size_pos _ Hne) as Hnz.
  rewrite (calculate_ingredient_match_ratio _ _ Hnz).
  set (A := Recipe.lower_set available) in *.
  set (R := Recipe.lower_set (Recipe.ingredients recipe)) in *.
  assert (Hsub : Recipe.generate_shopping_list available recipe = [] <-> R ⊆ A).
  { unfold Recipe.generate_shopping_list. fold A R.
    rewrite elements_empty_iff, elem_of_subseteq. split.
    - intros He x Hx. destruct (decide (x ∈ A)) as [Hin | Hnin]; [exact Hin |].
      exfalso. apply (not_elem_of_empty (C := gset string) x).
      rewrite <- He. apply elem_of_difference. tauto.
    - intros Hs. apply set_equiv. intros x.
      rewrite elem_of_difference. split; [| intros Hx; by apply not_elem_of_empty in Hx].
      intros [Hx Hn]. exfalso. apply Hn, Hs, Hx. }
  rewrite Hsub. split.
  - intros Hs. apply match_ratio_all_available; assumption.
  - intros Hone. unfold Spec.match_ratio in Hone. fold A R in Hone.
    pose proof (Qnat_pos _ Hnz) as Hpos. fold R in Hpos.
    assert (Heq : Recipe.Qnat (size (A ∩ R)) == Recipe.Qnat (size R)).
    { rewrite <- (Qmult_div_r (Recipe.Qnat (size (A ∩ R))) (Recipe.Qnat (size R)))
        by lra.
      rewrite Hone. ring. }
    assert (Hsz : (size R <= size (A ∩ R))%nat).
    { unfold Recipe.Qnat, Qeq in Heq. simpl in Heq. lia. }
    pose proof (set_subseteq_size_eq (A ∩ R) R
                  (intersection_subseteq_r A R) Hsz) as HAR.
    apply elem_of_subseteq. intros x Hx. rewrite <- HAR in Hx.
    apply elem_of_intersection in Hx. tauto.
Qed.

Lemma generate_shopping_list_empty_witness :
  Recipe.ingredients
    (Recipe.mkRecipe "1" "Simple Pasta"
       ["pasta"; "tomato"; "garlic"; "olive oil"]%string
       (Some 15%Z) (Some "easy"%string) ["stress"; "fatigue"]%string) <> [] /\
  Recipe.generate_shopping_list Sample.fridge
    (Recipe.mkRecipe "1" "Simple Pasta"
       ["pasta"; "tomato"; "garlic"; "olive oil"]%string
       (Some 15%Z) (Some "easy"%string) ["stress"; "fatigue"]%string) = [].
Proof.
  split; [discriminate |].
  apply generate_shopping_list_empty; [discriminate |].
  vm_compute. reflexivity.
Defined.

Lemma search_recipes_fields (ingredients : list string)
    (recipes : list Recipe.Recipe) :
  forall candidates,
    Recipe._search_recipes recipes ingredients = Py.Return candidates ->
    Forall (fun f =>
              Recipe.available_ingredients f =
                size (Recipe.lower_set ingredients
                      ∩ Recipe.lower_set
                          (Recipe.ingredients (Recipe.found_recipe f))) /\
              Recipe.total_ingredients f =
                size (Recipe.lower_set
                        (Recipe.ingredients (Recipe.found_recipe f))))
           candidates.
Proof.
  induction recipes as [| recipe recipes IH]; intros candidates Hret.
  - injection Hret as <-. constructor.
  - cbn [Recipe._search_recipes] in Hret.
    destruct (Nat.eqb (size (Recipe.lower_set (Recipe.ingredients recipe))) 0);
      [discriminate Hret |].
    destruct (Recipe._search_recipes recipes ingredients) as [rest | e];
      [| discriminate Hret].
    specialize (IH rest eq_refl).
    cbn [mbind result_bind Py.bind] in Hret.
    destruct (Qle_bool _ _) in Hret; injection Hret as <-; [| exact IH].
    constructor; [| exact IH]. split; reflexivity.
Qed.

(** X20. Every recipe that [match_recipes] returns carries consistent
    counts and scores: at least one ingredient is required, the number
    of available ones does not exceed it, the ingredient match is their
    quotient, the emotion score lies in [0.5, 1] and the ranking key
    (emotion score + ingredient match) / 2 lies in [0.6, 1]. *)
Theorem match_recipes_candidate_scores (recipes : list Recipe.Recipe)
    (ingredients : list string) (emotion_type : string) (top_k : Z)
    (result : list Recipe.Candidate) :
  Recipe.match_recipes recipes ingredients emotion_type top_k = Py.Return result ->
  Forall (fun c =>
            let f := Recipe.found c in
            (0 < Recipe.total_ingredients f)%nat /\
            (Recipe.available_ingredients f <= Recipe.total_ingredients f)%nat /\
            Recipe.ingredient_match c =
              Recipe.Qnat (Recipe.available_ingredients f)
              / Recipe.Qnat (Recipe.total_ingredients f) /\
            1#2 <= Recipe.emotion_score c /\ Recipe.emotion_score c <= 1 /\
            6#10 <= Recipe.final_score c /\ Recipe.final_score c <= 1)
         result.
Proof.
  intros Hret.
  destruct (match_recipes_Return _ _ _ _ _ Hret)
    as (candidates & n & Hc & -> & _).
  pose proof (search_recipes_Return ingredients recipes candidates Hc) as H1.
  pose proof (search_recipes_fields ingredients recipes candidates Hc) as H2.
  apply Forall_take. rewrite sort_reverse_perm. apply Forall_map.
  rewrite Forall_forall in H1, H2. apply Forall_forall. intros f Hf.
  destruct (H1 f Hf) as (_ & Hnz & Hratio). destruct (H2 f Hf) as [Ha Ht].
  cbv zeta. unfold Recipe.final_score.
  cbn [Recipe.found Recipe.ingredient_match Recipe.emotion_score].
  rewrite (calculate_ingredient_match_ratio _ _ Hnz).
  pose proof (match_ratio_range ingredients _ Hnz) as [_ Hm1].
  destruct (score_by_emotion_bounds (Recipe.found_recipe f) emotion_type)
    as [He0 He1].
  rewrite Ha, Ht. split_and!; try assumption.
  - lia.
  - apply subseteq_size, intersection_subseteq_r.
  - reflexivity.
  - apply Qle_shift_div_l; lra.
  - apply Qle_shift_div_r; lra.
Qed.

Lemma match_recipes_candidate_scores_witness :
  exists result,
    Recipe.match_recipes Recipe._load_recipes Sample.fridge "stress" 5
      = Py.Return result /\
    Forall (fun c => 6#10 <= Recipe.final_score c /\ Recipe.final_score c <= 1)
           result.
Proof.
  destruct (search_recipes_total Sample.fridge Recipe._load_recipes)
    as [candidates Hc].
  { unfold Recipe._load_recipes. constructor; [discriminate | constructor]. }
  eexists. split.
  - unfold Recipe.match_recipes. rewrite Hc. reflexivity.
  - eapply Forall_impl.
    + apply (match_recipes_candidate_scores Recipe._load_recipes Sample.fridge
               "stress" 5).
      unfold Recipe.match_recipes. rewrite Hc. reflexivity.
    + intros c (_ & _ & _ & _ & _ & H6 & H1). split; assumption.
Defined.

(** X21. With nothing available, no recipe qualifies: for a catalogue
    whose recipes all list ingredients, [match_recipes] returns the
    empty list. *)
Theorem match_recipes_no_ingredients (recipes : list Recipe.Recipe)
    (emotion_type : string) (top_k : Z) :
  Forall (fun r => Recipe.ingredients r <> []) recipes ->
  Recipe.match_recipes recipes [] emotion_type top_k = Py.Return [].
Proof.
  intros Hne.
  assert (Hs : Recipe._search_recipes recipes [] = Py.Return []).
  { induction Hne as [| recipe recipes Hr _ IH]; [reflexivity |].
    cbn [Recipe._search_recipes].
    destruct (Nat.eqb_spec
                (size (Recipe.lower_set (Recipe.ingredients recipe))) 0)
      as [Hz | Hnz]; [by apply lower_set_size_pos in Hz |].
    rewrite IH. cbn [mbind result_bind Py.bind].
    replace (Recipe.lower_set [] ∩ Recipe.lower_set (Recipe.ingredients recipe))
      with (∅ : gset string).
    2: { unfold Recipe.lower_set at 1. cbn [map list_to_set].
         symmetry. apply intersection_empty_l_L. }
    rewrite size_empty.
    destruct (Qle_bool (7#10) _) eqn:Hle; [| reflexivity].
    apply Qle_bool_iff in Hle. exfalso.
    pose proof (Qnat_pos _ Hnz) as Hpos.
    assert (E : Recipe.Qnat 0
                / Recipe.Qnat (size (Recipe.lower_set (Recipe.ingredients recipe)))
                == 0) by (unfold Recipe.Qnat at 1; field; lra).
    rewrite E in Hle. apply (Qle_not_lt _ _ Hle). reflexivity. }
  unfold Recipe.match_recipes. rewrite Hs. cbn [mbind result_bind Py.bind map].
  cbn [Py.sort_reverse foldr]. unfold Py.slice_to.
  destruct (0 <=? top_k)%Z; f_equal; apply firstn_nil.
Qed.

Lemma match_recipes_no_ingredients_witness :
  Forall (fun r => Recipe.ingredients r <> []) Recipe._load_recipes /\
  Recipe.match_recipes Recipe._load_recipes [] "calmness" 10 = Py.Return [].
Proof.
  assert (Hne : Forall (fun r => Recipe.ingredients r <> []) Recipe._load_recipes).
  { unfold Recipe._load_recipes. constructor; [discriminate | constructor]. }
  split; [exact Hne |].
  apply (match_recipes_no_ingredients Recipe._load_recipes "calmness" 10 Hne).
Defined.

(** ** The usage ledger, continued *)

(** The usage query, computed. *)
Lemma check_daily_usage_eq (today : Z) (user_id usage_type : string)
    (db : Usage.Db) :
  usage_type ∈ Usage.ALLOWED_USAGE_TYPES ->
  Usage.available db = true ->
  Usage.check_daily_usage today user_id usage_type db =
  (Py.Return
     match Usage.daily_usage db !! (user_id, today) with
     | None => 0%Z
     | Some row => default 0%Z (Usage.counters row !! usage_type)
     end,
   Usage.mkDb (Usage.daily_usage db) true
     (Usage.statements db ++ [Usage.SelectUsage usage_type user_id today])).
Proof.
  intros Hallowed Havail. unfold Usage.check_daily_usage, Usage.execute_one.
  rewrite decide_True by exact Hallowed. cbn [Usage.available Usage.daily_usage].
  rewrite Havail. cbn [negb].
  rewrite decide_True by (apply allowed_is_column, Hallowed).
  destruct (Usage.daily_usage db !! (user_id, today)) as [row |];
    [| reflexivity].
  rewrite lookup_singleton_eq. reflexivity.
Qed.

Lemma default_counters_allowed (usage_type : string) :
  usage_type ∈ Usage.ALLOWED_USAGE_TYPES ->
  Usage.default_counters !! usage_type = Some 0%Z.
Proof.
  unfold Usage.ALLOWED_USAGE_TYPES.
  rewrite !elem_of_union, !elem_of_singleton.
  intros [[-> | ->] | ->]; reflexivity.
Qed.

(** X22. A usage type outside the whitelist is refused with
    [ValueError] by both operations before anything is sent to the
    store: the store, with its statement log, is as it was. *)
Theorem usage_type_whitelist (today : Z) (new_id user_id usage_type : string)
    (db : Usage.Db) :
  usage_type ∉ Usage.ALLOWED_USAGE_TYPES ->
  Usage.check_daily_usage today user_id usage_type db
    = (Py.Raise Py.ValueError, db) /\
  Usage.increment_daily_usage today new_id user_id usage_type db
    = (Py.Raise Py.ValueError, db).
Proof.
  intros Hno. unfold Usage.check_daily_usage, Usage.increment_daily_usage.
  rewrite !decide_False by exact Hno. split; reflexivity.
Qed.

Lemma usage_type_whitelist_witness :
  ("food_analyses; DROP TABLE daily_usage"%string ∉ Usage.ALLOWED_USAGE_TYPES) /\
  Usage.increment_daily_usage 20000 "id-1" "u1"
    "food_analyses; DROP TABLE daily_usage" Sample.db_empty
    = (Py.Raise Py.ValueError, Sample.db_empty).
Proof.
  assert (Hno : "food_analyses; DROP TABLE daily_usage"%string
                ∉ Usage.ALLOWED_USAGE_TYPES).
  { unfold Usage.ALLOWED_USAGE_TYPES.
    rewrite !elem_of_union, !elem_of_singleton.
    intros [[H | H] | H]; discriminate H. }
  split; [exact Hno |].
  apply (usage_type_whitelist 20000 "id-1" "u1" _ Sample.db_empty Hno).
Defined.

(** X23. What [increment_daily_usage] returns is what the next
    [check_daily_usage] for the same user, type and day reports. *)
Theorem check_after_increment (today : Z) (new_id user_id usage_type : string)
    (db : Usage.Db) :
  usage_type ∈ Usage.ALLOWED_USAGE_TYPES ->
  Usage.available db = true ->
  exists count,
    (Usage.increment_daily_usage today new_id user_id usage_type db).1
      = Py.Return count /\
    (Usage.check_daily_usage today user_id usage_type
       (Usage.increment_daily_usage today new_id user_id usage_type db).2).1
      = Py.Return count.
Proof.
  intros Hallowed Havail.
  rewrite (increment_daily_usage_eq _ _ _ _ _ Hallowed Havail). cbv zeta.
  cbn [fst snd]. eexists. split; [reflexivity |].
  rewrite check_daily_usage_eq by (try exact Hallowed; reflexivity).
  cbn [fst Usage.daily_usage]. rewrite lookup_insert_eq.
  destruct (Usage.daily_usage db !! (user_id, today)) as [row |];
    cbn [Usage.counters]; rewrite lookup_insert_eq; reflexivity.
Qed.

Lemma check_after_increment_witness :
  "food_analyses"%string ∈ Usage.ALLOWED_USAGE_TYPES /\
  Usage.available Sample.db_used_up = true /\
  exists count,
    (Usage.increment_daily_usage 20000 "id-9" "u1" "food_analyses"
       Sample.db_used_up).1 = Py.Return count /\
    (Usage.check_daily_usage 20000 "u1" "food_analyses"
       (Usage.increment_daily_usage 20000 "id-9" "u1" "food_analyses"
          Sample.db_used_up).2).1 = Py.Return count.
Proof.
  assert (Hallowed : "food_analyses"%string ∈ Usage.ALLOWED_USAGE_TYPES).
  { unfold Usage.ALLOWED_USAGE_TYPES.
    rewrite !elem_of_union, !elem_of_singleton. tauto. }
  split; [exact Hallowed |]. split; [reflexivity |].
  apply (check_after_increment 20000 "id-9" "u1" "food_analyses"
           Sample.db_used_up Hallowed eq_refl).
Defined.

Lemma increments_state (n : nat) (today : Z) (user_id usage_type : string)
    (db : Usage.Db) :
  usage_type ∈ Usage.ALLOWED_USAGE_TYPES ->
  Usage.available db = true ->
  Usage.daily_usage db !! (user_id, today) = None ->
  Usage.available (Spec.increments n today user_id usage_type db) = true /\
  match n with
  | O => Usage.daily_usage (Spec.increments n today user_id usage_type db)
           !! (user_id, today) = None
  | S _ =>
      exists row,
        Usage.daily_usage (Spec.increments n today user_id usage_type db)
          !! (user_id, today) = Some row /\
        Usage.counters row !! usage_type = Some (Z.of_nat n)
  end.
Proof.
  intros Hallowed Havail Hnone. induction n as [| n [IHa IHc]].
  - split; assumption.
  - cbn [Spec.increments].
    rewrite (increment_daily_usage_eq _ _ _ _ _ Hallowed IHa). cbv zeta.
    cbn [snd Usage.available Usage.daily_usage]. split; [reflexivity |].
    rewrite lookup_insert_eq. eexists. split; [reflexivity |].
    destruct n as [| n].
    + rewrite IHc. cbn [Usage.counters]. apply lookup_insert_eq.
    + destruct IHc as (row & -> & Hrow). cbn [Usage.counters].
      rewrite lookup_insert_eq, Hrow. cbn [default]. f_equal. unfold id. lia.
Qed.

(** X24. No increment is lost: starting from a day on which the user
    has no row, [n] increments of one counter, one after the other,
    leave a store in which the check reports [n]. *)
Theorem increments_are_counted (n : nat) (today : Z) (user_id usage_type : string)
    (db : Usage.Db) :
  usage_type ∈ Usage.ALLOWED_USAGE_TYPES ->
  Usage.available db = true ->
  Usage.daily_usage db !! (user_id, today) = None ->
  (Usage.check_daily_usage today user_id usage_type
     (Spec.increments n today user_id usage_type db)).1
    = Py.Return (Z.of_nat n).
Proof.
  intros Hallowed Havail Hnone.
  destruct (increments_state n today user_id usage_type db Hallowed Havail Hnone)
    as [Ha Hc].
  rewrite (check_daily_usage_eq _ _ _ _ Hallowed Ha). cbn [fst].
  destruct n as [| n].
  - rewrite Hc. reflexivity.
  - destruct Hc as (row & -> & ->). reflexivity.
Qed.

Lemma increments_are_counted_witness :
  "wellness_checks"%string ∈ Usage.ALLOWED_USAGE_TYPES /\
  Usage.available Sample.db_empty = true /\
  (Usage.check_daily_usage 20000 "u1" "wellness_checks"
     (Spec.increments 4 20000 "u1" "wellness_checks" Sample.db_empty)).1
    = Py.Return 4%Z.
Proof.
  assert (Hallowed : "wellness_checks"%string ∈ Usage.ALLOWED_USAGE_TYPES).
  { unfold Usage.ALLOWED_USAGE_TYPES.
    rewrite !elem_of_union, !elem_of_singleton. tauto. }
  split; [exact Hallowed |]. split; [reflexivity |].
  apply (increments_are_counted 4 20000 "u1" "wellness_checks"
           Sample.db_empty Hallowed eq_refl eq_refl).
Defined.

(** X25. An increment changes one counter only: the check for any
    other user, day or usage type reports the same count after it as
    before. *)
Theorem increment_leaves_other_counters (today today' : Z)
    (new_id user_id user_id' usage_type usage_type' : string) (db : Usage.Db) :
  usage_type ∈ Usage.ALLOWED_USAGE_TYPES ->
  usage_type' ∈ Usage.ALLOWED_USAGE_TYPES ->
  Usage.available db = true ->
  user_id' <> user_id \/ today' <> today \/ usage_type' <> usage_type ->
  (Usage.check_daily_usage today' user_id' usage_type'
     (Usage.increment_daily_usage today new_id user_id usage_type db).2).1
  = (Usage.check_daily_usage today' user_id' usage_type' db).1.
Proof.
  intros Hallowed Hallowed' Havail Hother.
  rewrite (increment_daily_usage_eq _ _ _ _ _ Hallowed Havail). cbv zeta.
  cbn [snd].
  rewrite !check_daily_usage_eq by (try exact Hallowed'; try exact Havail;
                                    reflexivity).
  cbn [fst Usage.daily_usage]. f_equal.
  destruct (decide ((user_id, today) = (user_id', today'))) as [[= <- <-] | Hne].
  - destruct Hother as [H | [H | Hut]]; [congruence | congruence |].
    rewrite lookup_insert_eq.
    destruct (Usage.daily_usage db !! (user_id, today)) as [row |];
      cbn [Usage.counters].
    + rewrite lookup_insert_ne by congruence. reflexivity.
    + rewrite lookup_insert_ne by congruence.
      rewrite (default_counters_allowed _ Hallowed'). reflexivity.
  - rewrite lookup_insert_ne by exact Hne. reflexivity.
Qed.

Lemma increment_leaves_other_counters_witness :
  "food_analyses"%string ∈ Usage.ALLOWED_USAGE_TYPES /\
  "fridge_analyses"%string ∈ Usage.ALLOWED_USAGE_TYPES /\
  (Usage.check_daily_usage 20000 "u1" "food_analyses"
     (Usage.increment_daily_usage 20000 "id-9" "u1" "fridge_analyses"
        Sample.db_used_up).2).1
  = Py.Return 3%Z.
Proof.
  assert (H1 : "food_analyses"%string ∈ Usage.ALLOWED_USAGE_TYPES).
  { unfold Usage.ALLOWED_USAGE_TYPES.
    rewrite !elem_of_union, !elem_of_singleton. tauto. }
  assert (H2 : "fridge_analyses"%string ∈ Usage.ALLOWED_USAGE_TYPES).
  { unfold Usage.ALLOWED_USAGE_TYPES.
    rewrite !elem_of_union, !elem_of_singleton. tauto. }
  split; [exact H1 |]. split; [exact H2 |].
  rewrite (increment_leaves_other_counters 20000 20000 "id-9" "u1" "u1"
             "fridge_analyses" "food_analyses" Sample.db_used_up H2 H1 eq_refl).
  - reflexivity.
  - right. right. discriminate.
Defined.

(** ** The quota gate of the food pipeline *)

(** The usage query never changes the table. *)
Lemma check_daily_usage_table (today : Z) (user_id usage_type : string)
    (db : Usage.Db) :
  Usage.daily_usage (Usage.check_daily_usage today user_id usage_type db).2
  = Usage.daily_usage db.
Proof.
  unfold Usage.check_daily_usage, Usage.execute_one.
  destruct (decide (usage_type ∈ Usage.ALLOWED_USAGE_TYPES)); [| reflexivity].
  cbn [Usage.available Usage.daily_usage].
  destruct (Usage.available db); cbn [negb]; [| reflexivity].
  destruct (decide (usage_type ∈ dom Usage.default_counters)); [| reflexivity].
  destruct (Usage.daily_usage db !! (user_id, today)); [| reflexivity].
  destruct (_ !! usage_type); reflexivity.
Qed.

Section Quota.

Context {Response : Type} (cfg : Image.Settings).
Context (validate_image : list Byte.byte -> Py.Result unit).
Context (analyse_and_save :
           list Byte.byte -> string -> Usage.Db -> Py.Result Response * Usage.Db).

Let process :=
  Api.process_food_image Response cfg validate_image analyse_and_save.

(** X26. When the count of the day has reached the free-tier limit the
    call ends with HTTP 429: the analysis is not run, nothing is
    incremented and the table is as before. *)
Theorem process_food_image_limit_reached (today : Z) (new_id : string)
    (image_bytes : list Byte.byte) (user_id : string) (db db1 : Usage.Db)
    (usage_count : Z) :
  validate_image image_bytes = Py.Return tt ->
  Usage.check_daily_usage today user_id "food_analyses" db
    = (Py.Return usage_count, db1) ->
  (Image.FREE_TIER_DAILY_LIMIT cfg <= usage_count)%Z ->
  process today new_id image_bytes user_id db
    = (Py.Raise (Py.HTTPException 429), db1) /\
  Usage.daily_usage db1 = Usage.daily_usage db.
Proof.
  intros Hvalid Hcheck Hlimit. split.
  - unfold process, Api.process_food_image. rewrite Hvalid, Hcheck.
    destruct (Z.leb_spec (Image.FREE_TIER_DAILY_LIMIT cfg) usage_count);
      [reflexivity | lia].
  - pose proof (check_daily_usage_table today user_id "food_analyses" db) as H.
    rewrite Hcheck in H. exact H.
Qed.

(** X27. A failed analysis does not use up quota: below the limit, an
    exception of the analysis ends the call with that exception and the
    store as the analysis left it; no increment is sent. *)
Theorem process_food_image_analysis_fails (today : Z) (new_id : string)
    (image_bytes : list Byte.byte) (user_id : string) (db db1 db2 : Usage.Db)
    (usage_count : Z) (e : Py.Exn) :
  validate_image image_bytes = Py.Return tt ->
  Usage.check_daily_usage today user_id "food_analyses" db
    = (Py.Return usage_count, db1) ->
  (usage_count < Image.FREE_TIER_DAILY_LIMIT cfg)%Z ->
  analyse_and_save image_bytes user_id db1 = (Py.Raise e, db2) ->
  process today new_id image_bytes user_id db = (Py.Raise e, db2).
Proof.
  intros Hvalid Hcheck Hlimit Hfail.
  unfold process, Api.process_food_image. rewrite Hvalid, Hcheck.
  destruct (Z.leb_spec (Image.FREE_TIER_DAILY_LIMIT cfg) usage_count);
    [lia |].
  rewrite Hfail. reflexivity.
Qed.

(** X28. A successful analysis below the limit is counted once: the
    response is returned and the check afterwards reports one more
    than it did right after the analysis. *)
Theorem process_food_image_counts (today : Z) (new_id : string)
    (image_bytes : list Byte.byte) (user_id : string) (db db1 db2 : Usage.Db)
    (usage_count c : Z) (response : Response) :
  validate_image image_bytes = Py.Return tt ->
  Usage.check_daily_usage today user_id "food_analyses" db
    = (Py.Return usage_count, db1) ->
  (usage_count < Image.FREE_TIER_DAILY_LIMIT cfg)%Z ->
  analyse_and_save image_bytes user_id db1 = (Py.Return response, db2) ->
  Usage.available db2 = true ->
  (Usage.check_daily_usage today user_id "food_analyses" db2).1 = Py.Return c ->
  (process today new_id image_bytes user_id db).1 = Py.Return response /\
  (Usage.check_daily_usage today user_id "food_analyses"
     (process today new_id image_bytes user_id db).2).1 = Py.Return (c + 1)%Z.
Proof.
  intros Hvalid Hcheck Hlimit Hok Havail Hc.
  assert (Hallowed : "food_analyses"%string ∈ Usage.ALLOWED_USAGE_TYPES).
  { unfold Usage.ALLOWED_USAGE_TYPES.
    rewrite !elem_of_union, !elem_of_singleton. tauto. }
  unfold process, Api.process_food_image. rewrite Hvalid, Hcheck.
  destruct (Z.leb_spec (Image.FREE_TIER_DAILY_LIMIT cfg) usage_count);
    [lia |].
  rewrite Hok.
  rewrite (increment_daily_usage_eq _ _ _ _ _ Hallowed Havail). cbv zeta.
  cbn [fst snd]. split; [reflexivity |].
  rewrite (check_daily_usage_eq _ _ _ _ Hallowed Havail) in Hc.
  cbn [fst] in Hc. injection Hc as Hc.
  rewrite check_daily_usage_eq by (try exact Hallowed; reflexivity).
  cbn [fst Usage.daily_usage]. rewrite lookup_insert_eq.
  destruct (Usage.daily_usage db2 !! (user_id, today)) as [row |];
    cbn [Usage.counters]; rewrite lookup_insert_eq; cbn [default];
    rewrite <- Hc; reflexivity.
Qed.

(** X29. If the store fails when the usage is to be recorded, the call
    ends with [DatabaseError] although the analysis succeeded: the
    response is not returned. *)
Theorem process_food_image_tracking_fails (today : Z) (new_id : string)
    (image_bytes : list Byte.byte) (user_id : string) (db db1 db2 : Usage.Db)
    (usage_count : Z) (response : Response) :
  validate_image image_bytes = Py.Return tt ->
  Usage.check_daily_usage today user_id "food_analyses" db
    = (Py.Return usage_count, db1) ->
  (usage_count < Image.FREE_TIER_DAILY_LIMIT cfg)%Z ->
  analyse_and_save image_bytes user_id db1 = (Py.Return response, db2) ->
  Usage.available db2 = false ->
  (process today new_id image_bytes user_id db).1 = Py.Raise Py.DatabaseError /\
  Usage.daily_usage (process today new_id image_bytes user_id db).2
    = Usage.daily_usage db2.
Proof.
  intros Hvalid Hcheck Hlimit Hok Hdown.
  unfold process, Api.process_food_image. rewrite Hvalid, Hcheck.
  destruct (Z.leb_spec (Image.FREE_TIER_DAILY_LIMIT cfg) usage_count);
    [lia |].
  rewrite Hok. unfold Usage.increment_daily_usage.
  rewrite decide_True.
  2: { unfold Usage.ALLOWED_USAGE_TYPES.
       rewrite !elem_of_union, !elem_of_singleton. tauto. }
  rewrite (execute_one_down _ _ Hdown). split; reflexivity.
Qed.

End Quota.

Lemma food_analyses_allowed :
  "food_analyses"%string ∈ Usage.ALLOWED_USAGE_TYPES.
Proof.
  unfold Usage.ALLOWED_USAGE_TYPES.
  rewrite !elem_of_union, !elem_of_singleton. tauto.
Qed.

Lemma process_food_image_limit_reached_witness :
  exists db1,
    Usage.check_daily_usage 20000 "u1" "food_analyses" Sample.db_used_up
      = (Py.Return 3%Z, db1) /\
    (Image.FREE_TIER_DAILY_LIMIT Image.settings <= 3)%Z /\
    Api.process_food_image nat Image.settings Sample.validate_ok
      Sample.analysis_ok 20000 "id-9" [] "u1" Sample.db_used_up
      = (Py.Raise (Py.HTTPException 429), db1).
Proof.
  eexists.
  assert (Hcheck :
    Usage.check_daily_usage 20000 "u1" "food_analyses" Sample.db_used_up
    = (Py.Return 3%Z,
       Usage.mkDb (Usage.daily_usage Sample.db_used_up) true
         (Usage.statements Sample.db_used_up ++
          [Usage.SelectUsage "food_analyses" "u1" 20000]))).
  { rewrite (check_daily_usage_eq 20000 "u1" "food_analyses" Sample.db_used_up
               food_analyses_allowed eq_refl).
    reflexivity. }
  split; [exact Hcheck |]. split; [reflexivity |].
  apply (process_food_image_limit_reached Image.settings Sample.validate_ok
           Sample.analysis_ok 20000 "id-9" [] "u1" Sample.db_used_up _ 3
           eq_refl Hcheck).
  reflexivity.
Defined.

Lemma process_food_image_analysis_fails_witness :
  exists db1,
    Usage.check_daily_usage 20000 "u1" "food_analyses" Sample.db_empty
      = (Py.Return 0%Z, db1) /\
    (0 < Image.FREE_TIER_DAILY_LIMIT Image.settings)%Z /\
    Api.process_food_image nat Image.settings Sample.validate_ok
      Sample.analysis_fails 20000 "id-9" [] "u1" Sample.db_empty
      = (Py.Raise (Py.HTTPException 400), db1).
Proof.
  eexists.
  assert (Hcheck :
    Usage.check_daily_usage 20000 "u1" "food_analyses" Sample.db_empty
    = (Py.Return 0%Z,
       Usage.mkDb (Usage.daily_usage Sample.db_empty) true
         (Usage.statements Sample.db_empty ++
          [Usage.SelectUsage "food_analyses" "u1" 20000]))).
  { rewrite (check_daily_usage_eq 20000 "u1" "food_analyses" Sample.db_empty
               food_analyses_allowed eq_refl).
    reflexivity. }
  split; [exact Hcheck |]. split; [reflexivity |].
  apply (process_food_image_analysis_fails Image.settings Sample.validate_ok
           Sample.analysis_fails 20000 "id-9" [] "u1" Sample.db_empty
           (Usage.mkDb (Usage.daily_usage Sample.db_empty) true
             (Usage.statements Sample.db_empty ++
              [Usage.SelectUsage "food_analyses" "u1" 20000]))
           (Usage.mkDb (Usage.daily_usage Sample.db_empty) true
             (Usage.statements Sample.db_empty ++
              [Usage.SelectUsage "food_analyses" "u1" 20000]))
           0 (Py.HTTPException 400) eq_refl Hcheck).
  - reflexivity.
  - reflexivity.
Defined.

Lemma process_food_image_counts_witness :
  (0 < Image.FREE_TIER_DAILY_LIMIT Image.settings)%Z /\
  (Api.process_food_image nat Image.settings Sample.validate_ok
     Sample.analysis_ok 20000 "id-9" [] "u1" Sample.db_empty).1
    = Py.Return 1%nat /\
  (Usage.check_daily_usage 20000 "u1" "food_analyses"
     (Api.process_food_image nat Image.settings Sample.validate_ok
        Sample.analysis_ok 20000 "id-9" [] "u1" Sample.db_empty).2).1
    = Py.Return (0 + 1)%Z.
Proof.
  assert (Hcheck :
    Usage.check_daily_usage 20000 "u1" "food_analyses" Sample.db_empty
    = (Py.Return 0%Z,
       Usage.mkDb (Usage.daily_usage Sample.db_empty) true
         (Usage.statements Sample.db_empty ++
          [Usage.SelectUsage "food_analyses" "u1" 20000]))).
  { rewrite (check_daily_usage_eq 20000 "u1" "food_analyses" Sample.db_empty
               food_analyses_allowed eq_refl).
    reflexivity. }
  split; [reflexivity |].
  apply (process_food_image_counts Image.settings Sample.validate_ok
           Sample.analysis_ok 20000 "id-9" [] "u1" Sample.db_empty
           (Usage.mkDb (Usage.daily_usage Sample.db_empty) true
             (Usage.statements Sample.db_empty ++
              [Usage.SelectUsage "food_analyses" "u1" 20000]))
           (Usage.mkDb (Usage.daily_usage Sample.db_empty) true
             (Usage.statements Sample.db_empty ++
              [Usage.SelectUsage "food_analyses" "u1" 20000]))
           0 0 1%nat eq_refl Hcheck).
  - reflexivity.
  - reflexivity.
  - reflexivity.
  - rewrite check_daily_usage_eq by (try apply food_analyses_allowed; reflexivity).
    reflexivity.
Defined.

Lemma process_food_image_tracking_fails_witness :
  (0 < Image.FREE_TIER_DAILY_LIMIT Image.settings)%Z /\
  (Api.process_food_image nat Image.settings Sample.validate_ok
     Sample.analysis_then_down 20000 "id-9" [] "u1" Sample.db_empty).1
    = Py.Raise Py.DatabaseError.
Proof.
  assert (Hcheck :
    Usage.check_daily_usage 20000 "u1" "food_analyses" Sample.db_empty
    = (Py.Return 0%Z,
       Usage.mkDb (Usage.daily_usage Sample.db_empty) true
         (Usage.statements Sample.db_empty ++
          [Usage.SelectUsage "food_analyses" "u1" 20000]))).
  { rewrite (check_daily_usage_eq 20000 "u1" "food_analyses" Sample.db_empty
               food_analyses_allowed eq_refl).
    reflexivity. }
  split; [reflexivity |].
  apply (process_food_image_tracking_fails Image.settings Sample.validate_ok
           Sample.analysis_then_down 20000 "id-9" [] "u1" Sample.db_empty
           (Usage.mkDb (Usage.daily_usage Sample.db_empty) true
             (Usage.statements Sample.db_empty ++
              [Usage.SelectUsage "food_analyses" "u1" 20000]))
           (Usage.mkDb (Usage.daily_usage Sample.db_empty) false
              (Usage.statements Sample.db_empty ++
               [Usage.SelectUsage "food_analyses" "u1" 20000]))
           0 1%nat eq_refl Hcheck).
  - reflexivity.
  - reflexivity.
  - reflexivity.
Defined.

(** ** Ingredients of several fridge images *)

Lemma keep_best_keys (ing : Fridge.DetectedIngredient)
    (d : list (string * Fridge.DetectedIngredient)) :
  (Fridge.keep_best ing d).*1 =
  if decide (Fridge.name ing ∈ d.*1) then d.*1
  else d.*1 ++ [Fridge.name ing].
Proof.
  induction d as [| [k v] rest IH]; [reflexivity |].
  cbn [Fridge.keep_best]. destruct (String.eqb_spec k (Fridge.name ing)) as [-> | Hne].
  - rewrite decide_True by (cbn; left).
    destruct (Py.Qlt_bool _ _); reflexivity.
  - rewrite fmap_cons, IH. cbn [fst fmap list_fmap].
    destruct (decide (Fridge.name ing ∈ rest.*1)) as [Hin | Hnin].
    + rewrite decide_True by (by right). reflexivity.
    + rewrite decide_False; [reflexivity |].
      intros Hin. apply elem_of_cons in Hin as [Heq | Hin]; congruence.
Qed.

Lemma keep_best_entry (ing : Fridge.DetectedIngredient)
    (d : list (string * Fridge.DetectedIngredient)) :
  NoDup d.*1 ->
  forall k v,
    (k, v) ∈ Fridge.keep_best ing d ->
    ((k, v) ∈ d /\
     (k = Fridge.name ing -> Fridge.confidence ing <= Fridge.confidence v)) \/
    (k = Fridge.name ing /\ v = ing /\
     forall v0, (k, v0) ∈ d -> Fridge.confidence v0 < Fridge.confidence ing).
Proof.
  induction d as [| [k0 v0] rest IH]; intros ND k v Hin.
  - apply list_elem_of_singleton in Hin. injection Hin as -> ->.
    right. split_and!; [reflexivity | reflexivity |].
    intros v0 H0. by apply elem_of_nil in H0.
  - rewrite fmap_cons in ND. apply NoDup_cons in ND as [Hk0 ND]. cbn [fst] in Hk0.
    assert (Hfresh : forall w, (k0, w) ∈ rest -> False).
    { intros w Hw. apply Hk0.
      apply (list_elem_of_fmap_2 fst) in Hw. exact Hw. }
    cbn [Fridge.keep_best] in Hin.
    destruct (String.eqb_spec k0 (Fridge.name ing)) as [Heq | Hne].
    + destruct (Py.Qlt_bool (Fridge.confidence v0) (Fridge.confidence ing)) eqn:Hlt.
      * apply Qlt_bool_true in Hlt.
        apply elem_of_cons in Hin as [[= -> ->] | Hin].
        -- right. split_and!; [exact Heq | reflexivity |].
           intros w Hw. apply elem_of_cons in Hw as [[= ->] | Hw];
             [exact Hlt | destruct (Hfresh _ Hw)].
        -- left. split; [by right |]. intros ->. rewrite <- Heq in Hin.
           destruct (Hfresh _ Hin).
      * apply Qlt_bool_false in Hlt. left. split; [exact Hin |].
        intros ->. apply elem_of_cons in Hin as [[= _ ->] | Hin];
          [exact Hlt |]. rewrite <- Heq in Hin. destruct (Hfresh _ Hin).
    + apply elem_of_cons in Hin as [[= -> ->] | Hin].
      * left. split; [left | congruence].
      * destruct (IH ND k v Hin) as [[H1 H2] | (H1 & H2 & H3)].
        -- left. split; [by right | exact H2].
        -- right. split_and!; [exact H1 | exact H2 |].
           intros w Hw. apply elem_of_cons in Hw as [[= Hk _] | Hw];
             [congruence | by apply H3].
Qed.

Lemma keep_best_invariant (ing : Fridge.DetectedIngredient)
    (d : list (string * Fridge.DetectedIngredient))
    (seen : list Fridge.DetectedIngredient) :
  Spec.best_so_far d seen ->
  Spec.best_so_far (Fridge.keep_best ing d) (seen ++ [ing]).
Proof.
  intros (ND & Hent & Hcov). unfold Spec.best_so_far. split_and!.
  - rewrite keep_best_keys. destruct (decide (Fridge.name ing ∈ d.*1));
      [exact ND |].
    apply NoDup_app. split_and!; [exact ND | | apply NoDup_singleton].
    intros x Hx Hx'. apply list_elem_of_singleton in Hx'. congruence.
  - intros k v Hkv.
    destruct (keep_best_entry ing d ND k v Hkv) as [[Hd Hge] | (-> & -> & Hlt)].
    + destruct (Hent k v Hd) as (Hn & Hs & Hmax). split_and!.
      * exact Hn.
      * apply elem_of_app. by left.
      * intros i Hi Hni. apply elem_of_app in Hi as [Hi | Hi].
        -- by apply Hmax.
        -- apply list_elem_of_singleton in Hi. subst i. apply Hge. congruence.
    + split_and!; [reflexivity | apply elem_of_app; right; left |].
      intros i Hi Hni. apply elem_of_app in Hi as [Hi | Hi].
      * pose proof (Hcov i Hi) as Hk. rewrite Hni in Hk.
        apply list_elem_of_fmap in Hk as ([k' v0] & Hk' & Hv0).
        cbn [fst] in Hk'. subst k'.
        destruct (Hent _ _ Hv0) as (_ & _ & Hmax).
        pose proof (Hmax i Hi Hni). pose proof (Hlt v0 Hv0). lra.
      * apply list_elem_of_singleton in Hi. subst i. lra.
  - intros i Hi. rewrite keep_best_keys.
    apply elem_of_app in Hi as [Hi | Hi].
    + pose proof (Hcov i Hi).
      destruct (decide (Fridge.name ing ∈ d.*1)); [assumption |].
      apply elem_of_app. by left.
    + apply list_elem_of_singleton in Hi. subst i.
      destruct (decide (Fridge.name ing ∈ d.*1)); [assumption |].
      apply elem_of_app. right. left.
Qed.

Lemma keep_best_fold (l : list Fridge.DetectedIngredient) :
  forall d seen,
    Spec.best_so_far d seen ->
    Spec.best_so_far (foldl (fun d ing => Fridge.keep_best ing d) d l)
                     (seen ++ l).
Proof.
  induction l as [| ing l IH]; intros d seen Hinv.
  - rewrite app_nil_r. exact Hinv.
  - cbn [foldl]. replace (seen ++ ing :: l) with ((seen ++ [ing]) ++ l)
      by (rewrite <- app_assoc; reflexivity).
    apply IH, keep_best_invariant, Hinv.
Qed.

Lemma all_ingredients_elem (results : list (Py.Result (list Image.Detection)))
    (i : Fridge.DetectedIngredient) :
  i ∈ Fridge.all_ingredients results <->
  exists result detection,
    Py.Return result ∈ results /\ detection ∈ result /\
    i = Fridge.mkDetectedIngredient (Image.class detection)
          (Image.confidence detection) "unknown".
Proof.
  induction results as [| [result | e] results IH]; cbn [Fridge.all_ingredients].
  - split; [intros H; by apply elem_of_nil in H |].
    intros (r & d & H & _). by apply elem_of_nil in H.
  - rewrite elem_of_app, IH. split.
    + intros [Hin | (r & d & Hr & Hd & ->)].
      * change (map ?f ?l) with (f <$> l) in Hin.
        apply list_elem_of_fmap in Hin as (d & -> & Hd).
        exists result, d. split_and!; [left | exact Hd | reflexivity].
      * exists r, d. split_and!; [by right | exact Hd | reflexivity].
    + intros (r & d & Hr & Hd & ->).
      apply elem_of_cons in Hr as [[= <-] | Hr].
      * left. change (map ?f ?l) with (f <$> l).
        apply (list_elem_of_fmap_2
                 (fun detection =>
                    Fridge.mkDetectedIngredient (Image.class detection)
                      (Image.confidence detection) "unknown") _ d Hd).
      * right. exists r, d. split_and!; [exact Hr | exact Hd | reflexivity].
  - rewrite IH. split.
    + intros (r & d & Hr & Hd & ->). exists r, d.
      split_and!; [by right | exact Hd | reflexivity].
    + intros (r & d & Hr & Hd & ->).
      apply elem_of_cons in Hr as [Hr | Hr]; [discriminate Hr |].
      exists r, d. split_and!; [exact Hr | exact Hd | reflexivity].
Qed.

(** X30. [detect_ingredients_from_images] lists each detected name
    once, with a detection of the largest confidence for that name.
    The detections come from the images that were analysed without an
    exception; an image whose analysis failed contributes nothing and
    does not stop the others. *)
Theorem detect_ingredients_unique_best
    (results : list (Py.Result (list Image.Detection))) :
  let out := Fridge.detect_ingredients_from_images results in
  NoDup (Fridge.name <$> out) /\
  (forall o, o ∈ out ->
     (exists result detection,
        Py.Return result ∈ results /\ detection ∈ result /\
        o = Fridge.mkDetectedIngredient (Image.class detection)
              (Image.confidence detection) "unknown") /\
     forall result detection,
       Py.Return result ∈ results -> detection ∈ result ->
       Image.class detection = Fridge.name o ->
       Image.confidence detection <= Fridge.confidence o) /\
  (forall result detection,
     Py.Return result ∈ results -> detection ∈ result ->
     exists o, o ∈ out /\ Fridge.name o = Image.class detection).
Proof.
  cbv zeta. unfold Fridge.detect_ingredients_from_images.
  assert (Hinit : Spec.best_so_far [] []).
  { split_and!; [constructor | |]; intros; by apply elem_of_nil in H. }
  pose proof (keep_best_fold (Fridge.all_ingredients results) [] [] Hinit)
    as (ND & Hent & Hcov).
  cbn [app] in Hent, Hcov.
  set (d := foldl (fun d ing => Fridge.keep_best ing d) []
              (Fridge.all_ingredients results)) in *.
  change (map snd d) with (d.*2).
  assert (Hnames : Fridge.name <$> d.*2 = d.*1).
  { rewrite <- list_fmap_compose. apply Forall_fmap_ext_1, Forall_forall.
    intros [k v] Hkv. cbn. by destruct (Hent k v Hkv) as [-> _]. }
  split_and!.
  - rewrite Hnames. exact ND.
  - intros o Ho. apply list_elem_of_fmap in Ho as ([k v] & -> & Hkv).
    cbn [snd]. destruct (Hent k v Hkv) as (Hn & Hs & Hmax). split.
    + apply all_ingredients_elem, Hs.
    + intros result detection Hr Hd Hc.
      apply (Hmax (Fridge.mkDetectedIngredient (Image.class detection)
                     (Image.confidence detection) "unknown")).
      * apply all_ingredients_elem. eauto.
      * cbn [Fridge.name]. congruence.
  - intros result detection Hr Hd.
    pose proof (Hcov (Fridge.mkDetectedIngredient (Image.class detection)
                        (Image.confidence detection) "unknown")) as Hk.
    cbn [Fridge.name] in Hk.
    assert (Hin : Image.class detection ∈ d.*1).
    { apply Hk, all_ingredients_elem. eauto. }
    apply list_elem_of_fmap in Hin as ([k v] & Hk' & Hkv). cbn [fst] in Hk'.
    exists v. split.
    + apply (list_elem_of_fmap_2 snd _ (k, v) Hkv).
    + destruct (Hent k v Hkv) as [-> _]. congruence.
Qed.

(** Three photos, one of them failed: milk is listed once, with the
    better of its two confidences, and egg once. *)
Lemma detect_ingredients_sample :
  Fridge.detect_ingredients_from_images Sample.fridge_results =
  [Fridge.mkDetectedIngredient "milk" (8#10) "unknown";
   Fridge.mkDetectedIngredient "egg" (9#10) "unknown"].
Proof. reflexivity. Qed.
